(** * stskit: delay propagation engine (planung.py)

    A shallow embedding of the planning module of stskit and the
    properties of its delay propagation: the correction rules
    ([VerspaetungsKorrektur] and its subclasses), the target graph
    ([Planung.zielgraph]), the sweep [Planung.verspaetungen_korrigieren],
    the ingestion [Planung.zuege_uebernehmen] and the event handler
    [Planung.ereignis_uebernehmen].

    Conventions of the embedding:
    - Python [int] is [Z]; a [datetime.time] is its number of minutes
      since midnight, an attribute that may be [None] is an [option].
    - Python objects that are shared and mutated (trains, timetable rows)
      live in one store, the node attributes of [zugbaum]; a reference to
      a train is its [zid], a reference to a row is the pair of the [zid]
      and the position of the row in [fahrplan].
    - Methods that mutate the engine are functions in the monad [M]:
      they pass the engine state and return a value or a raised Python
      exception.  A raised exception keeps the state reached so far. *)

From Stdlib Require Import ZArith List String Bool Lia.
Import ListNotations.
Open Scope Z_scope.

(** ** Python values *)

(** The exceptions that the module raises or catches. [ReferenceError]
    stands for the use of a row or train reference that is not in the
    store, which Python's object references exclude. [RecursionError]
    is the interpreter's recursion limit. *)
Inductive Exception : Type :=
| AttributeError | IndexError | KeyError | TypeError | ValueError
| ReferenceError | NetworkXUnfeasible | RecursionError.

Definition Exception_eqb (a b : Exception) : bool :=
  match a, b with
  | AttributeError, AttributeError | IndexError, IndexError
  | KeyError, KeyError | TypeError, TypeError | ValueError, ValueError
  | ReferenceError, ReferenceError
  | NetworkXUnfeasible, NetworkXUnfeasible
  | RecursionError, RecursionError => true
  | _, _ => false
  end.

Inductive Result (A : Type) : Type :=
| Ok (a : A)
| Raise (e : Exception).
Arguments Ok {A} a.
Arguments Raise {A} e.

(** [angekommen] and [abgefahren] are [Union[bool, datetime.datetime]]. *)
Inductive Zeitmarke : Type :=
| Falsch
| Wahr
| Zeitpunkt (minuten : Z).

(** Truth value of a [Zeitmarke]: a datetime object is always true. *)
Definition wahr (m : Zeitmarke) : bool :=
  match m with Falsch => false | _ => true end.

(** [m or True] *)
Definition oder_wahr (m : Zeitmarke) : Zeitmarke :=
  if wahr m then m else Wahr.

(** Truth value of an [Optional[int]]: [None] and [0] are false. *)
Definition wahr_zid (z : option Z) : option Z :=
  match z with
  | Some n => if n =? 0 then None else Some n
  | None => None
  end.

Definition hat_zid (z : option Z) : bool :=
  match wahr_zid z with Some _ => true | None => false end.

(** [max] of a Python list of integers that is known not to be empty. *)
Definition py_max (v : list Z) : Z :=
  match v with
  | [] => 0
  | x :: r => fold_left Z.max r x
  end.

(** Position denoted by a Python list index, negative ones counting
    from the end; [None] when the index is out of range. *)
Definition py_position (len : nat) (i : Z) : option nat :=
  let n := Z.of_nat len in
  if (0 <=? i) && (i <? n) then Some (Z.to_nat i)
  else if (i <? 0) && (0 <=? i + n) then Some (Z.to_nat (i + n))
  else None.

(** Length of the slice [l[0:i]]. *)
Definition py_slice_laenge (len : nat) (i : Z) : nat :=
  let n := Z.of_nat len in
  if 0 <=? i then Nat.min len (Z.to_nat i) else Z.to_nat (Z.max 0 (i + n)).

(** [s.replace("Gleis ", empty)]: the occurrences are removed from left to
    right; [skip] counts the characters of an occurrence still to drop. *)
Fixpoint ohne_gleis_ab (skip : nat) (s : string) : string :=
  match s with
  | EmptyString => EmptyString
  | String c r =>
      match skip with
      | S k => ohne_gleis_ab k r
      | O => if String.prefix "Gleis " s then ohne_gleis_ab 5 r
             else String c (ohne_gleis_ab 0 r)
      end
  end.

Definition ohne_gleis (s : string) : string := ohne_gleis_ab 0 s.

(** ** Insertion-ordered dictionaries and networkx's DiGraph

    networkx keeps nodes, successors and predecessors in Python
    dictionaries, which iterate in insertion order and keep the position
    of a key whose value is replaced. *)
Section Dict.
Context {K V : Type}.
Variable eqb : K -> K -> bool.

Fixpoint dict_get (k : K) (d : list (K * V)) : option V :=
  match d with
  | [] => None
  | (k', v) :: r => if eqb k k' then Some v else dict_get k r
  end.

Fixpoint dict_set (k : K) (v : V) (d : list (K * V)) : list (K * V) :=
  match d with
  | [] => [(k, v)]
  | (k', v') :: r =>
      if eqb k k' then (k', v) :: r else (k', v') :: dict_set k v r
  end.

(** [d.setdefault(k, v)] *)
Definition dict_setdefault (k : K) (v : V) (d : list (K * V)) : list (K * V) :=
  match dict_get k d with
  | Some _ => d
  | None => d ++ [(k, v)]
  end.
End Dict.

(** A node carries its attribute dictionary, which is empty ([None]) for
    a node that only [add_edge] created; an edge carries its attributes. *)
Record DiGraph (K A E : Type) : Type := mkDiGraph {
  nodes : list (K * option A);
  edges : list ((K * K) * E)
}.
Arguments mkDiGraph {K A E} nodes edges.
Arguments nodes {K A E} d.
Arguments edges {K A E} d.

Section Graph.
Context {K A E : Type}.
Variable eqb : K -> K -> bool.

Definition paar_eqb (a b : K * K) : bool :=
  eqb (fst a) (fst b) && eqb (snd a) (snd b).

Definition leerer_graph : DiGraph K A E := mkDiGraph [] [].

(** [G.add_node(k, **attr)] with all attributes given. *)
Definition add_node (k : K) (a : A) (g : DiGraph K A E) : DiGraph K A E :=
  mkDiGraph (dict_set eqb k (Some a) (nodes g)) (edges g).

(** [G.add_edge(u, v, **attr)]: missing end points become nodes without
    attributes, an existing edge gets its attributes replaced. *)
Definition add_edge (u v : K) (e : E) (g : DiGraph K A E) : DiGraph K A E :=
  mkDiGraph
    (dict_setdefault eqb v None (dict_setdefault eqb u None (nodes g)))
    (dict_set paar_eqb (u, v) e (edges g)).

(** [G.nodes[k]]: the attributes of a node; the outer [None] is the
    [KeyError] of a node that is not in the graph. *)
Definition node_attr (g : DiGraph K A E) (k : K) : option (option A) :=
  dict_get eqb k (nodes g).

(** Keys of [G.pred[k]] and of [G.succ[k]], in insertion order. *)
Definition predecessors (g : DiGraph K A E) (k : K) : list K :=
  map (fun e => fst (fst e)) (filter (fun e => eqb (snd (fst e)) k) (edges g)).

Definition successors (g : DiGraph K A E) (k : K) : list K :=
  map (fun e => snd (fst e)) (filter (fun e => eqb (fst (fst e)) k) (edges g)).

(** [G.pred[k].items()]: every predecessor with the attribute
    dictionary of the edge from it. *)
Definition pred_items (g : DiGraph K A E) (k : K) : list (K * E) :=
  map (fun e => (fst (fst e), snd e)) (filter (fun e => eqb (snd (fst e)) k) (edges g)).

(** [G.edges(data=True)]: the edges grouped by source node, the
    sources in node order. *)
Definition out_edges (g : DiGraph K A E) : list ((K * K) * E) :=
  flat_map (fun n => filter (fun e => eqb (fst (fst e)) (fst n)) (edges g)) (nodes g).

Definition has_edge (g : DiGraph K A E) (u v : K) : bool :=
  match dict_get paar_eqb (u, v) (edges g) with Some _ => true | None => false end.

Definition in_degree (g : DiGraph K A E) (k : K) : nat :=
  List.length (predecessors g k).

(** [nx.topological_sort]: Kahn's algorithm by generations.  The result
    is the sequence of nodes that the generator yields and whether it
    ends by raising [NetworkXUnfeasible] (some node is left with a
    positive in-degree: the graph has a cycle).  Versions of networkx
    differ in the order of nodes that do not depend on each other; no
    property below depends on it. *)
Fixpoint indegree_senken (child : K) (m : list (K * nat)) : list (K * nat) * bool :=
  match m with
  | [] => ([], false)
  | (k, d) :: r =>
      if eqb child k then
        match d with
        | S (S d') => ((k, S d') :: r, false)
        | _ => (r, true)
        end
      else let (r', z) := indegree_senken child r in ((k, d) :: r', z)
  end.

Definition generation_knoten (g : DiGraph K A E) (node : K)
    (st : list (K * nat) * list K) : list (K * nat) * list K :=
  fold_left
    (fun st child =>
       let (m, z) := indegree_senken child (fst st) in
       (m, if z then snd st ++ [child] else snd st))
    (successors g node) st.

Fixpoint topological_generations (fuel : nat) (g : DiGraph K A E)
    (indegree_map : list (K * nat)) (zero_indegree : list K) : list K * bool :=
  match zero_indegree, fuel with
  | [], _ => ([], match indegree_map with [] => false | _ => true end)
  | _, O => ([], true)
  | this_generation, S fuel' =>
      let (m, z) := fold_left (fun st node => generation_knoten g node st)
                              this_generation (indegree_map, []) in
      let (rest, unfeasible) := topological_generations fuel' g m z in
      (this_generation ++ rest, unfeasible)
  end.

Definition topological_sort (g : DiGraph K A E) : list K * bool :=
  let ks := map fst (nodes g) in
  topological_generations (S (List.length ks)) g
    (filter (fun kd => negb (Nat.eqb (snd kd) 0)) (map (fun k => (k, in_degree g k)) ks))
    (filter (fun k => Nat.eqb (in_degree g k) 0) ks).
End Graph.

(** ** Entity model *)

(** A reference to a timetable row: the train and the position of the
    row in its [fahrplan]. *)
Definition ZielRef : Type := (Z * nat)%type.

(** [ZugZielNode(typ, zid, plangleis)], the key of a target-graph node. *)
Inductive ZielTyp : Type := TypE | TypA | TypB | TypD | TypH.

Definition ZielTyp_eqb (a b : ZielTyp) : bool :=
  match a, b with
  | TypE, TypE | TypA, TypA | TypB, TypB | TypD, TypD | TypH, TypH => true
  | _, _ => false
  end.

Record ZugZielNode : Type := mkNode {
  typ : ZielTyp;
  node_zid : Z;
  plangleis : string
}.

Definition ZugZielNode_eqb (a b : ZugZielNode) : bool :=
  ZielTyp_eqb (typ a) (typ b) && (node_zid a =? node_zid b)
  && String.eqb (plangleis a) (plangleis b).

(** The correction objects. [ursprung] is a reference to a row. *)
Inductive VerspaetungsKorrektur : Type :=
| Basis
| FesteVerspaetung (verspaetung : Z)
| Signalhalt (verspaetung : Z)
| Einfahrtszeit
| PlanmaessigeAbfahrt
| AnkunftAbwarten (ursprung : option ZielRef) (wartezeit : Z)
| AbfahrtAbwarten (ursprung : option ZielRef) (wartezeit : Z)
| Ersatzzug
| Kupplung
| Fluegelung.

(** Modelled from the spec: the flag sub-language of a timetable row
    (parsed in stsobj, which is not among the sources) yields the peer
    train identifiers and the markers read by [ersatz_zid()],
    [kuppel_zid()], [fluegel_zid()], [durchfahrt()],
    [richtungswechsel()], [lokumlauf()] and [lokwechsel()]. *)
Record Flags : Type := mkFlags {
  ersatz_zid : option Z;
  kuppel_zid : option Z;
  fluegel_zid : option Z;
  durchfahrt : bool;
  richtungswechsel : bool;
  lokumlauf : bool;
  lokwechsel : bool
}.

Definition keine_flags : Flags := mkFlags None None None false false false false.

(** Modelled from the spec: a row of the simulator's timetable
    ([stsobj.FahrplanZeile], which is not among the sources), with the
    times as minutes and the flags parsed. *)
Module FahrplanZeile.
Record t : Type := mk {
  gleis : string;
  plan : string;
  an : option Z;
  ab : option Z;
  flags : Flags
}.
End FahrplanZeile.

(** Modelled from the spec: a train of the simulator's snapshot
    ([stsobj.ZugDetails], which is not among the sources), with the
    attributes that the planning module reads. *)
Module ZugDetails.
Record t : Type := mk {
  zid : Z;
  name : string;
  von : string;
  nach : string;
  sichtbar : bool;
  amgleis : bool;
  verspaetung : Z;
  gleis : string;
  plangleis : string;
  fahrplan : list FahrplanZeile.t
}.
End ZugDetails.

(** [ZugZielPlanung]: a timetable row of the planning module. [zid] is
    the [zid] of the owning train ([ziel.zug.zid]); [ersatzzug],
    [kuppelzug] and [fluegelzug] refer to trains of the store. *)
Module Ziel.
Record t : Type := mk {
  zid : Z;
  zielnr : Z;
  gleis : string;
  plan : string;
  an : option Z;
  ab : option Z;
  flags : Flags;
  ersatzzug : option Z;
  kuppelzug : option Z;
  fluegelzug : option Z;
  einfahrt : bool;
  ausfahrt : bool;
  verspaetung_an : Z;
  verspaetung_ab : Z;
  mindestaufenthalt : Z;
  auto_korrektur : option VerspaetungsKorrektur;
  fdl_korrektur : option VerspaetungsKorrektur;
  angekommen : Zeitmarke;
  abgefahren : Zeitmarke
}.

(** [ZugZielPlanung.__init__] after [FahrplanZeile.__init__]. [zielnr]
    is [None] in the source until [assign_zug_details] numbers the rows. *)
Definition neu (zid : Z) : t :=
  mk zid 0 EmptyString EmptyString None None keine_flags None None None false false
     0 0 0 None None Falsch Falsch.

Definition set_zielnr (v : Z) (z : t) : t :=
  mk (zid z) v (gleis z) (plan z) (an z) (ab z) (flags z) (ersatzzug z)
     (kuppelzug z) (fluegelzug z) (einfahrt z) (ausfahrt z)
     (verspaetung_an z) (verspaetung_ab z) (mindestaufenthalt z)
     (auto_korrektur z) (fdl_korrektur z) (angekommen z) (abgefahren z).
Definition set_gleis (v : string) (z : t) : t :=
  mk (zid z) (zielnr z) v (plan z) (an z) (ab z) (flags z) (ersatzzug z)
     (kuppelzug z) (fluegelzug z) (einfahrt z) (ausfahrt z)
     (verspaetung_an z) (verspaetung_ab z) (mindestaufenthalt z)
     (auto_korrektur z) (fdl_korrektur z) (angekommen z) (abgefahren z).
Definition set_ab (v : option Z) (z : t) : t :=
  mk (zid z) (zielnr z) (gleis z) (plan z) (an z) v (flags z) (ersatzzug z)
     (kuppelzug z) (fluegelzug z) (einfahrt z) (ausfahrt z)
     (verspaetung_an z) (verspaetung_ab z) (mindestaufenthalt z)
     (auto_korrektur z) (fdl_korrektur z) (angekommen z) (abgefahren z).
Definition set_ersatzzug (v : option Z) (z : t) : t :=
  mk (zid z) (zielnr z) (gleis z) (plan z) (an z) (ab z) (flags z) v
     (kuppelzug z) (fluegelzug z) (einfahrt z) (ausfahrt z)
     (verspaetung_an z) (verspaetung_ab z) (mindestaufenthalt z)
     (auto_korrektur z) (fdl_korrektur z) (angekommen z) (abgefahren z).
Definition set_kuppelzug (v : option Z) (z : t) : t :=
  mk (zid z) (zielnr z) (gleis z) (plan z) (an z) (ab z) (flags z) (ersatzzug z)
     v (fluegelzug z) (einfahrt z) (ausfahrt z)
     (verspaetung_an z) (verspaetung_ab z) (mindestaufenthalt z)
     (auto_korrektur z) (fdl_korrektur z) (angekommen z) (abgefahren z).
Definition set_fluegelzug (v : option Z) (z : t) : t :=
  mk (zid z) (zielnr z) (gleis z) (plan z) (an z) (ab z) (flags z) (ersatzzug z)
     (kuppelzug z) v (einfahrt z) (ausfahrt z)
     (verspaetung_an z) (verspaetung_ab z) (mindestaufenthalt z)
     (auto_korrektur z) (fdl_korrektur z) (angekommen z) (abgefahren z).
Definition set_verspaetung_an (v : Z) (z : t) : t :=
  mk (zid z) (zielnr z) (gleis z) (plan z) (an z) (ab z) (flags z) (ersatzzug z)
     (kuppelzug z) (fluegelzug z) (einfahrt z) (ausfahrt z)
     v (verspaetung_ab z) (mindestaufenthalt z)
     (auto_korrektur z) (fdl_korrektur z) (angekommen z) (abgefahren z).
Definition set_verspaetung_ab (v : Z) (z : t) : t :=
  mk (zid z) (zielnr z) (gleis z) (plan z) (an z) (ab z) (flags z) (ersatzzug z)
     (kuppelzug z) (fluegelzug z) (einfahrt z) (ausfahrt z)
     (verspaetung_an z) v (mindestaufenthalt z)
     (auto_korrektur z) (fdl_korrektur z) (angekommen z) (abgefahren z).
Definition set_mindestaufenthalt (v : Z) (z : t) : t :=
  mk (zid z) (zielnr z) (gleis z) (plan z) (an z) (ab z) (flags z) (ersatzzug z)
     (kuppelzug z) (fluegelzug z) (einfahrt z) (ausfahrt z)
     (verspaetung_an z) (verspaetung_ab z) v
     (auto_korrektur z) (fdl_korrektur z) (angekommen z) (abgefahren z).
Definition set_auto_korrektur (v : option VerspaetungsKorrektur) (z : t) : t :=
  mk (zid z) (zielnr z) (gleis z) (plan z) (an z) (ab z) (flags z) (ersatzzug z)
     (kuppelzug z) (fluegelzug z) (einfahrt z) (ausfahrt z)
     (verspaetung_an z) (verspaetung_ab z) (mindestaufenthalt z)
     v (fdl_korrektur z) (angekommen z) (abgefahren z).
Definition set_fdl_korrektur (v : option VerspaetungsKorrektur) (z : t) : t :=
  mk (zid z) (zielnr z) (gleis z) (plan z) (an z) (ab z) (flags z) (ersatzzug z)
     (kuppelzug z) (fluegelzug z) (einfahrt z) (ausfahrt z)
     (verspaetung_an z) (verspaetung_ab z) (mindestaufenthalt z)
     (auto_korrektur z) v (angekommen z) (abgefahren z).
Definition set_angekommen (v : Zeitmarke) (z : t) : t :=
  mk (zid z) (zielnr z) (gleis z) (plan z) (an z) (ab z) (flags z) (ersatzzug z)
     (kuppelzug z) (fluegelzug z) (einfahrt z) (ausfahrt z)
     (verspaetung_an z) (verspaetung_ab z) (mindestaufenthalt z)
     (auto_korrektur z) (fdl_korrektur z) v (abgefahren z).
Definition set_abgefahren (v : Zeitmarke) (z : t) : t :=
  mk (zid z) (zielnr z) (gleis z) (plan z) (an z) (ab z) (flags z) (ersatzzug z)
     (kuppelzug z) (fluegelzug z) (einfahrt z) (ausfahrt z)
     (verspaetung_an z) (verspaetung_ab z) (mindestaufenthalt z)
     (auto_korrektur z) (fdl_korrektur z) (angekommen z) v.
End Ziel.

(** [ZugDetailsPlanung]: a train of the planning module. The attributes
    [hinweistext], [usertext] and [usertextsender] are copied by the
    source and read nowhere in the module; they are left out. *)
Module Zug.
Record t : Type := mk {
  zid : Z;
  name : string;
  von : string;
  nach : string;
  gleis : string;
  plangleis : string;
  amgleis : bool;
  sichtbar : bool;
  verspaetung : Z;
  ziel_index : option Z;
  fahrplan : list Ziel.t;
  ausgefahren : bool;
  folgezuege_aufgeloest : bool;
  korrekturen_definiert : bool
}.

(** [ZugDetailsPlanung.__init__] after [ZugDetails.__init__], whose
    [ziel_index] is [None] until [update_zug_details] sets it. *)
Definition neu : t :=
  mk 0 EmptyString EmptyString EmptyString EmptyString EmptyString false false 0 None [] false false false.

Definition set_verspaetung (v : Z) (z : t) : t :=
  mk (zid z) (name z) (von z) (nach z) (gleis z) (plangleis z) (amgleis z)
     (sichtbar z) v (ziel_index z) (fahrplan z) (ausgefahren z)
     (folgezuege_aufgeloest z) (korrekturen_definiert z).
Definition set_fahrplan (v : list Ziel.t) (z : t) : t :=
  mk (zid z) (name z) (von z) (nach z) (gleis z) (plangleis z) (amgleis z)
     (sichtbar z) (verspaetung z) (ziel_index z) v (ausgefahren z)
     (folgezuege_aufgeloest z) (korrekturen_definiert z).
Definition set_ausgefahren (v : bool) (z : t) : t :=
  mk (zid z) (name z) (von z) (nach z) (gleis z) (plangleis z) (amgleis z)
     (sichtbar z) (verspaetung z) (ziel_index z) (fahrplan z) v
     (folgezuege_aufgeloest z) (korrekturen_definiert z).
Definition set_korrekturen_definiert (v : bool) (z : t) : t :=
  mk (zid z) (name z) (von z) (nach z) (gleis z) (plangleis z) (amgleis z)
     (sichtbar z) (verspaetung z) (ziel_index z) (fahrplan z) (ausgefahren z)
     (folgezuege_aufgeloest z) v.
End Zug.

(** Modelled from the spec: an event of the simulator
    ([stsobj.Ereignis], which is not among the sources). *)
Inductive EreignisArt : Type :=
| einfahrt_art | ankunft_art | abfahrt_art | ausfahrt_art | rothalt_art | wurdegruen_art.

Module Ereignis.
Record t : Type := mk {
  art : EreignisArt;
  zid : Z;
  plangleis : string;
  zeit : Z;
  verspaetung : Z;
  amgleis : bool
}.
End Ereignis.

(** Attributes of a target-graph node and of the edges of both graphs. *)
Record ZielDaten : Type := mkZielDaten {
  obj : ZielRef;
  d_zielnr : Z;
  p_an : Z;
  p_ab : Z;
  t_an : Z;
  t_ab : Z;
  v_an : Z;
  v_ab : Z
}.

Inductive ZielKante : Type := KanteP | KanteE | KanteF | KanteK | KanteA.

Record ZugKante : Type := mkZugKante {
  flag : ZielKante;
  k_zielnr : Z
}.

(** The generator object that [nx.topological_sort] returns (networkx 2
    and later, which [to_undirected(as_view=True)] in
    [_zugbaum_analysieren] requires): the nodes that it still yields and
    whether it then raises [NetworkXUnfeasible].  An iteration takes the
    nodes out of it, and a finished generator yields nothing more. *)
Record Generator : Type := mkGenerator {
  rest : list ZugZielNode;
  unfeasible : bool
}.

Inductive LogLevel : Type := DEBUG | WARNING | ERROR.

(** ** The engine state ([Planung])

    [zugliste], [zugbaum_ungerichtet], [zugstamm] and [zielindex_plan]
    are views derived from [zugbaum] that no method of the module reads;
    they are left out. [protokoll] collects the messages given to the
    module's logger. *)
Record Planung : Type := mkPlanung {
  zugbaum : DiGraph Z Zug.t ZugKante;
  zielgraph : DiGraph ZugZielNode ZielDaten ZielKante;
  zielsortierung : Generator;
  zugsortierung : list Z;
  simzeit_minuten : Z;
  protokoll : list (LogLevel * string)
}.

(** [Planung.__init__] *)
Definition Planung_init : Planung :=
  mkPlanung leerer_graph leerer_graph (mkGenerator [] false) [] 0 [].

Definition set_zugbaum (g : DiGraph Z Zug.t ZugKante) (s : Planung) : Planung :=
  mkPlanung g (zielgraph s) (zielsortierung s) (zugsortierung s)
            (simzeit_minuten s) (protokoll s).
Definition set_zielgraph (g : DiGraph ZugZielNode ZielDaten ZielKante) (s : Planung) : Planung :=
  mkPlanung (zugbaum s) g (zielsortierung s) (zugsortierung s)
            (simzeit_minuten s) (protokoll s).
Definition set_zielsortierung (g : Generator) (s : Planung) : Planung :=
  mkPlanung (zugbaum s) (zielgraph s) g (zugsortierung s)
            (simzeit_minuten s) (protokoll s).
Definition set_zugsortierung (l : list Z) (s : Planung) : Planung :=
  mkPlanung (zugbaum s) (zielgraph s) (zielsortierung s) l
            (simzeit_minuten s) (protokoll s).
Definition set_simzeit_minuten (t : Z) (s : Planung) : Planung :=
  mkPlanung (zugbaum s) (zielgraph s) (zielsortierung s) (zugsortierung s)
            t (protokoll s).
Definition set_protokoll (l : list (LogLevel * string)) (s : Planung) : Planung :=
  mkPlanung (zugbaum s) (zielgraph s) (zielsortierung s) (zugsortierung s)
            (simzeit_minuten s) l.

(** ** The monad of the engine's methods *)

Definition M (A : Type) : Type := Planung -> Result A * Planung.

Definition ret {A} (a : A) : M A := fun s => (Ok a, s).

Definition raise {A} (e : Exception) : M A := fun s => (Raise e, s).

Definition bind {A B} (m : M A) (k : A -> M B) : M B :=
  fun s =>
    match m s with
    | (Ok a, s') => k a s'
    | (Raise e, s') => (Raise e, s')
    end.

Declare Scope planung_scope.
Delimit Scope planung_scope with planung.
Notation "x <- m ;; k" := (bind m (fun x => k))
  (at level 61, m at next level, right associativity) : planung_scope.
Notation "m ;; k" := (bind m (fun _ => k))
  (at level 61, right associativity) : planung_scope.
Open Scope planung_scope.

(** [try: m  except (e1, ...): h] *)
Definition versuche {A} (m : M A) (faengt : list Exception) (h : M A) : M A :=
  fun s =>
    match m s with
    | (Ok a, s') => (Ok a, s')
    | (Raise e, s') =>
        if existsb (Exception_eqb e) faengt then h s' else (Raise e, s')
    end.

Definition hebe {A} (r : Result A) : M A := fun s => (r, s).

Definition lies {A} (f : Planung -> A) : M A := fun s => (Ok (f s), s).

Definition aendere (f : Planung -> Planung) : M unit := fun s => (Ok tt, f s).

(** [for x in l: f(x)] *)
Fixpoint fuer {A} (l : list A) (f : A -> M unit) : M unit :=
  match l with
  | [] => ret tt
  | x :: r => f x ;; fuer r f
  end.

Definition logge (lvl : LogLevel) (msg : string) : M unit :=
  aendere (fun s => set_protokoll (protokoll s ++ [(lvl, msg)]) s).

(** ** The store of trains and rows *)

Fixpoint liste_setzen {A} (n : nat) (x : A) (l : list A) : list A :=
  match l, n with
  | [], _ => []
  | _ :: r, O => x :: r
  | y :: r, S n' => y :: liste_setzen n' x r
  end.

(** The train object with the given [zid]: [zugbaum.nodes[zid]['obj']]. *)
Definition zug_von (s : Planung) (zid : Z) : option Zug.t :=
  match node_attr Z.eqb (zugbaum s) zid with
  | Some (Some z) => Some z
  | _ => None
  end.

Definition zug_setzen (zid : Z) (z : Zug.t) (s : Planung) : Planung :=
  set_zugbaum (add_node Z.eqb zid z (zugbaum s)) s.

Definition ziel_von (s : Planung) (r : ZielRef) : option Ziel.t :=
  match zug_von s (fst r) with
  | Some z => nth_error (Zug.fahrplan z) (snd r)
  | None => None
  end.

Definition ziel_setzen (r : ZielRef) (x : Ziel.t) (s : Planung) : Planung :=
  match zug_von s (fst r) with
  | Some z => zug_setzen (fst r)
                (Zug.set_fahrplan (liste_setzen (snd r) x (Zug.fahrplan z)) z) s
  | None => s
  end.

(** [self.zugbaum.nodes[zid]['obj']], which raises [KeyError]. *)
Definition zug_holen (zid : Z) : M Zug.t :=
  fun s => match zug_von s zid with
           | Some z => (Ok z, s)
           | None => (Raise KeyError, s)
           end.

(** Following a reference to a train or to a row. *)
Definition zug_objekt (zid : Z) : M Zug.t :=
  fun s => match zug_von s zid with
           | Some z => (Ok z, s)
           | None => (Raise ReferenceError, s)
           end.

Definition ziel_objekt (r : ZielRef) : M Ziel.t :=
  fun s => match ziel_von s r with
           | Some z => (Ok z, s)
           | None => (Raise ReferenceError, s)
           end.

(** Assignments to attributes of a train or of a row. *)
Definition zug_aendern (zid : Z) (f : Zug.t -> Zug.t) : M unit :=
  z <- zug_objekt zid ;; aendere (zug_setzen zid (f z)).

Definition ziel_aendern (r : ZielRef) (f : Ziel.t -> Ziel.t) : M unit :=
  z <- ziel_objekt r ;; aendere (ziel_setzen r (f z)).

(** Modelled from the spec: [stsobj.time_to_minutes] and
    [stsobj.minutes_to_time], the bijection between a time of day and
    the minutes since midnight.  An absent time has no [hour] attribute:
    the conversion raises [AttributeError], which the module catches. *)
Definition time_to_minutes (t : option Z) : Result Z :=
  match t with
  | Some m => Ok m
  | None => Raise AttributeError
  end.

(** Modelled from the spec: the source makes a [datetime.time], which
    exists for the minutes 0 to 1439 of a day and raises [ValueError]
    outside.  The times of the model are minutes without a bound, so
    that the conversion always gives a time. *)
Definition minutes_to_time (m : Z) : option Z := Some m.

(** Modelled from the spec: [ZugDetails.find_fahrplan_index(plan=...)]
    of stsobj, the position of the first row with the given plan track.
    The module tests its result against [None], the result when no row
    matches. *)
Fixpoint find_fahrplan_index (fahrplan : list Ziel.t) (plan : string) : option nat :=
  match fahrplan with
  | [] => None
  | z :: r =>
      if String.eqb (Ziel.plan z) plan then Some O
      else option_map S (find_fahrplan_index r plan)
  end.

(** ** Correction rules

    Every [anwenden] gets the row as a reference.  The train argument of
    the source is the owner of the row and is only used in log messages.
    [rek] is the call [self._planung.zugverspaetung_korrigieren(...)]. *)

Definition abfahrt_wie_ankunft (z : Ziel.t) : Ziel.t :=
  Ziel.set_verspaetung_ab (Ziel.verspaetung_an z) z.

(** [VerspaetungsKorrektur.anwenden] *)
Definition Basis_anwenden (r : ZielRef) : M unit :=
  ziel_aendern r abfahrt_wie_ankunft.

(** [FesteVerspaetung.anwenden], inherited by [Signalhalt] *)
Definition FesteVerspaetung_anwenden (verspaetung : Z) (r : ZielRef) : M unit :=
  ziel_aendern r (Ziel.set_verspaetung_ab verspaetung).

(** [Einfahrtszeit.anwenden] *)
Definition Einfahrtszeit_anwenden (r : ZielRef) : M unit :=
  ziel <- ziel_objekt r ;;
  match time_to_minutes (Ziel.an ziel) with
  | Raise _ =>
      logge DEBUG "zug hat keine ankunft in zeile" ;;
      ziel_aendern r abfahrt_wie_ankunft
  | Ok plan_an =>
      let plan_ab := match time_to_minutes (Ziel.ab ziel) with
                     | Ok t => t
                     | Raise _ => plan_an
                     end in
      simzeit <- lies simzeit_minuten ;;
      let ankunft := plan_an + Ziel.verspaetung_an ziel in
      let abfahrt := Z.max ankunft simzeit in
      ziel_aendern r (Ziel.set_verspaetung_ab (abfahrt - plan_ab))
  end.

(** [PlanmaessigeAbfahrt.anwenden] *)
Definition PlanmaessigeAbfahrt_anwenden (r : ZielRef) : M unit :=
  ziel <- ziel_objekt r ;;
  match time_to_minutes (Ziel.an ziel) with
  | Raise _ =>
      logge DEBUG "zug hat keine ankunft in zeile" ;;
      ziel_aendern r abfahrt_wie_ankunft
  | Ok plan_an =>
      let plan_ab := match time_to_minutes (Ziel.ab ziel) with
                     | Ok t => t
                     | Raise _ => plan_an + Ziel.mindestaufenthalt ziel
                     end in
      let ankunft := plan_an + Ziel.verspaetung_an ziel in
      let aufenthalt := Z.max (plan_ab - ankunft) (Ziel.mindestaufenthalt ziel) in
      let abfahrt := ankunft + aufenthalt in
      ziel_aendern r (Ziel.set_verspaetung_ab (abfahrt - plan_ab))
  end.

(** The first lines of [AnkunftAbwarten.anwenden] and
    [AbfahrtAbwarten.anwenden]: [plan_an] may be [None], and then
    [plan_an + ziel.mindestaufenthalt] raises [TypeError]. *)
Definition abwarten_planzeiten (ziel : Ziel.t) : Result (Z * Z) :=
  let plan_an := Ziel.an ziel in
  match (match Ziel.ab ziel with
         | Some t => Ok t
         | None => match plan_an with
                   | Some a => Ok (a + Ziel.mindestaufenthalt ziel)
                   | None => Raise TypeError
                   end
         end) with
  | Raise e => Raise e
  | Ok plan_ab =>
      Ok (match plan_an with Some a => a | None => plan_ab end, plan_ab)
  end.

(** [self.ursprung] and its attributes; [None] has none. *)
Definition ursprung_objekt (ursprung : option ZielRef) : M Ziel.t :=
  match ursprung with
  | None => raise AttributeError
  | Some u => ziel_objekt u
  end.

(** [AnkunftAbwarten.anwenden] *)
Definition AnkunftAbwarten_anwenden (ursprung : option ZielRef) (wartezeit : Z)
    (r : ZielRef) : M unit :=
  ziel <- ziel_objekt r ;;
  p <- hebe (abwarten_planzeiten ziel) ;;
  let plan_an := fst p in
  let plan_ab := snd p in
  let ankunft := plan_an + Ziel.verspaetung_an ziel in
  let aufenthalt := Z.max (plan_ab - ankunft) (Ziel.mindestaufenthalt ziel) in
  u <- ursprung_objekt ursprung ;;
  t <- hebe (time_to_minutes (Ziel.an u)) ;;
  let anschluss_an := t + Ziel.verspaetung_an u in
  let anschluss_ab := anschluss_an + wartezeit in
  let abfahrt := Z.max (ankunft + aufenthalt) anschluss_ab in
  ziel_aendern r (Ziel.set_verspaetung_ab (abfahrt - plan_ab)).

(** [AbfahrtAbwarten.anwenden] *)
Definition AbfahrtAbwarten_anwenden (ursprung : option ZielRef) (wartezeit : Z)
    (r : ZielRef) : M unit :=
  ziel <- ziel_objekt r ;;
  p <- hebe (abwarten_planzeiten ziel) ;;
  let plan_an := fst p in
  let plan_ab := snd p in
  let ankunft := plan_an + Ziel.verspaetung_an ziel in
  let aufenthalt := Z.max (plan_ab - ankunft) (Ziel.mindestaufenthalt ziel) in
  u <- ursprung_objekt ursprung ;;
  t <- hebe (time_to_minutes (Ziel.ab u)) ;;
  let anschluss_ab := t + Ziel.verspaetung_ab u in
  let anschluss_ab := anschluss_ab + wartezeit in
  let abfahrt := Z.max (ankunft + aufenthalt) anschluss_ab in
  ziel_aendern r (Ziel.set_verspaetung_ab (abfahrt - plan_ab)).

(** [time_to_minutes(ziel.ersatzzug.fahrplan[0].an)] *)
Definition ersatz_ankunft (ziel : Ziel.t) : M Z :=
  match Ziel.ersatzzug ziel with
  | None => raise AttributeError
  | Some ezid =>
      ersatzzug <- zug_objekt ezid ;;
      match Zug.fahrplan ersatzzug with
      | [] => raise IndexError
      | z0 :: _ => hebe (time_to_minutes (Ziel.an z0))
      end
  end.

(** [Ersatzzug.anwenden] *)
Definition Ersatzzug_anwenden (rek : M unit) (r : ZielRef) : M unit :=
  ziel <- ziel_objekt r ;;
  match time_to_minutes (Ziel.an ziel) with
  | Raise _ =>
      logge DEBUG "zug hat keine ankunft in zeile" ;;
      ziel_aendern r abfahrt_wie_ankunft
  | Ok plan_an =>
      plan_ab <- versuche (ersatz_ankunft ziel) [AttributeError; IndexError]
                   (ret (match time_to_minutes (Ziel.ab ziel) with
                         | Ok t => t
                         | Raise _ => plan_an + Ziel.mindestaufenthalt ziel
                         end)) ;;
      let ankunft := plan_an + Ziel.verspaetung_an ziel in
      let aufenthalt := Z.max (plan_ab - ankunft) (Ziel.mindestaufenthalt ziel) in
      let abfahrt := ankunft + aufenthalt in
      let verspaetung_ab := abfahrt - plan_ab in
      ziel_aendern r (Ziel.set_verspaetung_ab verspaetung_ab) ;;
      ziel_aendern r (Ziel.set_ab (minutes_to_time (abfahrt - verspaetung_ab))) ;;
      match Ziel.ersatzzug ziel with
      | Some ezid =>
          zug_aendern ezid (Zug.set_verspaetung verspaetung_ab) ;;
          rek
      | None => ret tt
      end
  end.

(** The loop of [Kupplung.anwenden]:
    [while abs(kuppel_an - (plan_an + ziel.verspaetung_an)) < 2:
       ziel.verspaetung_an += 1].
    The result is the number of iterations and the last value of
    [ziel.verspaetung_an], or [None] when [fuel] tests do not end it. *)
Definition kuppel_bedingung (kuppel_an plan_an verspaetung_an : Z) : bool :=
  Z.abs (kuppel_an - (plan_an + verspaetung_an)) <? 2.

Fixpoint kuppel_schleife (fuel : nat) (kuppel_an plan_an verspaetung_an : Z)
    : option (nat * Z) :=
  match fuel with
  | O => None
  | S fuel' =>
      if kuppel_bedingung kuppel_an plan_an verspaetung_an then
        match kuppel_schleife fuel' kuppel_an plan_an (verspaetung_an + 1) with
        | Some (n, v) => Some (S n, v)
        | None => None
        end
      else Some (O, verspaetung_an)
  end.

(** Number of iterations that the loop cannot exceed. *)
Definition kuppel_schranke (kuppel_an plan_an verspaetung_an : Z) : nat :=
  Z.to_nat (Z.max 0 (kuppel_an - plan_an - verspaetung_an) + 2).

(** The [try] block of [Kupplung.anwenden] that determines [kuppel_an]. *)
Definition kuppel_ankunft (rek : M unit) (r : ZielRef) : M Z :=
  rek ;;
  ziel <- ziel_objekt r ;;
  match Ziel.kuppelzug ziel with
  | None => raise AttributeError
  | Some kzid =>
      kuppelzug <- zug_objekt kzid ;;
      match find_fahrplan_index (Zug.fahrplan kuppelzug) (Ziel.plan ziel) with
      | None => raise TypeError
      | Some kuppel_index =>
          match nth_error (Zug.fahrplan kuppelzug) kuppel_index with
          | None => raise IndexError
          | Some kuppel_ziel =>
              let kuppel_verspaetung := Ziel.verspaetung_an kuppel_ziel in
              t <- hebe (time_to_minutes (Ziel.an kuppel_ziel)) ;;
              ret (t + kuppel_verspaetung)
          end
      end
  end.

(** [Kupplung.anwenden] *)
Definition Kupplung_anwenden (rek : M unit) (r : ZielRef) : M unit :=
  ziel <- ziel_objekt r ;;
  match time_to_minutes (Ziel.an ziel) with
  | Raise _ =>
      logge WARNING "zug hat keine ankunft in zeile" ;;
      ziel_aendern r abfahrt_wie_ankunft
  | Ok plan_an =>
      let plan_ab := match time_to_minutes (Ziel.ab ziel) with
                     | Ok t => t
                     | Raise _ => plan_an + Ziel.mindestaufenthalt ziel
                     end in
      kuppel_an <- versuche (kuppel_ankunft rek r) [AttributeError; IndexError] (ret 0) ;;
      ziel <- ziel_objekt r ;;
      match kuppel_schleife (S (kuppel_schranke kuppel_an plan_an (Ziel.verspaetung_an ziel)))
                            kuppel_an plan_an (Ziel.verspaetung_an ziel) with
      | None => raise RecursionError
      | Some (_, verspaetung_an) =>
          ziel_aendern r (Ziel.set_verspaetung_an verspaetung_an) ;;
          let ankunft := plan_an + verspaetung_an in
          let aufenthalt := Z.max (plan_ab - ankunft) (Ziel.mindestaufenthalt ziel) in
          let abfahrt := Z.max (ankunft + aufenthalt) kuppel_an in
          ziel_aendern r (Ziel.set_verspaetung_ab (abfahrt - plan_ab)) ;;
          match Ziel.kuppelzug ziel with
          | Some _ => rek
          | None => ret tt
          end
      end
  end.

(** [ziel.fluegelzug.fahrplan[0].verspaetung_an = ...] *)
Definition erstes_ziel_aendern (zid : Z) (f : Ziel.t -> Ziel.t) : M unit :=
  zug <- zug_objekt zid ;;
  match Zug.fahrplan zug with
  | [] => raise IndexError
  | _ :: _ => ziel_aendern (zid, O) f
  end.

(** [Fluegelung.anwenden] *)
Definition Fluegelung_anwenden (rek : M unit) (r : ZielRef) : M unit :=
  ziel <- ziel_objekt r ;;
  match time_to_minutes (Ziel.an ziel) with
  | Raise _ =>
      logge WARNING "zug hat keine ankunft in zeile" ;;
      ziel_aendern r abfahrt_wie_ankunft
  | Ok plan_an =>
      let plan_ab := match time_to_minutes (Ziel.ab ziel) with
                     | Ok t => t
                     | Raise _ => plan_an + Ziel.mindestaufenthalt ziel
                     end in
      let ankunft := plan_an + Ziel.verspaetung_an ziel in
      let aufenthalt := Z.max (plan_ab - ankunft) (Ziel.mindestaufenthalt ziel) in
      let abfahrt := ankunft + aufenthalt in
      ziel_aendern r (Ziel.set_verspaetung_ab (abfahrt - plan_ab)) ;;
      match Ziel.fluegelzug ziel with
      | Some fzid =>
          zug_aendern fzid (Zug.set_verspaetung (Ziel.verspaetung_an ziel)) ;;
          erstes_ziel_aendern fzid (Ziel.set_verspaetung_an (Ziel.verspaetung_an ziel)) ;;
          rek
      | None => ret tt
      end
  end.

(** Dispatch of [korrektur.anwenden(zug, ziel)] on the class of the
    correction object. *)
Definition anwenden (rek : M unit) (k : VerspaetungsKorrektur) (r : ZielRef) : M unit :=
  match k with
  | Basis => Basis_anwenden r
  | FesteVerspaetung v => FesteVerspaetung_anwenden v r
  | Signalhalt v => FesteVerspaetung_anwenden v r
  | Einfahrtszeit => Einfahrtszeit_anwenden r
  | PlanmaessigeAbfahrt => PlanmaessigeAbfahrt_anwenden r
  | AnkunftAbwarten u w => AnkunftAbwarten_anwenden u w r
  | AbfahrtAbwarten u w => AbfahrtAbwarten_anwenden u w r
  | Ersatzzug => Ersatzzug_anwenden rek r
  | Kupplung => Kupplung_anwenden rek r
  | Fluegelung => Fluegelung_anwenden rek r
  end.

(** ** The sweep [Planung.verspaetungen_korrigieren] *)

(** [next(self.zielsortierung)]: [None] is the end of the iteration.  A
    generator that has raised is finished. *)
Definition naechster_knoten : M (option ZugZielNode) :=
  fun s =>
    let g := zielsortierung s in
    match rest g with
    | node :: r => (Ok (Some node), set_zielsortierung (mkGenerator r (unfeasible g)) s)
    | [] =>
        if unfeasible g
        then (Raise NetworkXUnfeasible, set_zielsortierung (mkGenerator [] false) s)
        else (Ok None, s)
    end.

(** [data = self.zielgraph.nodes[node]] followed by a read of an
    attribute that [add_node] sets. *)
Definition knoten_daten (node : ZugZielNode) : M ZielDaten :=
  fun s =>
    match node_attr ZugZielNode_eqb (zielgraph s) node with
    | Some (Some d) => (Ok d, s)
    | _ => (Raise KeyError, s)
    end.

Definition set_v_an (v : Z) (d : ZielDaten) : ZielDaten :=
  mkZielDaten (obj d) (d_zielnr d) (p_an d) (p_ab d) (t_an d) (t_ab d) v (v_ab d).

Definition set_v_ab (v : Z) (d : ZielDaten) : ZielDaten :=
  mkZielDaten (obj d) (d_zielnr d) (p_an d) (p_ab d) (t_an d) (t_ab d) (v_an d) v.

(** [data[...] = ...] on the attribute dictionary of a node. *)
Definition knoten_daten_aendern (node : ZugZielNode) (f : ZielDaten -> ZielDaten) : M unit :=
  d <- knoten_daten node ;;
  aendere (fun s => set_zielgraph (add_node ZugZielNode_eqb node (f d) (zielgraph s)) s).

(** [pred_data['v_ab']] for an item of [self.zielgraph.pred[node]]:
    networkx's [G.pred[node]] maps a predecessor to the attribute
    dictionary of the edge, and the edges of the target graph carry the
    attribute ['typ'] only, so the key is missing. *)
Definition kante_v_ab (pred_data : ZielKante) : Result Z := Raise KeyError.

(** A list comprehension whose element expression may raise. *)
Fixpoint sammle {A} (l : list (Result A)) : Result (list A) :=
  match l with
  | [] => Ok []
  | Raise e :: _ => Raise e
  | Ok a :: r => match sammle r with
                 | Ok r' => Ok (a :: r')
                 | Raise e => Raise e
                 end
  end.

(** First half of the loop body: the arrival delay of the node. *)
Definition ankunft_schaetzen (node : ZugZielNode) : M unit :=
  data <- knoten_daten node ;;
  let r := obj data in
  ziel <- ziel_objekt r ;;
  zug <- zug_objekt (Ziel.zid ziel) ;;
  v_an <- (if negb (wahr (Ziel.angekommen ziel)) then
             g <- lies zielgraph ;;
             v <- hebe (sammle (map (fun p => kante_v_ab (snd p))
                                    (pred_items ZugZielNode_eqb g node))) ;;
             if Ziel.einfahrt ziel
                || String.eqb (Zug.plangleis zug) (Ziel.plan ziel)
                || Nat.eqb (List.length v) 0
             then
               ziel_aendern r (Ziel.set_verspaetung_an (Zug.verspaetung zug)) ;;
               ret (py_max (v ++ [Zug.verspaetung zug]))
             else ret (py_max v)
           else ret (Ziel.verspaetung_an ziel)) ;;
  knoten_daten_aendern node (set_v_an v_an).

(** Second half of the loop body: the departure delay of the node. *)
Definition abfahrt_korrigieren (rek : M unit) (node : ZugZielNode) : M unit :=
  data <- knoten_daten node ;;
  let r := obj data in
  ziel <- ziel_objekt r ;;
  (if negb (wahr (Ziel.abgefahren ziel)) then
     match Ziel.fdl_korrektur ziel with
     | Some k => anwenden rek k r
     | None =>
         match Ziel.auto_korrektur ziel with
         | Some k => anwenden rek k r
         | None => ziel_aendern r abfahrt_wie_ankunft
         end
     end
   else ret tt) ;;
  ziel <- ziel_objekt r ;;
  knoten_daten_aendern node (set_v_ab (Ziel.verspaetung_ab ziel)).

Definition knoten_korrigieren (rek : M unit) (node : ZugZielNode) : M unit :=
  ankunft_schaetzen node ;;
  abfahrt_korrigieren rek node.

(** The loop [for node in self.zielsortierung] together with the calls
    of [zugverspaetung_korrigieren] that the correction rules make while
    the loop runs: all of them draw from the same generator.  [fuel]
    bounds the depth of the calls. *)
Fixpoint korrigieren_schleife (fuel : nat) : M unit :=
  match fuel with
  | O => raise RecursionError
  | S fuel' =>
      n <- naechster_knoten ;;
      match n with
      | None => ret tt
      | Some node =>
          knoten_korrigieren (korrigieren_schleife fuel') node ;;
          korrigieren_schleife fuel'
      end
  end.

(** Number of nodes that the generator still yields; every call takes
    one of them before it calls again. *)
Definition restknoten (s : Planung) : nat := List.length (rest (zielsortierung s)).

(** [Planung.verspaetungen_korrigieren] *)
Definition verspaetungen_korrigieren : M unit :=
  fun s => korrigieren_schleife (S (restknoten s)) s.

(** [Planung.zugverspaetung_korrigieren] *)
Definition zugverspaetung_korrigieren (zug : option Z) : M unit :=
  verspaetungen_korrigieren.

(** ** Ingestion *)

(** [ZugZielPlanung.assign_fahrplan_zeile] on a new row of train [zid]. *)
Definition assign_fahrplan_zeile (zid : Z) (zeile : FahrplanZeile.t) : Ziel.t :=
  Ziel.mk zid 0 (FahrplanZeile.gleis zeile) (FahrplanZeile.plan zeile)
          (FahrplanZeile.an zeile) (FahrplanZeile.ab zeile) (FahrplanZeile.flags zeile)
          None None None false false 0 0 0 None None Falsch Falsch.

(** The synthetic row of an entry ([einfahrt = true]) or of an exit. *)
Definition randziel (zid : Z) (gleis : string) (zeit : option Z) (einfahrt : bool) : Ziel.t :=
  Ziel.mk zid 0 gleis gleis zeit zeit keine_flags None None None
          einfahrt (negb einfahrt) 0 0 0 None None Falsch Falsch.

Definition nicht_leer (s : string) : bool :=
  match s with EmptyString => false | _ => true end.

(** [for n, z in enumerate(self.fahrplan): z.zielnr = n * 1000] *)
Fixpoint zielnr_setzen (n : Z) (l : list Ziel.t) : list Ziel.t :=
  match l with
  | [] => []
  | z :: r => Ziel.set_zielnr (n * 1000) z :: zielnr_setzen (n + 1) r
  end.

(** [for x in l[0:k]: f(x)] on a list of objects *)
Definition ersten_aendern {A} (k : nat) (f : A -> A) (l : list A) : list A :=
  map f (firstn k l) ++ skipn k l.

(** The rows before the current one of a train that is first seen
    inside the area. *)
Definition startaufstellung (zug : ZugDetails.t) (fahrplan : list Ziel.t)
    : Result (list Ziel.t) :=
  let ziel_index :=
    match find_fahrplan_index fahrplan (ZugDetails.plangleis zug) with
    | Some i => Z.of_nat i
    | None => -1
    end in
  let fahrplan1 :=
    ersten_aendern (py_slice_laenge (List.length fahrplan) ziel_index)
      (fun z => Ziel.set_verspaetung_an (ZugDetails.verspaetung zug)
                  (Ziel.set_verspaetung_ab (ZugDetails.verspaetung zug)
                     (Ziel.set_angekommen Wahr (Ziel.set_abgefahren Wahr z))))
      fahrplan in
  if ZugDetails.amgleis zug then
    match py_position (List.length fahrplan1) ziel_index with
    | None => Raise IndexError
    | Some i =>
        match nth_error fahrplan1 i with
        | None => Raise IndexError
        | Some z =>
            Ok (liste_setzen i
                  (Ziel.set_verspaetung_an (ZugDetails.verspaetung zug)
                     (Ziel.set_angekommen Wahr z)) fahrplan1)
        end
    end
  else Ok fahrplan1.

(** [ZugDetailsPlanung.assign_zug_details] on a new object *)
Definition assign_zug_details (zug : ZugDetails.t) : Result Zug.t :=
  let zid := ZugDetails.zid zug in
  let von := if nicht_leer (ZugDetails.von zug) then ohne_gleis (ZugDetails.von zug) else EmptyString in
  let nach := if nicht_leer (ZugDetails.nach zug) then ohne_gleis (ZugDetails.nach zug) else EmptyString in
  let einfahrt :=
    if negb (ZugDetails.sichtbar zug) && nicht_leer von
       && negb (String.prefix "Gleis" (ZugDetails.von zug))
    then [randziel zid von
            (match ZugDetails.fahrplan zug with
             | z :: _ => FahrplanZeile.an z
             | [] => None
             end) true]
    else [] in
  let ausfahrt :=
    if nicht_leer nach && negb (String.prefix "Gleis" (ZugDetails.nach zug))
    then [randziel zid nach
            (match rev (ZugDetails.fahrplan zug) with
             | z :: _ => FahrplanZeile.ab z
             | [] => None
             end) false]
    else [] in
  let fahrplan :=
    zielnr_setzen 0
      (einfahrt ++ map (assign_fahrplan_zeile zid) (ZugDetails.fahrplan zug) ++ ausfahrt) in
  match (if ZugDetails.sichtbar zug then startaufstellung zug fahrplan else Ok fahrplan) with
  | Raise e => Raise e
  | Ok fahrplan' =>
      Ok (Zug.mk zid (ZugDetails.name zug) von nach EmptyString EmptyString false false 0 None
                 fahrplan' false false false)
  end.

(** [ziel = self.find_fahrplanzeile(plan=zeile.plan)] followed by
    [ziel.update_fahrplan_zeile(zeile)]; no row: [AttributeError], caught. *)
Definition update_fahrplan_zeile (fahrplan : list Ziel.t) (zeile : FahrplanZeile.t)
    : list Ziel.t :=
  match find_fahrplan_index fahrplan (FahrplanZeile.plan zeile) with
  | Some i =>
      match nth_error fahrplan i with
      | Some z => liste_setzen i (Ziel.set_gleis (FahrplanZeile.gleis zeile) z) fahrplan
      | None => fahrplan
      end
  | None => fahrplan
  end.

(** [ZugDetailsPlanung.update_zug_details] *)
Definition update_zug_details (self : Zug.t) (zug : ZugDetails.t) : Zug.t :=
  let gleis := if nicht_leer (ZugDetails.gleis zug) then ZugDetails.gleis zug
               else Zug.nach self in
  let plangleis := if nicht_leer (ZugDetails.gleis zug) then ZugDetails.plangleis zug
                   else Zug.nach self in
  let fahrplan := fold_left update_fahrplan_zeile (ZugDetails.fahrplan zug) (Zug.fahrplan self) in
  let ziel_index :=
    match find_fahrplan_index fahrplan (ZugDetails.plangleis zug) with
    | Some i => Some (Z.of_nat i)
    | None => if nicht_leer (ZugDetails.plangleis zug) then Zug.ziel_index self
              else Some (-1)
    end in
  Zug.mk (Zug.zid self) (Zug.name self) (Zug.von self) (Zug.nach self)
         gleis plangleis (ZugDetails.amgleis zug) (ZugDetails.sichtbar zug)
         (ZugDetails.verspaetung zug) ziel_index fahrplan
         (Zug.ausgefahren self) (Zug.folgezuege_aufgeloest self)
         (Zug.korrekturen_definiert self).

(** Body of the first loop of [zuege_uebernehmen]. *)
Definition zug_uebernehmen (zug : ZugDetails.t) : M unit :=
  s <- lies (fun s => s) ;;
  match zug_von s (ZugDetails.zid zug) with
  | None =>
      zug_planung <- hebe (assign_zug_details zug) ;;
      aendere (zug_setzen (ZugDetails.zid zug) (update_zug_details zug_planung zug))
  | Some zug_planung =>
      aendere (zug_setzen (ZugDetails.zid zug) (update_zug_details zug_planung zug))
  end.

(** The assignments to a train that has left the area. *)
Definition ausgefahren_setzen (zug : Zug.t) : Zug.t :=
  Zug.mk (Zug.zid zug) (Zug.name zug) (Zug.von zug) (Zug.nach zug)
         EmptyString EmptyString false false (Zug.verspaetung zug) (Zug.ziel_index zug)
         (map (fun zeile => Ziel.set_abgefahren (oder_wahr (Ziel.abgefahren zeile)) zeile)
              (Zug.fahrplan zug))
         true (Zug.folgezuege_aufgeloest zug) (Zug.korrekturen_definiert zug).

(** Body of the second loop of [zuege_uebernehmen]. *)
Definition ausfahrt_markieren (zid : Z) : M unit :=
  s <- lies (fun s => s) ;;
  match zug_von s zid with
  | None => ret tt
  | Some zug =>
      if Zug.sichtbar zug then aendere (zug_setzen zid (ausgefahren_setzen zug))
      else ret tt
  end.

Definition zid_in (zid : Z) (zuege : list ZugDetails.t) : bool :=
  existsb (fun zug => ZugDetails.zid zug =? zid) zuege.

(** [Planung._zugziel_node] with the type derived from the row *)
Definition ziel_typ (ziel : Ziel.t) : ZielTyp :=
  if Ziel.einfahrt ziel then TypE
  else if Ziel.ausfahrt ziel then TypA
  else if Ziel.zielnr ziel >? Z.quot (Ziel.zielnr ziel) 1000 * 1000 then TypB
  else if durchfahrt (Ziel.flags ziel) then TypD
  else TypH.

Definition _zugziel_node (ziel : Ziel.t) : ZugZielNode :=
  mkNode (ziel_typ ziel) (Ziel.zid ziel) (Ziel.plan ziel).

Definition zielgraph_add_edge (u v : ZugZielNode) (t : ZielKante) : M unit :=
  aendere (fun s => set_zielgraph (add_edge ZugZielNode_eqb u v t (zielgraph s)) s).

Definition zugbaum_add_edge (u v : Z) (k : ZugKante) : M unit :=
  aendere (fun s => set_zugbaum (add_edge Z.eqb u v k (zugbaum s)) s).

(** The edges to a peer train named by a flag of the row. *)
Definition folgezug_kante (zid2 : Z) (ziel2 : Ziel.t) (peer : option Z) (t : ZielKante)
    : M unit :=
  match wahr_zid peer with
  | Some zid =>
      zielgraph_add_edge (_zugziel_node ziel2) (mkNode TypH zid (Ziel.plan ziel2)) t ;;
      zugbaum_add_edge zid2 zid (mkZugKante t (Ziel.zielnr ziel2))
  | None => ret tt
  end.

(** [ziel2.fdl_korrektur.ursprung]: only the two waiting corrections
    have the attribute. *)
Definition korrektur_ursprung (k : VerspaetungsKorrektur) : M (option ZielRef) :=
  match k with
  | AnkunftAbwarten u _ => ret u
  | AbfahrtAbwarten u _ => ret u
  | _ => raise AttributeError
  end.

(** The edge from the row that a dispatcher correction waits for. *)
Definition abwarten_kante (ziel2 : Ziel.t) : M unit :=
  match Ziel.fdl_korrektur ziel2 with
  | Some k =>
      versuche (u <- korrektur_ursprung k ;;
                ursprung <- ursprung_objekt u ;;
                zielgraph_add_edge (_zugziel_node ursprung) (_zugziel_node ziel2) KanteA)
               [AttributeError] (ret tt)
  | None => ret tt
  end.

(** Body of the inner loop of [_zielgraph_erstellen] for the row at
    position [idx]; [zzid1] is the node of the row before it. *)
Definition ziel_eintragen (zid2 : Z) (zug : Zug.t) (zzid1 : option ZugZielNode)
    (idx : nat) (ziel2 : Ziel.t) : M unit :=
  let zzid2 := _zugziel_node ziel2 in
  let plan_an := Ziel.an ziel2 in
  let plan_ab := match Ziel.ab ziel2 with Some t => Some t | None => plan_an end in
  let plan_an := match plan_an with Some t => Some t | None => plan_ab end in
  match plan_an, plan_ab with
  | Some pa, Some pb =>
      aendere (fun s =>
        set_zielgraph
          (add_node ZugZielNode_eqb zzid2
             (mkZielDaten (zid2, idx) (Ziel.zielnr ziel2) pa pb
                (pa + Zug.verspaetung zug) (pb + Zug.verspaetung zug)
                (Zug.verspaetung zug) (Zug.verspaetung zug))
             (zielgraph s)) s)
  | _, _ => raise TypeError
  end ;;
  match zzid1 with
  | Some n1 => zielgraph_add_edge n1 zzid2 KanteP
  | None => ret tt
  end ;;
  folgezug_kante zid2 ziel2 (ersatz_zid (Ziel.flags ziel2)) KanteE ;;
  folgezug_kante zid2 ziel2 (kuppel_zid (Ziel.flags ziel2)) KanteK ;;
  folgezug_kante zid2 ziel2 (fluegel_zid (Ziel.flags ziel2)) KanteF ;;
  abwarten_kante ziel2.

Fixpoint fahrplan_eintragen (zid2 : Z) (zug : Zug.t) (zzid1 : option ZugZielNode)
    (idx : nat) (fahrplan : list Ziel.t) : M unit :=
  match fahrplan with
  | [] => ret tt
  | ziel2 :: r =>
      ziel_eintragen zid2 zug zzid1 idx ziel2 ;;
      fahrplan_eintragen zid2 zug (Some (_zugziel_node ziel2)) (S idx) r
  end.

(** [Planung._zielgraph_erstellen].  The call of [nx.topological_sort]
    makes a generator and runs none of its code, so that the handler of
    [NetworkXUnfeasible] around it is never entered.  The model takes
    the nodes of the generator from the graph as it is at this point,
    where networkx reads the graph at the first [next].  The two agree
    when the method returns, since nothing changes the nodes and edges
    of the graph before the next call replaces the generator.  They
    differ after a call that raises before this point: the old
    generator stays, the model keeps its nodes, and a generator of
    networkx that has not been started would read the graph as the
    call has left it. *)
Definition _zielgraph_erstellen : M unit :=
  knoten <- lies (fun s => nodes (zugbaum s)) ;;
  fuer knoten (fun n =>
    match snd n with
    | None => ret tt
    | Some zug => fahrplan_eintragen (fst n) zug None O (Zug.fahrplan zug)
    end) ;;
  aendere (fun s =>
    let (l, u) := topological_sort ZugZielNode_eqb (zielgraph s) in
    set_zielsortierung (mkGenerator l u) s).

(** [ZugDetailsPlanung.find_fahrplan_zielnr], as a position *)
Fixpoint find_fahrplan_zielnr (fahrplan : list Ziel.t) (zielnr : Z) : Result nat :=
  match fahrplan with
  | [] => Raise ValueError
  | z :: r =>
      if Ziel.zielnr z =? zielnr then Ok O
      else match find_fahrplan_zielnr r zielnr with
           | Ok i => Ok (S i)
           | Raise e => Raise e
           end
  end.

(** Body of the loop of [_folgezuege_aufloesen]. *)
Definition folgezug_aufloesen (kante : (Z * Z) * ZugKante) : M unit :=
  let zid1 := fst (fst kante) in
  let zid2 := snd (fst kante) in
  let d := snd kante in
  s <- lies (fun s => s) ;;
  match zug_von s zid1 with
  | None => ret tt
  | Some zug1 =>
      i <- hebe (find_fahrplan_zielnr (Zug.fahrplan zug1) (k_zielnr d)) ;;
      let zug2 := match zug_von s zid2 with Some _ => Some zid2 | None => None end in
      match flag d with
      | KanteE => ziel_aendern (zid1, i) (Ziel.set_ersatzzug zug2)
      | KanteK => ziel_aendern (zid1, i) (Ziel.set_kuppelzug zug2)
      | KanteF => ziel_aendern (zid1, i) (Ziel.set_fluegelzug zug2)
      | _ => ret tt
      end
  end.

(** [Planung._folgezuege_aufloesen] *)
Definition _folgezuege_aufloesen : M unit :=
  kanten <- lies (fun s => out_edges Z.eqb (zugbaum s)) ;;
  fuer kanten folgezug_aufloesen.

(** [Planung._zugbaum_analysieren]: the list of the generator's nodes is
    built before the assignment, and an exception of the generator ends
    the method. *)
Definition _zugbaum_analysieren : M unit :=
  g <- lies zugbaum ;;
  let (l, u) := topological_sort Z.eqb g in
  if u then raise NetworkXUnfeasible
  else aendere (set_zugsortierung l).

(** [x.auto_korrektur = anschluss] for the row found by [suche] in the
    peer train; a missing train or row raises and gives [False]. *)
Definition anschluss_setzen (peer : option Z) (suche : list Ziel.t -> Result nat)
    (anschluss : VerspaetungsKorrektur) : M bool :=
  versuche
    (match peer with
     | None => raise AttributeError
     | Some pzid =>
         zug <- zug_objekt pzid ;;
         i <- hebe (suche (Zug.fahrplan zug)) ;;
         ziel_aendern (pzid, i) (Ziel.set_auto_korrektur (Some anschluss)) ;;
         ret true
     end)
    [AttributeError; IndexError] (ret false).

Definition erstes_ziel (fahrplan : list Ziel.t) : Result nat :=
  match fahrplan with [] => Raise IndexError | _ :: _ => Ok O end.

Definition ziel_mit_plan (plan : string) (fahrplan : list Ziel.t) : Result nat :=
  match find_fahrplan_index fahrplan plan with
  | Some i => Ok i
  | None => Raise AttributeError
  end.

(** [Planung.ziel_korrekturen_definieren] *)
Definition ziel_korrekturen_definieren (r : ZielRef) : M bool :=
  ziel <- ziel_objekt r ;;
  let f := Ziel.flags ziel in
  (if richtungswechsel f then ziel_aendern r (Ziel.set_mindestaufenthalt 2)
   else if lokumlauf f then ziel_aendern r (Ziel.set_mindestaufenthalt 2)
   else if lokwechsel f then ziel_aendern r (Ziel.set_mindestaufenthalt 5)
   else ret tt) ;;
  let mindestens_1 :=
    ziel_aendern r (fun z => Ziel.set_mindestaufenthalt (Z.max (Ziel.mindestaufenthalt z) 1) z) in
  if Ziel.einfahrt ziel then
    ziel_aendern r (Ziel.set_auto_korrektur (Some Einfahrtszeit)) ;; ret true
  else if Ziel.ausfahrt ziel then ret true
  else if durchfahrt f then ret true
  else if hat_zid (ersatz_zid f) then
    ziel_aendern r (Ziel.set_auto_korrektur (Some Ersatzzug)) ;;
    mindestens_1 ;;
    anschluss_setzen (Ziel.ersatzzug ziel) erstes_ziel (AnkunftAbwarten (Some r) 0)
  else if hat_zid (kuppel_zid f) then
    ziel_aendern r (Ziel.set_auto_korrektur (Some Kupplung)) ;;
    mindestens_1 ;;
    anschluss_setzen (Ziel.kuppelzug ziel) (ziel_mit_plan (Ziel.plan ziel))
                     (AnkunftAbwarten (Some r) 0)
  else if hat_zid (fluegel_zid f) then
    ziel_aendern r (Ziel.set_auto_korrektur (Some Fluegelung)) ;;
    mindestens_1 ;;
    anschluss_setzen (Ziel.fluegelzug ziel) erstes_ziel (AbfahrtAbwarten (Some r) 2)
  else
    match Ziel.auto_korrektur ziel with
    | None => ziel_aendern r (Ziel.set_auto_korrektur (Some PlanmaessigeAbfahrt)) ;; ret true
    | Some _ => ret true
    end.

(** [Planung.zug_korrekturen_definieren]: every row is visited. *)
Fixpoint ziele_korrekturen_definieren (zid : Z) (idx n : nat) (result : bool) : M bool :=
  match n with
  | O => ret result
  | S n' =>
      ziel_result <- ziel_korrekturen_definieren (zid, idx) ;;
      ziele_korrekturen_definieren zid (S idx) n' (result && ziel_result)
  end.

Definition zug_korrekturen_definieren (zid : Z) : M bool :=
  zug <- zug_objekt zid ;;
  ziele_korrekturen_definieren zid O (List.length (Zug.fahrplan zug)) true.

(** [Planung.korrekturen_definieren]; [self.zuege()] skips the
    identifiers of [zugsortierung] without a train object. *)
Definition korrekturen_definieren : M unit :=
  zids <- lies zugsortierung ;;
  fuer zids (fun zid =>
    s <- lies (fun s => s) ;;
    match zug_von s zid with
    | None => ret tt
    | Some zug =>
        if negb (Zug.korrekturen_definiert zug) then
          result <- zug_korrekturen_definieren zid ;;
          zug_aendern zid (fun z =>
            Zug.set_korrekturen_definiert (Zug.folgezuege_aufgeloest z && result) z)
        else ret tt
    end).

(** [Planung.zuege_uebernehmen] *)
Definition zuege_uebernehmen (zuege : list ZugDetails.t) : M unit :=
  bekannt <- lies (fun s => map fst (nodes (zugbaum s))) ;;
  fuer zuege zug_uebernehmen ;;
  fuer (filter (fun zid => negb (zid_in zid zuege)) bekannt) ausfahrt_markieren ;;
  _zielgraph_erstellen ;;
  _folgezuege_aufloesen ;;
  _zugbaum_analysieren ;;
  korrekturen_definieren.

(** ** Dispatcher corrections and events *)

(** [for z in l[k:]: f(z)] on a list of objects *)
Definition ab_aendern {A} (k : nat) (f : A -> A) (l : list A) : list A :=
  firstn k l ++ map f (skipn k l).

(** [Planung.fdl_korrektur_setzen] *)
Definition fdl_korrektur_setzen (korrektur : option VerspaetungsKorrektur) (r : ZielRef)
    : M unit :=
  ziel <- ziel_objekt r ;;
  zug <- zug_objekt (Ziel.zid ziel) ;;
  let ziel_index := find_fahrplan_index (Zug.fahrplan zug) (Ziel.plan ziel) in
  ziel_aendern r (Ziel.set_fdl_korrektur korrektur) ;;
  match korrektur with
  | Some _ =>
      match ziel_index with
      | None => raise TypeError
      | Some i =>
          zug_aendern (Ziel.zid ziel) (fun z =>
            Zug.set_fahrplan (ab_aendern (S i) (Ziel.set_fdl_korrektur None) (Zug.fahrplan z)) z)
      end
  | None => ret tt
  end.

(** The branch of [ereignis_uebernehmen] for the kind of the event.
    [alt] and [neu] are the positions of [altes_ziel] and [neues_ziel]
    in the timetable of the train [zid], [alter_index] is
    [zug.ziel_index]. *)
Definition ereignis_anwenden (ereignis : Ereignis.t) (zid : Z) (alter_index : Z)
    (alt neu : nat) : M unit :=
  zug <- zug_objekt zid ;;
  let n := List.length (Zug.fahrplan zug) in
  match Ereignis.art ereignis with
  | einfahrt_art =>
      einfahrt <- ziel_objekt (zid, O) ;;
      if Ziel.einfahrt einfahrt then
        t <- hebe (time_to_minutes (Ziel.ab einfahrt)) ;;
        ziel_aendern (zid, O) (Ziel.set_verspaetung_ab (Ereignis.zeit ereignis - t)) ;;
        ziel_aendern (zid, O) (fun z =>
          Ziel.set_angekommen (Zeitpunkt (Ereignis.zeit ereignis))
            (Ziel.set_abgefahren (Zeitpunkt (Ereignis.zeit ereignis)) z))
      else ret tt
  | ausfahrt_art =>
      ausfahrt <- ziel_objekt (zid, Nat.pred n) ;;
      if Ziel.ausfahrt ausfahrt then
        ziel_aendern (zid, Nat.pred n) (fun z =>
          Ziel.set_verspaetung_an (Ereignis.verspaetung ereignis)
            (Ziel.set_verspaetung_ab (Ereignis.verspaetung ereignis) z)) ;;
        ziel_aendern (zid, Nat.pred n) (fun z =>
          Ziel.set_angekommen (Zeitpunkt (Ereignis.zeit ereignis))
            (Ziel.set_abgefahren (Zeitpunkt (Ereignis.zeit ereignis)) z)) ;;
        zug_aendern zid (Zug.set_ausgefahren true)
      else ret tt
  | ankunft_art =>
      altes_ziel <- ziel_objekt (zid, alt) ;;
      t <- hebe (time_to_minutes (Ziel.an altes_ziel)) ;;
      ziel_aendern (zid, alt) (Ziel.set_verspaetung_an (Ereignis.zeit ereignis - t)) ;;
      ziel_aendern (zid, alt) (Ziel.set_angekommen (Zeitpunkt (Ereignis.zeit ereignis))) ;;
      (if durchfahrt (Ziel.flags altes_ziel) then
         ziel_aendern (zid, alt) abfahrt_wie_ankunft ;;
         ziel_aendern (zid, alt) (Ziel.set_abgefahren (Zeitpunkt (Ereignis.zeit ereignis)))
       else ret tt) ;;
      zug_aendern zid (fun z =>
        Zug.set_fahrplan
          (ersten_aendern (py_slice_laenge n alter_index)
             (fun ziel => Ziel.set_abgefahren (oder_wahr (Ziel.abgefahren ziel))
                            (Ziel.set_angekommen (oder_wahr (Ziel.angekommen ziel)) ziel))
             (Zug.fahrplan z)) z)
  | abfahrt_art =>
      if Ereignis.amgleis ereignis then
        if Ereignis.verspaetung ereignis >? 0 then
          ziel_aendern (zid, alt)
            (Ziel.set_auto_korrektur (Some (Signalhalt (Ereignis.verspaetung ereignis))))
        else ret tt
      else
        ziel_aendern (zid, alt) (Ziel.set_verspaetung_ab (Ereignis.verspaetung ereignis)) ;;
        ziel_aendern (zid, alt) (Ziel.set_abgefahren (Zeitpunkt (Ereignis.zeit ereignis)))
  | rothalt_art | wurdegruen_art =>
      zug_aendern zid (Zug.set_verspaetung (Ereignis.verspaetung ereignis)) ;;
      ziel_aendern (zid, neu) (Ziel.set_verspaetung_an (Ereignis.verspaetung ereignis))
  end.

(** [neuer_index] of [ereignis_uebernehmen]: the position of the plan
    track of the event, the last position for an event without one. *)
Definition ereignis_neuer_index (ereignis : Ereignis.t) (zug : Zug.t) : option Z :=
  if nicht_leer (Ereignis.plangleis ereignis)
  then option_map Z.of_nat
         (find_fahrplan_index (Zug.fahrplan zug) (Ereignis.plangleis ereignis))
  else Some (Z.of_nat (List.length (Zug.fahrplan zug)) - 1).

(** [Planung.ereignis_uebernehmen] *)
Definition ereignis_uebernehmen (ereignis : Ereignis.t) : M unit :=
  logge DEBUG "ereignis" ;;
  s <- lies (fun s => s) ;;
  match zug_von s (Ereignis.zid ereignis) with
  | None => logge WARNING "zug von ereignis nicht in zugliste"
  | Some zug =>
      let n := List.length (Zug.fahrplan zug) in
      match Zug.ziel_index zug with
      | None => raise TypeError
      | Some alter_index =>
          match py_position n alter_index with
          | None => logge WARNING "fehlendes vorheriges ziel"
          | Some alt =>
              match ereignis_neuer_index ereignis zug with
              | None => logge WARNING "ereignisziel nicht in fahrplan"
              | Some neuer_index =>
                  if neuer_index <? alter_index
                  then logge WARNING "ignoriere veraltetes ereignis"
                  else
                    match py_position n neuer_index with
                    | None => raise IndexError
                    | Some neu =>
                        ereignis_anwenden ereignis (Ereignis.zid ereignis) alter_index alt neu
                    end
              end
          end
      end
  end.

(** The attributes of a node of the target graph, if it has any. *)
Definition knoten_attribute (s : Planung) (node : ZugZielNode) : option ZielDaten :=
  match node_attr ZugZielNode_eqb (zielgraph s) node with
  | Some (Some d) => Some d
  | _ => None
  end.

(** The marks of a train that has left the area. *)
Definition ausgefahren_markiert (z : Zug.t) : bool :=
  Zug.ausgefahren z && negb (Zug.sichtbar z) && negb (Zug.amgleis z)
  && negb (nicht_leer (Zug.gleis z)) && negb (nicht_leer (Zug.plangleis z))
  && forallb (fun zeile => wahr (Ziel.abgefahren zeile)) (Zug.fahrplan z).

(** * Example inputs *)

(** A state with the single train [zug] and empty graphs. *)
Definition nur_zug (zug : Zug.t) (simzeit : Z) : Planung :=
  mkPlanung (mkDiGraph [(Zug.zid zug, Some zug)] []) leerer_graph
            (mkGenerator [] false) [] simzeit [].

(** S1: train 100 enters from "X" with the planned time 10:00 and stops
    at track "1"; the simulator clock is 10:05. *)
Definition snapshot_100 : ZugDetails.t :=
  ZugDetails.mk 100 "100" "X" EmptyString false false 0 "1" "1"
    [FahrplanZeile.mk "1" "1" (Some 600) (Some 601) keine_flags].

Definition planung_100 : Planung :=
  set_simzeit_minuten 605 (snd (zuege_uebernehmen [snapshot_100] Planung_init)).

(** S2: train 200 is 4 minutes late at a stop with the planned arrival
    10:00, the planned departure 10:07 and a minimum dwell of 2. *)
Definition halt_200 : Ziel.t :=
  Ziel.mk 200 0 "3" "3" (Some 600) (Some 607) keine_flags None None None
          false false 4 0 2 (Some PlanmaessigeAbfahrt) None Falsch Falsch.

Definition zug_200 : Zug.t :=
  Zug.mk 200 "200" EmptyString EmptyString "3" "3" false true 4 (Some 0)
         [halt_200] false false false.

(** A train of a snapshot with one stop and no entry or exit. *)
Definition snapshot_halt (zid : Z) (gleis : string) (sichtbar amgleis : bool)
    (verspaetung : Z) (an ab : option Z) (f : Flags) : ZugDetails.t :=
  ZugDetails.mk zid "zug" EmptyString EmptyString sichtbar amgleis verspaetung gleis gleis
    [FahrplanZeile.mk gleis gleis an ab f].

(** Two trains that have not entered yet; the dispatcher makes each of
    them wait for the departure of the other. *)
Definition kreuzung : list ZugDetails.t :=
  [snapshot_halt 1 "A" false false 0 (Some 600) (Some 605) keine_flags;
   snapshot_halt 2 "B" false false 0 (Some 600) (Some 605) keine_flags].

Definition gegenseitig_abwarten : M unit :=
  zuege_uebernehmen kreuzung ;;
  fdl_korrektur_setzen (Some (AbfahrtAbwarten (Some (2, O)) 0)) (1, O) ;;
  fdl_korrektur_setzen (Some (AbfahrtAbwarten (Some (1, O)) 0)) (2, O) ;;
  zuege_uebernehmen kreuzung.

(** Train 300 has left track "A" and runs to track "B" with a delay of
    3 minutes when it is first seen. *)
Definition snapshot_300 : ZugDetails.t :=
  ZugDetails.mk 300 "300" EmptyString EmptyString true false 3 "B" "B"
    [FahrplanZeile.mk "A" "A" (Some 600) (Some 602) keine_flags;
     FahrplanZeile.mk "B" "B" (Some 610) (Some 612) keine_flags].

Definition planung_300 : Planung :=
  snd (zuege_uebernehmen [snapshot_300] Planung_init).

(** Train 1 stands at track "A" and is to couple with train 2. *)
Definition kuppel_flags (zid : Z) : Flags :=
  mkFlags None (Some zid) None false false false false.

(** Train 2 stands at track "B" and has no row at track "A". *)
Definition kuppeln_ohne_ziel : list ZugDetails.t :=
  [snapshot_halt 1 "A" true true 0 (Some 630) (Some 640) (kuppel_flags 2);
   snapshot_halt 2 "B" true true 0 (Some 600) (Some 605) keine_flags].

Definition planung_kuppeln_ohne_ziel : Planung :=
  snd (zuege_uebernehmen kuppeln_ohne_ziel Planung_init).

(** The same state once its generator is used up. *)
Definition planung_kuppeln_ohne_ziel_danach : Planung :=
  snd (verspaetungen_korrigieren planung_kuppeln_ohne_ziel).

(** S4: both trains are at track "A" at 10:30. *)
Definition kuppeln_S4 : list ZugDetails.t :=
  [snapshot_halt 1 "A" true true 0 (Some 630) (Some 640) (kuppel_flags 2);
   snapshot_halt 2 "A" true true 0 (Some 630) (Some 645) keine_flags].

Definition planung_S4 : Planung :=
  snd (zuege_uebernehmen kuppeln_S4 Planung_init).

(** Train 1 stands at track "A" with a delay of 4 minutes; train 2
    starts at track "B" and has no planned arrival there.  The
    dispatcher makes train 1 wait for the arrival of train 2. *)
Definition anschluss : list ZugDetails.t :=
  [snapshot_halt 1 "A" true true 4 (Some 600) (Some 610) keine_flags;
   snapshot_halt 2 "B" false false 0 None (Some 620) keine_flags].

Definition planung_anschluss : Planung :=
  snd ((zuege_uebernehmen anschluss ;;
        fdl_korrektur_setzen (Some (AnkunftAbwarten (Some (2, O)) 3)) (1, O)) Planung_init).

(** A row without planned times that waits for a row of train 2. *)
Definition ziel_ohne_zeiten : Ziel.t :=
  Ziel.mk 1 0 "A" "A" None None keine_flags None None None
          false false 4 0 0 None (Some (AnkunftAbwarten (Some (2, O)) 3)) Falsch Falsch.

Definition ziel_ursprung : Ziel.t :=
  Ziel.mk 2 0 "B" "B" (Some 615) (Some 620) keine_flags None None None
          false false 0 0 0 (Some PlanmaessigeAbfahrt) None Falsch Falsch.

Definition planung_ohne_zeiten : Planung :=
  mkPlanung
    (mkDiGraph
       [(1, Some (Zug.mk 1 "1" EmptyString EmptyString "A" "A" false false 4 (Some 0)
                         [ziel_ohne_zeiten] false false false));
        (2, Some (Zug.mk 2 "2" EmptyString EmptyString "B" "B" false false 0 (Some 0)
                         [ziel_ursprung] false false false))]
       [])
    leerer_graph (mkGenerator [] false) [] 0 [].

(** The departure event of train 1, which stands at the platform and is
    a minute early. *)
Definition abfahrt_am_gleis : Ereignis.t :=
  Ereignis.mk abfahrt_art 1 "A" 606 (-1) true.

(** The departure event of train 1 once it has left the platform with a
    delay of 2 minutes. *)
Definition abfahrt_vom_gleis : Ereignis.t :=
  Ereignis.mk abfahrt_art 1 "A" 612 2 false.

Definition planung_am_gleis : Planung :=
  snd (zuege_uebernehmen anschluss Planung_init).

Definition zug_am_gleis : Zug.t :=
  Eval vm_compute in
    match zug_von planung_am_gleis 1 with Some z => z | None => Zug.neu end.

Definition ziel_am_gleis : Ziel.t :=
  Eval vm_compute in
    match ziel_von planung_am_gleis (1, O) with Some z => z | None => Ziel.neu 1 end.

(** A snapshot without train 2, which has not been visible so far. *)
Definition anschluss_ohne_2 : list ZugDetails.t :=
  [snapshot_halt 1 "A" true true 4 (Some 600) (Some 610) keine_flags].

(** A stop of train [zid] at the track [gleis], numbered [nr], with the
    arrival delay [van], the minimum dwell time 1 and the dispatcher
    correction [fdl]. *)
Definition halt_mit (zid nr : Z) (gleis : string) (an ab : option Z) (van : Z)
    (fdl : option VerspaetungsKorrektur) : Ziel.t :=
  Ziel.mk zid nr gleis gleis an ab keine_flags None None None false false van 0 1
          (Some PlanmaessigeAbfahrt) fdl Falsch Falsch.

(** Train 7 stops at "A", "B" and "C"; the dispatcher has set a fixed
    delay at each of the stops. *)
Definition zug_7 : Zug.t :=
  Zug.mk 7 "7" EmptyString EmptyString "A" "A" false false 0 (Some 0)
    [halt_mit 7 0 "A" (Some 600) (Some 602) 0 (Some (FesteVerspaetung 1));
     halt_mit 7 1000 "B" (Some 610) (Some 612) 0 (Some (FesteVerspaetung 2));
     halt_mit 7 2000 "C" (Some 620) (Some 622) 0 (Some (FesteVerspaetung 3))]
    false false false.

(** Train 8 starts at "B": its row has no planned arrival, and an
    arrival delay of 4 minutes. *)
Definition zug_8 : Zug.t :=
  Zug.mk 8 "8" EmptyString EmptyString "B" "B" false false 4 (Some 0)
    [halt_mit 8 0 "B" None (Some 620) 4 None] false false false.

(** Train 9 is 9 minutes late at a stop planned from 10:00 to 10:02. *)
Definition zug_9 : Zug.t :=
  Zug.mk 9 "9" EmptyString EmptyString "A" "A" false false 9 (Some 0)
    [halt_mit 9 0 "A" (Some 600) (Some 602) 9 None] false false false.

(** S3: train 1, planned at "A" from 10:15 to 10:20 with a minimum dwell
    of 2 minutes, arrives 4 minutes late and waits 3 minutes for train
    2, which is planned at "B" from 10:15 to 10:18 and is 8 minutes late
    at the arrival and 9 minutes at the departure. *)
Definition ziel_wartend : Ziel.t :=
  Ziel.mk 1 0 "A" "A" (Some 615) (Some 620) keine_flags None None None
          false false 4 0 2 None (Some (AnkunftAbwarten (Some (2, O)) 3)) Falsch Falsch.

Definition ziel_zubringer : Ziel.t :=
  Ziel.mk 2 0 "B" "B" (Some 615) (Some 618) keine_flags None None None
          false false 8 9 0 (Some PlanmaessigeAbfahrt) None Falsch Falsch.

Definition planung_abwarten : Planung :=
  mkPlanung
    (mkDiGraph
       [(1, Some (Zug.mk 1 "1" EmptyString EmptyString "A" "A" false false 4 (Some 0)
                         [ziel_wartend] false false false));
        (2, Some (Zug.mk 2 "2" EmptyString EmptyString "B" "B" false false 8 (Some 0)
                         [ziel_zubringer] false false false))]
       [])
    leerer_graph (mkGenerator [] false) [] 0 [].

(** Train 1 stands at track "A" with a delay of 4 minutes, and the
    dispatcher has set its departure delay to 7 minutes. *)
Definition planung_fest : Planung :=
  snd ((zuege_uebernehmen anschluss_ohne_2 ;;
        fdl_korrektur_setzen (Some (FesteVerspaetung 7)) (1, O)) Planung_init).

(** Train 300 of [planung_300] and its two rows. *)
Definition zug_300 : Zug.t :=
  Eval vm_compute in
    match zug_von planung_300 300 with Some z => z | None => Zug.neu end.

Definition ziel_300_A : Ziel.t :=
  Eval vm_compute in
    match ziel_von planung_300 (300, O) with Some z => z | None => Ziel.neu 300 end.

Definition ziel_300_B : Ziel.t :=
  Eval vm_compute in
    match ziel_von planung_300 (300, 1%nat) with Some z => z | None => Ziel.neu 300 end.

(** An arrival of train 300 at "A", which it has left, and its arrival
    at "B" at 10:15. *)
Definition ankunft_veraltet : Ereignis.t :=
  Ereignis.mk ankunft_art 300 "A" 601 1 true.

Definition ankunft_in_B : Ereignis.t :=
  Ereignis.mk ankunft_art 300 "B" 615 5 true.

(** Train 11 arrives at "A" 4 minutes late and goes on as train 12,
    whose first row has the planned arrival 10:03; train 13 does the
    same and splits off train 12. *)
Definition ziel_mit_ersatz : Ziel.t :=
  Ziel.mk 11 0 "A" "A" (Some 600) (Some 605) (mkFlags (Some 12) None None false false false false)
          (Some 12) None None false false 4 0 1 (Some Ersatzzug) None Falsch Falsch.

Definition ziel_mit_fluegel : Ziel.t :=
  Ziel.mk 13 0 "A" "A" (Some 600) (Some 605) (mkFlags None None (Some 12) false false false false)
          None None (Some 12) false false 4 0 1 (Some Fluegelung) None Falsch Falsch.

Definition zug_12 : Zug.t :=
  Zug.mk 12 "12" EmptyString EmptyString EmptyString EmptyString false false 0 None
    [halt_mit 12 0 "A" (Some 603) (Some 610) 0 None] false false false.

Definition planung_uebergang : Planung :=
  mkPlanung
    (mkDiGraph
       [(11, Some (Zug.mk 11 "11" EmptyString EmptyString "A" "A" false false 4 (Some 0)
                          [ziel_mit_ersatz] false false false));
        (12, Some zug_12);
        (13, Some (Zug.mk 13 "13" EmptyString EmptyString "A" "A" false false 4 (Some 0)
                          [ziel_mit_fluegel] false false false))]
       [])
    leerer_graph (mkGenerator [] false) [] 0 [].

(** The state of S4 with a generator that is used up. *)
Definition planung_S4_erschoepft : Planung :=
  set_zielsortierung (mkGenerator [] false) planung_S4.

(** The train that [assign_zug_details] makes of the snapshot of S1. *)
Definition zug_100_neu : Zug.t :=
  Eval vm_compute in
    match assign_zug_details snapshot_100 with Ok z => z | Raise _ => Zug.neu end.

(** Train 300 stops at a red signal before "B" with a delay of 6
    minutes. *)
Definition rothalt_300 : Ereignis.t :=
  Ereignis.mk rothalt_art 300 "B" 611 6 false.

(** Train 400 stands at track "1" and leaves the area to "Y"; it exits
    at 10:05 with a delay of 2 minutes. *)
Definition snapshot_400 : ZugDetails.t :=
  ZugDetails.mk 400 "400" EmptyString "Y" true true 0 "1" "1"
    [FahrplanZeile.mk "1" "1" (Some 600) (Some 601) keine_flags].

Definition planung_400 : Planung :=
  snd (zuege_uebernehmen [snapshot_400] Planung_init).

Definition zug_400 : Zug.t :=
  Eval vm_compute in
    match zug_von planung_400 400 with Some z => z | None => Zug.neu end.

Definition ziel_400_Y : Ziel.t :=
  Eval vm_compute in
    match ziel_von planung_400 (400, 1%nat) with Some z => z | None => Ziel.neu 400 end.

Definition ausfahrt_400 : Ereignis.t :=
  Ereignis.mk ausfahrt_art 400 EmptyString 605 2 false.

(** Train 100 of S1 and its entry row; the train enters at 10:05. *)
Definition zug_100 : Zug.t :=
  Eval vm_compute in
    match zug_von planung_100 100 with Some z => z | None => Zug.neu end.

Definition ziel_100_X : Ziel.t :=
  Eval vm_compute in
    match ziel_von planung_100 (100, O) with Some z => z | None => Ziel.neu 100 end.

Definition einfahrt_100 : Ereignis.t :=
  Ereignis.mk einfahrt_art 100 "1" 605 5 false.



(** * Predicates of the properties *)

(** [sicher n m]: from a state whose generator has at most [n] nodes
    left, [m] leaves at most [n] nodes and does not end by the
    recursion limit. *)
Definition sicher (n : nat) {A} (m : M A) : Prop :=
  forall s, (restknoten s <= n)%nat ->
            (restknoten (snd (m s)) <= n)%nat /\ fst (m s) <> Raise RecursionError.

(** [erhaelt I m]: the method [m] keeps the property [I] of the state,
    whether it returns or raises. *)
Definition erhaelt (I : Planung -> Prop) {A} (m : M A) : Prop :=
  forall s, I s -> I (snd (m s)).

(** The train [zid] is in the store and carries the marks. *)
Definition ist_markiert (zid : Z) (s : Planung) : Prop :=
  exists z, zug_von s zid = Some z /\ ausgefahren_markiert z = true.

(** A snapshot without train 1, which stands at track "A". *)
Definition anschluss_ohne_1 : list ZugDetails.t :=
  [snapshot_halt 2 "B" false false 0 None (Some 620) keine_flags].

(** [ZugZielPlanung.ankunft_minute] and [ZugZielPlanung.abfahrt_minute]:
    the times with the delays, [None] without a planned time. *)
Definition ankunft_minute (z : Ziel.t) : option Z :=
  match time_to_minutes (Ziel.an z) with
  | Ok t => Some (t + Ziel.verspaetung_an z)
  | Raise _ => None
  end.

Definition abfahrt_minute (z : Ziel.t) : option Z :=
  match time_to_minutes (Ziel.ab z) with
  | Ok t => Some (t + Ziel.verspaetung_ab z)
  | Raise _ => None
  end.

(** The rules that start by reading the planned arrival of their row
    and handle its absence. *)
Definition faengt_fehlende_ankunft (k : VerspaetungsKorrektur) : bool :=
  match k with
  | Einfahrtszeit | PlanmaessigeAbfahrt | Ersatzzug | Kupplung | Fluegelung => true
  | _ => false
  end.

(** The assignments that a rule of the sweep makes to its own row keep
    the property [I] of the state. *)
Definition schreibbar (I : Planung -> Prop) (r : ZielRef) : Prop :=
  erhaelt I (ziel_aendern r abfahrt_wie_ankunft)
  /\ (forall v, erhaelt I (ziel_aendern r (Ziel.set_verspaetung_ab v)))
  /\ (forall v, erhaelt I (ziel_aendern r (Ziel.set_verspaetung_an v)))
  /\ (forall t, erhaelt I (ziel_aendern r (Ziel.set_ab t))).

(** The row at [r0] is in the store and has the property [P]. *)
Definition zeile_erfuellt (r0 : ZielRef) (P : Ziel.t -> Prop) (s : Planung) : Prop :=
  exists z, ziel_von s r0 = Some z /\ P z.

(** The train [zid] is in the store and has the property [P]. *)
Definition zug_erfuellt (zid : Z) (P : Zug.t -> Prop) (s : Planung) : Prop :=
  exists z, zug_von s zid = Some z /\ P z.

(** A row without its forecast: the two delays and the departure time. *)
Definition ohne_prognose (z : Ziel.t) : Ziel.t :=
  Ziel.set_ab None (Ziel.set_verspaetung_ab 0 (Ziel.set_verspaetung_an 0 z)).

(** The shape of the two graphs (the nodes in their order and the edges
    with their attributes), the order of the trains and the clock. *)
Definition geruest (s : Planung) :
    list ZugZielNode * list ((ZugZielNode * ZugZielNode) * ZielKante)
    * list Z * list ((Z * Z) * ZugKante) * list Z * Z :=
  (map fst (nodes (zielgraph s)), edges (zielgraph s),
   map fst (nodes (zugbaum s)), edges (zugbaum s),
   zugsortierung s, simzeit_minuten s).

(** What a row keeps when snapshots are taken over: everything but the
    track, the references to peer trains, the minimum dwell time, the
    automatic rule and the mark of the departure. *)
Definition bestand (z : Ziel.t) : Ziel.t :=
  Ziel.set_gleis EmptyString
    (Ziel.set_ersatzzug None (Ziel.set_kuppelzug None (Ziel.set_fluegelzug None
       (Ziel.set_mindestaufenthalt 0 (Ziel.set_auto_korrektur None
          (Ziel.set_abgefahren Falsch z)))))).

(** [bleibt z z']: the row [z'] has the kept data of [z], and its mark
    of the departure is the one of [z] or newly set. *)
Definition bleibt (z z' : Ziel.t) : Prop :=
  bestand z' = bestand z
  /\ (Ziel.abgefahren z' = Ziel.abgefahren z
      \/ (Ziel.abgefahren z = Falsch /\ Ziel.abgefahren z' = Wahr)).

(** No train of the store has [folgezuege_aufgeloest] or
    [korrekturen_definiert] set. *)
Definition korrekturen_offen (s : Planung) : bool :=
  forallb (fun n => match snd n with
                    | Some z => negb (Zug.folgezuege_aufgeloest z)
                                && negb (Zug.korrekturen_definiert z)
                    | None => true
                    end)
          (nodes (zugbaum s)).

(** What the start position of a train leaves of its rows. *)
Definition stammdaten (z : Ziel.t) : bool * bool * string * string * option Z * option Z :=
  (Ziel.einfahrt z, Ziel.ausfahrt z, Ziel.plan z, Ziel.gleis z, Ziel.an z, Ziel.ab z).

(** A row without what the ingestion writes to the rows of a train that
    is not in the snapshot: the references to peer trains, the minimum
    dwell time and the automatic rule. *)
Definition ohne_korrekturen (z : Ziel.t) : Ziel.t :=
  Ziel.set_ersatzzug None (Ziel.set_kuppelzug None (Ziel.set_fluegelzug None
    (Ziel.set_mindestaufenthalt 0 (Ziel.set_auto_korrektur None z)))).

(** A train without these attributes of its rows and without
    [korrekturen_definiert]. *)
Definition ohne_anschluesse (zug : Zug.t) : Zug.t :=
  Zug.set_korrekturen_definiert false
    (Zug.set_fahrplan (map ohne_korrekturen (Zug.fahrplan zug)) zug).

(** * Properties *)

(** ** Dictionaries and the store *)

Section DictFacts.
Context {K V : Type}.
Variable eqb : K -> K -> bool.
Hypothesis eqb_eq : forall a b, eqb a b = true <-> a = b.

Lemma eqb_refl_of (a : K) : eqb a a = true.
Proof. apply eqb_eq. reflexivity. Qed.

Lemma eqb_neq_of (a b : K) : a <> b -> eqb a b = false.
Proof.
  intro H. destruct (eqb a b) eqn:E; [|reflexivity].
  apply eqb_eq in E. contradiction.
Qed.

Lemma dict_get_set_eq (k : K) (v : V) (d : list (K * V)) :
  dict_get eqb k (dict_set eqb k v d) = Some v.
Proof.
  induction d as [|[k' v'] d IH]; simpl.
  - rewrite eqb_refl_of. reflexivity.
  - destruct (eqb k k') eqn:E; simpl; rewrite E; [reflexivity | exact IH].
Qed.

Lemma dict_get_set_neq (k k' : K) (v : V) (d : list (K * V)) :
  k' <> k -> dict_get eqb k' (dict_set eqb k v d) = dict_get eqb k' d.
Proof.
  intro Hne. induction d as [|[k0 v0] d IH]; simpl.
  - rewrite (eqb_neq_of k' k Hne). reflexivity.
  - destruct (eqb k k0) eqn:E; simpl.
    + apply eqb_eq in E. subst k0. rewrite (eqb_neq_of k' k Hne). reflexivity.
    + destruct (eqb k' k0); [reflexivity | exact IH].
Qed.

End DictFacts.

Lemma Z_eqb_eq (a b : Z) : (a =? b) = true <-> a = b.
Proof. apply Z.eqb_eq. Qed.

Lemma nth_error_liste_setzen_eq {A} (n : nat) (x y : A) (l : list A) :
  nth_error l n = Some y -> nth_error (liste_setzen n x l) n = Some x.
Proof.
  revert n. induction l as [|a l IH]; intros [|n]; simpl; try discriminate.
  - reflexivity.
  - apply IH.
Qed.

Lemma nth_error_liste_setzen_neq {A} (n m : nat) (x : A) (l : list A) :
  m <> n -> nth_error (liste_setzen n x l) m = nth_error l m.
Proof.
  revert n m. induction l as [|a l IH]; intros [|n] [|m] H; simpl;
    try reflexivity; try congruence.
  apply IH. congruence.
Qed.

Lemma zug_von_zug_setzen_eq (zid : Z) (z : Zug.t) (s : Planung) :
  zug_von (zug_setzen zid z s) zid = Some z.
Proof.
  unfold zug_von, zug_setzen, node_attr, add_node. simpl.
  rewrite (dict_get_set_eq Z.eqb Z_eqb_eq). reflexivity.
Qed.

Lemma zug_von_zug_setzen_neq (zid zid' : Z) (z : Zug.t) (s : Planung) :
  zid' <> zid -> zug_von (zug_setzen zid z s) zid' = zug_von s zid'.
Proof.
  intro H. unfold zug_von, zug_setzen, node_attr, add_node. simpl.
  rewrite (dict_get_set_neq Z.eqb Z_eqb_eq _ _ _ _ H). reflexivity.
Qed.

Lemma ziel_von_ziel_setzen_eq (r : ZielRef) (x y : Ziel.t) (s : Planung) :
  ziel_von s r = Some y -> ziel_von (ziel_setzen r x s) r = Some x.
Proof.
  unfold ziel_von, ziel_setzen. destruct (zug_von s (fst r)) as [z|] eqn:E; [|discriminate].
  intro H. rewrite zug_von_zug_setzen_eq. simpl.
  eapply nth_error_liste_setzen_eq. exact H.
Qed.

Lemma ziel_von_ziel_setzen_neq (r r' : ZielRef) (x : Ziel.t) (s : Planung) :
  r' <> r -> ziel_von (ziel_setzen r x s) r' = ziel_von s r'.
Proof.
  intro Hne. unfold ziel_von, ziel_setzen.
  destruct (zug_von s (fst r)) as [z|] eqn:E; [|reflexivity].
  destruct (Z.eq_dec (fst r') (fst r)) as [Hz|Hz].
  - rewrite Hz, zug_von_zug_setzen_eq, E. simpl.
    apply nth_error_liste_setzen_neq.
    intro Hn. apply Hne. destruct r, r'. simpl in *. congruence.
  - rewrite zug_von_zug_setzen_neq by exact Hz. reflexivity.
Qed.

(** An assignment to an attribute of a row that is in the store. *)
Lemma ziel_aendern_ok (r : ZielRef) (f : Ziel.t -> Ziel.t) (z : Ziel.t) (s : Planung) :
  ziel_von s r = Some z ->
  ziel_aendern r f s = (Ok tt, ziel_setzen r (f z) s).
Proof.
  intro H. unfold ziel_aendern, bind, ziel_objekt, aendere. rewrite H. reflexivity.
Qed.

Lemma ziel_objekt_ok (r : ZielRef) (z : Ziel.t) (s : Planung) :
  ziel_von s r = Some z -> ziel_objekt r s = (Ok z, s).
Proof. intro H. unfold ziel_objekt. rewrite H. reflexivity. Qed.

Lemma zielsortierung_ziel_setzen (r : ZielRef) (x : Ziel.t) (s : Planung) :
  zielsortierung (ziel_setzen r x s) = zielsortierung s.
Proof. unfold ziel_setzen. destruct (zug_von s (fst r)); reflexivity. Qed.

(** ** The separation loop of the coupling rule *)

Lemma kuppel_bedingung_true (ka pa v : Z) :
  kuppel_bedingung ka pa v = true <-> -2 < ka - pa - v < 2.
Proof. unfold kuppel_bedingung. rewrite Z.ltb_lt. lia. Qed.

Lemma kuppel_bedingung_false (ka pa v : Z) :
  kuppel_bedingung ka pa v = false <-> (ka - pa - v <= -2 \/ 2 <= ka - pa - v).
Proof. unfold kuppel_bedingung. rewrite Z.ltb_ge. lia. Qed.

(** Below the window the loop counts the distance to its lower end. *)
Lemma kuppel_schleife_zaehlt (ka pa : Z) (m : nat) :
  forall (fuel : nat) (v : Z),
    ka - pa - v < 2 ->
    m = Z.to_nat (ka - pa - v + 2) ->
    (m < fuel)%nat ->
    kuppel_schleife fuel ka pa v = Some (m, v + Z.of_nat m).
Proof.
  induction m as [|m IH]; intros fuel v Hd Hm Hf.
  - destruct fuel as [|fuel]; [lia|]. simpl.
    assert (Hc : kuppel_bedingung ka pa v = false)
      by (apply kuppel_bedingung_false; lia).
    rewrite Hc. f_equal. f_equal. lia.
  - destruct fuel as [|fuel]; [lia|]. simpl.
    assert (Hc : kuppel_bedingung ka pa v = true)
      by (apply kuppel_bedingung_true; lia).
    rewrite Hc. rewrite (IH fuel (v + 1)) by lia.
    f_equal. f_equal. lia.
Qed.

(** Closed form of the loop: it runs only from inside the window and
    then ends two minutes after [kuppel_an]. *)
Lemma kuppel_schleife_ergebnis (ka pa v : Z) :
  kuppel_schleife (S (kuppel_schranke ka pa v)) ka pa v =
    if kuppel_bedingung ka pa v
    then Some (Z.to_nat (ka - pa - v + 2), ka + 2 - pa)
    else Some (O, v).
Proof.
  destruct (kuppel_bedingung ka pa v) eqn:Hc.
  - apply kuppel_bedingung_true in Hc.
    rewrite (kuppel_schleife_zaehlt ka pa (Z.to_nat (ka - pa - v + 2)));
      unfold kuppel_schranke; try lia.
    f_equal. f_equal. lia.
  - simpl. rewrite Hc. reflexivity.
Qed.

(** C10: the separation loop of [Kupplung.anwenden] ends for every
    input.  [kuppel_an] and [plan_an] are fixed while it runs, every
    iteration adds 1 to [verspaetung_an], and after [n] iterations, [n]
    at most [max(0, kuppel_an - plan_an - verspaetung_an) + 2], the
    condition [abs(kuppel_an - (plan_an + verspaetung_an)) < 2] is
    false; it holds before each of these iterations. *)
Theorem C10_kuppel_schleife_terminiert (kuppel_an plan_an verspaetung_an : Z) :
  exists (n : nat) (v : Z),
    kuppel_schleife (S (kuppel_schranke kuppel_an plan_an verspaetung_an))
                    kuppel_an plan_an verspaetung_an = Some (n, v)
    /\ v = verspaetung_an + Z.of_nat n
    /\ Z.of_nat n <= Z.max 0 (kuppel_an - plan_an - verspaetung_an) + 2
    /\ kuppel_bedingung kuppel_an plan_an v = false
    /\ (forall k : nat, (k < n)%nat ->
          kuppel_bedingung kuppel_an plan_an (verspaetung_an + Z.of_nat k) = true).
Proof.
  rewrite kuppel_schleife_ergebnis.
  destruct (kuppel_bedingung kuppel_an plan_an verspaetung_an) eqn:Hc.
  - apply kuppel_bedingung_true in Hc.
    exists (Z.to_nat (kuppel_an - plan_an - verspaetung_an + 2)), (kuppel_an + 2 - plan_an).
    repeat split.
    + lia.
    + lia.
    + apply kuppel_bedingung_false. lia.
    + intros k Hk. apply kuppel_bedingung_true. lia.
  - exists O, verspaetung_an. repeat split.
    + lia.
    + lia.
    + exact Hc.
    + intros k Hk. lia.
Qed.

(** ** Rules that look at the row only *)

(** C5: for a row with a planned arrival [p_a],
    [PlanmaessigeAbfahrt.anwenden] sets
    [departure_delay = (a + dwell) - p_d] with
    [a = p_a + arrival_delay], [dwell = max(p_d - a, min_dwell)] and
    [p_d] the planned departure, [p_a + min_dwell] when it is absent;
    nothing else of the row changes. *)
Theorem C5_planmaessige_abfahrt (s : Planung) (r : ZielRef) (ziel : Ziel.t) (p_a : Z) :
  ziel_von s r = Some ziel ->
  Ziel.an ziel = Some p_a ->
  let a := p_a + Ziel.verspaetung_an ziel in
  let p_d := match Ziel.ab ziel with
             | Some t => t
             | None => p_a + Ziel.mindestaufenthalt ziel
             end in
  let dwell := Z.max (p_d - a) (Ziel.mindestaufenthalt ziel) in
  exists s',
    PlanmaessigeAbfahrt_anwenden r s = (Ok tt, s')
    /\ ziel_von s' r = Some (Ziel.set_verspaetung_ab ((a + dwell) - p_d) ziel).
Proof.
  intros Hz Han a p_d dwell.
  unfold PlanmaessigeAbfahrt_anwenden, bind.
  rewrite (ziel_objekt_ok r ziel s Hz), Han. simpl.
  rewrite (ziel_aendern_ok r _ ziel s Hz).
  eexists. split; [reflexivity|].
  rewrite (ziel_von_ziel_setzen_eq r _ ziel s Hz).
  subst a p_d dwell. destruct (Ziel.ab ziel); reflexivity.
Qed.

(** C5 at the scenario S2: arrival at 10:04, planned departure 10:07 and
    a minimum dwell of 2 minutes give the departure delay 0. *)
Lemma C5_planmaessige_abfahrt_S2 :
  exists s',
    PlanmaessigeAbfahrt_anwenden (200, O) (nur_zug zug_200 0) = (Ok tt, s')
    /\ option_map Ziel.verspaetung_ab (ziel_von s' (200, O)) = Some 0.
Proof.
  destruct (C5_planmaessige_abfahrt (nur_zug zug_200 0) (200, O) halt_200 600
              eq_refl eq_refl) as [s' [H1 H2]].
  exists s'. split; [exact H1 | rewrite H2; reflexivity].
Defined.

(** [Einfahrtszeit.anwenden] on a row with a planned arrival [p_a]: the
    departure is the later of the arrival and the simulator clock, and
    the planned departure [p_d] is [p_a] when the row has none. *)
Lemma Einfahrtszeit_anwenden_formel (s : Planung) (r : ZielRef) (ziel : Ziel.t) (p_a : Z) :
  ziel_von s r = Some ziel ->
  Ziel.an ziel = Some p_a ->
  let a := p_a + Ziel.verspaetung_an ziel in
  let p_d := match Ziel.ab ziel with Some t => t | None => p_a end in
  exists s',
    Einfahrtszeit_anwenden r s = (Ok tt, s')
    /\ ziel_von s' r =
         Some (Ziel.set_verspaetung_ab (Z.max a (simzeit_minuten s) - p_d) ziel).
Proof.
  intros Hz Han a p_d.
  unfold Einfahrtszeit_anwenden, bind.
  rewrite (ziel_objekt_ok r ziel s Hz), Han. simpl.
  rewrite (ziel_aendern_ok r _ ziel s Hz).
  eexists. split; [reflexivity|].
  rewrite (ziel_von_ziel_setzen_eq r _ ziel s Hz).
  subst a p_d. destruct (Ziel.ab ziel); reflexivity.
Qed.

(** ** The target graph takes every edge *)

(** C1 (defect of the code): [_zielgraph_erstellen] adds every edge and
    checks nothing.  After the dispatcher has made two rows wait for
    each other's departure, [zuege_uebernehmen] returns, the target
    graph holds both edges of a cycle, nothing is logged, and the sweep
    raises [NetworkXUnfeasible] to its caller. *)
Theorem C1_zyklus_im_zielgraph :
  let s := snd (gegenseitig_abwarten Planung_init) in
  fst (gegenseitig_abwarten Planung_init) = Ok tt
  /\ has_edge ZugZielNode_eqb (zielgraph s) (mkNode TypH 1 "A") (mkNode TypH 2 "B") = true
  /\ has_edge ZugZielNode_eqb (zielgraph s) (mkNode TypH 2 "B") (mkNode TypH 1 "A") = true
  /\ protokoll s = []
  /\ fst (verspaetungen_korrigieren s) = Raise NetworkXUnfeasible.
Proof. vm_compute. repeat split; reflexivity. Qed.

(** ** The arrival delay of a row with predecessors *)

(** X22: [ankunft_schaetzen] raises [KeyError] and changes nothing for
    a row that has not arrived and has a predecessor in the target
    graph: the items of [G.pred[node]] are edge attributes, which have
    no ['v_ab']. *)
Lemma ankunft_schaetzen_keyerror (s : Planung) (node : ZugZielNode) (d : ZielDaten)
    (ziel : Ziel.t) (zug : Zug.t) :
  node_attr ZugZielNode_eqb (zielgraph s) node = Some (Some d) ->
  ziel_von s (obj d) = Some ziel ->
  zug_von s (Ziel.zid ziel) = Some zug ->
  wahr (Ziel.angekommen ziel) = false ->
  pred_items ZugZielNode_eqb (zielgraph s) node <> [] ->
  ankunft_schaetzen node s = (Raise KeyError, s).
Proof.
  intros Hd Hz Hzug Han Hp.
  unfold ankunft_schaetzen, bind, knoten_daten, zug_objekt, lies, hebe.
  rewrite Hd, (ziel_objekt_ok _ _ _ Hz), Hzug, Han. simpl.
  destruct (pred_items ZugZielNode_eqb (zielgraph s) node) as [|p l]; [congruence|].
  reflexivity.
Qed.

(** C2 (defect of the code): for train 300, which runs to its current
    planned row "B" with a delay of 3 minutes, the sweep raises
    [KeyError] at the node of "B", whose predecessor is the node of "A";
    the arrival delay of the row stays 0 and is not the maximum 3 of the
    departure delay of "A" and the delay of the train. *)
Theorem C2_keyerror_bei_vorgaenger :
  let s' := snd (verspaetungen_korrigieren planung_300) in
  fst (verspaetungen_korrigieren planung_300) = Raise KeyError
  /\ predecessors ZugZielNode_eqb (zielgraph planung_300) (mkNode TypH 300 "B")
     = [mkNode TypH 300 "A"]
  /\ option_map v_ab (knoten_attribute planung_300 (mkNode TypH 300 "A")) = Some 3
  /\ option_map Zug.verspaetung (zug_von planung_300 300) = Some 3
  /\ option_map (fun z => (wahr (Ziel.angekommen z), Ziel.verspaetung_an z))
                (ziel_von planung_300 (300, 1%nat)) = Some (false, 0)
  /\ option_map Ziel.verspaetung_an (ziel_von s' (300, 1%nat)) = Some 0.
Proof. vm_compute. repeat split; reflexivity. Qed.

(** ** Coupling *)

(** C3 (defect of the code): train 1 is to couple at track "A" with
    train 2, which is known and has no row at that track.  Within the
    sweep the rule ends with the [KeyError] of the sweep that it starts,
    at the node of the peer row, which has no attributes; applied once
    the generator is used up it ends with the [TypeError] of
    [fahrplan[None]].  In neither case is [kuppel_an] taken as 0 and a
    departure delay computed. *)
Theorem C3_kupplung_ohne_kuppelziel :
  option_map (fun z => (Ziel.auto_korrektur z, Ziel.kuppelzug z))
             (ziel_von planung_kuppeln_ohne_ziel (1, O)) = Some (Some Kupplung, Some 2)
  /\ option_map (fun z => find_fahrplan_index (Zug.fahrplan z) "A")
                (zug_von planung_kuppeln_ohne_ziel 2) = Some None
  /\ fst (verspaetungen_korrigieren planung_kuppeln_ohne_ziel) = Raise KeyError
  /\ zielsortierung planung_kuppeln_ohne_ziel_danach = mkGenerator [] false
  /\ fst (Kupplung_anwenden verspaetungen_korrigieren (1, O) planung_kuppeln_ohne_ziel_danach)
     = Raise TypeError.
Proof. vm_compute. repeat split; reflexivity. Qed.

(** The scenario S4 of the coupling rule: both trains are at the track
    at 10:30.  The sweep returns, the arrival delay of the row of train
    1 has grown from 0 to 2, and its arrival is 2 minutes after the one
    of train 2. *)
Lemma kupplung_S4 :
  let s' := snd (verspaetungen_korrigieren planung_S4) in
  fst (verspaetungen_korrigieren planung_S4) = Ok tt
  /\ option_map Ziel.verspaetung_an (ziel_von planung_S4 (1, O)) = Some 0
  /\ option_map (fun z => (Ziel.verspaetung_an z, Ziel.verspaetung_ab z))
                (ziel_von s' (1, O)) = Some (2, 0)
  /\ option_map (fun z => (Ziel.an z, Ziel.verspaetung_an z)) (ziel_von s' (2, O))
     = Some (Some 630, 0).
Proof. vm_compute. repeat split; reflexivity. Qed.

(** ** Waiting for another train *)

(** C7 (defect of the code): [AnkunftAbwarten.anwenden] and
    [AbfahrtAbwarten.anwenden] raise [TypeError] for a row that has
    neither a planned arrival nor a planned departure, and in the sweep
    [AnkunftAbwarten.anwenden] raises [AttributeError] when the row
    waited for has no planned arrival; the sweep passes the exception
    on, and the departure delay of the waiting row, whose arrival delay
    is 4, is not set. *)
Theorem C7_abwarten_ohne_planzeit :
  fst (AnkunftAbwarten_anwenden (Some (2, O)) 3 (1, O) planung_ohne_zeiten) = Raise TypeError
  /\ fst (AbfahrtAbwarten_anwenden (Some (2, O)) 3 (1, O) planung_ohne_zeiten) = Raise TypeError
  /\ option_map (fun z => (Ziel.an z, Ziel.ab z)) (ziel_von planung_ohne_zeiten (1, O))
     = Some (None, None)
  /\ fst (verspaetungen_korrigieren planung_anschluss) = Raise AttributeError
  /\ option_map Ziel.an (ziel_von planung_anschluss (2, O)) = Some None
  /\ option_map (fun z => (Ziel.verspaetung_an z, Ziel.verspaetung_ab z))
                (ziel_von (snd (verspaetungen_korrigieren planung_anschluss)) (1, O))
     = Some (4, 0).
Proof. vm_compute. repeat split; reflexivity. Qed.

(** ** Departure events *)

Lemma find_fahrplan_index_lt (fahrplan : list Ziel.t) (plan : string) (i : nat) :
  find_fahrplan_index fahrplan plan = Some i -> (i < List.length fahrplan)%nat.
Proof.
  revert i. induction fahrplan as [|z l IH]; simpl; intros i H; [discriminate|].
  destruct (String.eqb (Ziel.plan z) plan).
  - inversion H. lia.
  - destruct (find_fahrplan_index l plan) as [j|]; simpl in H; [|discriminate].
    inversion H. specialize (IH j eq_refl). lia.
Qed.

Lemma py_position_gueltig (len : nat) (i : Z) :
  0 <= i < Z.of_nat len -> py_position len i = Some (Z.to_nat i).
Proof.
  intro H. unfold py_position.
  destruct (0 <=? i) eqn:E1; [|apply Z.leb_gt in E1; lia].
  destruct (i <? Z.of_nat len) eqn:E2; [|apply Z.ltb_ge in E2; lia].
  reflexivity.
Qed.

(** The position of the event's row is one of the timetable. *)
Lemma ereignis_neuer_index_gueltig (ereignis : Ereignis.t) (zug : Zug.t) (i : Z) :
  Zug.fahrplan zug <> [] ->
  ereignis_neuer_index ereignis zug = Some i ->
  0 <= i < Z.of_nat (List.length (Zug.fahrplan zug)).
Proof.
  intros Hne. unfold ereignis_neuer_index.
  assert (Hl : List.length (Zug.fahrplan zug) <> O)
    by (destruct (Zug.fahrplan zug); simpl; congruence).
  destruct (nicht_leer (Ereignis.plangleis ereignis)).
  - destruct (find_fahrplan_index _ _) as [j|] eqn:E; simpl; [|discriminate].
    apply find_fahrplan_index_lt in E. intro H. inversion H. lia.
  - intro H. inversion H. lia.
Qed.

(** C6: a departure event for a known train whose current row
    [altes_ziel] exists, with a plan track of the timetable that is not
    before the current row.  If the train is at the platform and the
    delay is positive, [Signalhalt(delay)] becomes the [auto_korrektur]
    of the current row; if it is at the platform and the delay is not
    positive, the row stays as it is; if it is not at the platform, the
    departure delay of the row becomes the delay of the event and the
    row is marked as departed at the time of the event. *)
Theorem C6_abfahrt (s : Planung) (ereignis : Ereignis.t) (zug : Zug.t)
    (alter_index neuer_index : Z) (alt : nat) (altes_ziel : Ziel.t) :
  Ereignis.art ereignis = abfahrt_art ->
  zug_von s (Ereignis.zid ereignis) = Some zug ->
  Zug.ziel_index zug = Some alter_index ->
  py_position (List.length (Zug.fahrplan zug)) alter_index = Some alt ->
  nth_error (Zug.fahrplan zug) alt = Some altes_ziel ->
  ereignis_neuer_index ereignis zug = Some neuer_index ->
  alter_index <= neuer_index ->
  exists s',
    ereignis_uebernehmen ereignis s = (Ok tt, s')
    /\ ziel_von s' (Ereignis.zid ereignis, alt) =
         Some (if Ereignis.amgleis ereignis then
                 if Ereignis.verspaetung ereignis >? 0
                 then Ziel.set_auto_korrektur
                        (Some (Signalhalt (Ereignis.verspaetung ereignis))) altes_ziel
                 else altes_ziel
               else Ziel.set_abgefahren (Zeitpunkt (Ereignis.zeit ereignis))
                      (Ziel.set_verspaetung_ab (Ereignis.verspaetung ereignis) altes_ziel)).
Proof.
  intros Hart Hzug Hidx Halt Hziel Hneu Hle.
  assert (Hne : Zug.fahrplan zug <> []).
  { intro E. rewrite E in Hziel. destruct alt; discriminate. }
  pose proof (ereignis_neuer_index_gueltig _ _ _ Hne Hneu) as Hg.
  set (s1 := set_protokoll (protokoll s ++ [(DEBUG, "ereignis"%string)]) s).
  assert (Hzug1 : zug_von s1 (Ereignis.zid ereignis) = Some zug) by exact Hzug.
  assert (Hz1 : ziel_von s1 (Ereignis.zid ereignis, alt) = Some altes_ziel).
  { unfold ziel_von. simpl fst. rewrite Hzug1. exact Hziel. }
  unfold ereignis_uebernehmen, bind, logge, aendere, lies.
  fold s1. rewrite Hzug1, Hidx, Halt, Hneu.
  destruct (neuer_index <? alter_index) eqn:E; [apply Z.ltb_lt in E; lia|].
  rewrite (py_position_gueltig _ _ Hg).
  unfold ereignis_anwenden, bind, zug_objekt. rewrite Hzug1, Hart.
  destruct (Ereignis.amgleis ereignis).
  - destruct (Ereignis.verspaetung ereignis >? 0).
    + rewrite (ziel_aendern_ok _ _ _ _ Hz1). eexists. split; [reflexivity|].
      apply (ziel_von_ziel_setzen_eq _ _ _ _ Hz1).
    + eexists. split; [reflexivity | exact Hz1].
  - rewrite (ziel_aendern_ok _ _ _ _ Hz1).
    rewrite (ziel_aendern_ok _ _ (Ziel.set_verspaetung_ab (Ereignis.verspaetung ereignis) altes_ziel)).
    + eexists. split; [reflexivity|].
      eapply ziel_von_ziel_setzen_eq.
      apply (ziel_von_ziel_setzen_eq _ _ _ _ Hz1).
    + apply (ziel_von_ziel_setzen_eq _ _ _ _ Hz1).
Qed.

(** C6 at the departure of train 1 from track "A" with a delay of 2. *)
Lemma C6_abfahrt_beispiel :
  exists s',
    ereignis_uebernehmen abfahrt_vom_gleis planung_am_gleis = (Ok tt, s')
    /\ option_map (fun z => (Ziel.verspaetung_ab z, Ziel.abgefahren z))
                  (ziel_von s' (1, O)) = Some (2, Zeitpunkt 612).
Proof.
  assert (H1 : zug_von planung_am_gleis (Ereignis.zid abfahrt_vom_gleis) = Some zug_am_gleis)
    by (vm_compute; reflexivity).
  assert (H2 : ereignis_neuer_index abfahrt_vom_gleis zug_am_gleis = Some 0)
    by (vm_compute; reflexivity).
  assert (H3 : 0 <= 0) by lia.
  destruct (C6_abfahrt planung_am_gleis abfahrt_vom_gleis zug_am_gleis 0 0 O ziel_am_gleis
              eq_refl H1 eq_refl eq_refl eq_refl H2 H3) as [s' [Ha Hb]].
  exists s'. split; [exact Ha | simpl in Hb; rewrite Hb; reflexivity].
Defined.

(** A departure event for a train at the platform with a delay that is
    not positive sets no departure delay and does not mark the row as
    departed. *)
Lemma C6_gegenbeispiel :
  let s' := snd (ereignis_uebernehmen abfahrt_am_gleis planung_am_gleis) in
  Ereignis.amgleis abfahrt_am_gleis && (Ereignis.verspaetung abfahrt_am_gleis >? 0) = false
  /\ ~ (option_map (fun z => (Ziel.verspaetung_ab z, Ziel.abgefahren z)) (ziel_von s' (1, O))
        = Some (Ereignis.verspaetung abfahrt_am_gleis,
                Zeitpunkt (Ereignis.zeit abfahrt_am_gleis))).
Proof. vm_compute. split; [reflexivity | intro H; discriminate H]. Qed.

(** ** The sweep and its generator *)

Lemma sicher_ret n {A} (a : A) : sicher n (ret a).
Proof. intros s H. split; [exact H | discriminate]. Qed.

Lemma sicher_raise n {A} (e : Exception) :
  e <> RecursionError -> sicher n (@raise A e).
Proof. intros He s H. split; [exact H | simpl; congruence]. Qed.

Lemma sicher_hebe n {A} (r : Result A) :
  r <> Raise RecursionError -> sicher n (hebe r).
Proof. intros He s H. split; [exact H | exact He]. Qed.

Lemma sicher_lies n {A} (f : Planung -> A) : sicher n (lies f).
Proof. intros s H. split; [exact H | discriminate]. Qed.

Lemma sicher_bind n {A B} (m : M A) (k : A -> M B) :
  sicher n m -> (forall a, sicher n (k a)) -> sicher n (bind m k).
Proof.
  intros Hm Hk s H. unfold bind.
  destruct (Hm s H) as [H1 H2]. destruct (m s) as [[a|e] s']; simpl in *.
  - apply Hk. exact H1.
  - split; [exact H1 | intro E; apply H2; congruence].
Qed.

Lemma sicher_versuche n {A} (m : M A) (faengt : list Exception) (h : M A) :
  sicher n m -> sicher n h -> sicher n (versuche m faengt h).
Proof.
  intros Hm Hh s H. unfold versuche.
  destruct (Hm s H) as [H1 H2]. destruct (m s) as [[a|e] s']; simpl in *.
  - split; [exact H1 | discriminate].
  - destruct (existsb (Exception_eqb e) faengt).
    + apply Hh. exact H1.
    + split; assumption.
Qed.

Lemma restknoten_ziel_setzen r x s : restknoten (ziel_setzen r x s) = restknoten s.
Proof. unfold restknoten. rewrite zielsortierung_ziel_setzen. reflexivity. Qed.

Lemma sicher_logge n lvl msg : sicher n (logge lvl msg).
Proof. intros s H. split; [exact H | discriminate]. Qed.

Lemma sicher_zug_objekt n zid : sicher n (zug_objekt zid).
Proof.
  intros s H. unfold zug_objekt. destruct (zug_von s zid); simpl;
    (split; [exact H | discriminate]).
Qed.

Lemma sicher_ziel_objekt n r : sicher n (ziel_objekt r).
Proof.
  intros s H. unfold ziel_objekt. destruct (ziel_von s r); simpl;
    (split; [exact H | discriminate]).
Qed.

Lemma sicher_zug_aendern n zid f : sicher n (zug_aendern zid f).
Proof.
  intros s H. unfold zug_aendern, bind, zug_objekt, aendere.
  destruct (zug_von s zid); simpl; (split; [exact H | discriminate]).
Qed.

Lemma sicher_ziel_aendern n r f : sicher n (ziel_aendern r f).
Proof.
  intros s H. unfold ziel_aendern, bind, ziel_objekt, aendere.
  destruct (ziel_von s r); simpl.
  - rewrite restknoten_ziel_setzen. split; [exact H | discriminate].
  - split; [exact H | discriminate].
Qed.

Lemma sicher_knoten_daten n node : sicher n (knoten_daten node).
Proof.
  intros s H. unfold knoten_daten.
  destruct (node_attr ZugZielNode_eqb (zielgraph s) node) as [[d|]|]; simpl;
    (split; [exact H | discriminate]).
Qed.

Lemma sicher_knoten_daten_aendern n node f : sicher n (knoten_daten_aendern node f).
Proof.
  intros s H. unfold knoten_daten_aendern, bind, knoten_daten, aendere.
  destruct (node_attr ZugZielNode_eqb (zielgraph s) node) as [[d|]|]; simpl;
    (split; [exact H | discriminate]).
Qed.

Lemma time_to_minutes_kein_limit t : time_to_minutes t <> Raise RecursionError.
Proof. destruct t; discriminate. Qed.

Lemma abwarten_planzeiten_kein_limit z : abwarten_planzeiten z <> Raise RecursionError.
Proof.
  unfold abwarten_planzeiten. destruct (Ziel.ab z); [discriminate|].
  destruct (Ziel.an z); discriminate.
Qed.

Lemma sammle_kante_v_ab_kein_limit (l : list (ZugZielNode * ZielKante)) :
  sammle (map (fun p => kante_v_ab (snd p)) l) <> Raise RecursionError.
Proof. destruct l; simpl; discriminate. Qed.

Create HintDb sicher.
#[local] Hint Resolve sicher_ret sicher_lies sicher_logge sicher_zug_objekt
  sicher_ziel_objekt sicher_zug_aendern sicher_ziel_aendern sicher_knoten_daten
  sicher_knoten_daten_aendern time_to_minutes_kein_limit
  abwarten_planzeiten_kein_limit sammle_kante_v_ab_kein_limit : sicher.

(** Follows the structure of a method built from the operations above. *)
Ltac sicher_schritt :=
  match goal with
  | |- sicher _ (bind _ _) => apply sicher_bind; [| intro]
  | |- sicher _ (versuche _ _ _) => apply sicher_versuche
  | |- sicher _ (raise _) => apply sicher_raise; discriminate
  | |- sicher _ (hebe _) => apply sicher_hebe; auto with sicher
  | |- sicher _ (match ?x with _ => _ end) => destruct x
  | |- sicher _ _ => solve [auto with sicher]
  end.

Ltac sicher_tac := cbv zeta; repeat sicher_schritt.

Lemma sicher_ursprung_objekt n u : sicher n (ursprung_objekt u).
Proof. unfold ursprung_objekt. sicher_tac. Qed.

Lemma sicher_ersatz_ankunft n z : sicher n (ersatz_ankunft z).
Proof. unfold ersatz_ankunft. sicher_tac. Qed.

Lemma sicher_erstes_ziel_aendern n zid f : sicher n (erstes_ziel_aendern zid f).
Proof. unfold erstes_ziel_aendern. sicher_tac. Qed.

#[local] Hint Resolve sicher_ursprung_objekt sicher_ersatz_ankunft
  sicher_erstes_ziel_aendern : sicher.

Lemma sicher_kuppel_ankunft n rek r : sicher n rek -> sicher n (kuppel_ankunft rek r).
Proof. intro Hrek. unfold kuppel_ankunft. sicher_tac. Qed.

(** The rules leave the generator to the sweeps that they start. *)
Lemma sicher_anwenden n rek k r : sicher n rek -> sicher n (anwenden rek k r).
Proof.
  intro Hrek.
  destruct k; unfold anwenden, Basis_anwenden, FesteVerspaetung_anwenden,
    Einfahrtszeit_anwenden, PlanmaessigeAbfahrt_anwenden, AnkunftAbwarten_anwenden,
    AbfahrtAbwarten_anwenden, Ersatzzug_anwenden, Fluegelung_anwenden;
    try solve [sicher_tac].
  unfold Kupplung_anwenden. cbv zeta.
  apply sicher_bind; [auto with sicher | intro ziel].
  destruct (time_to_minutes (Ziel.an ziel)) as [plan_an|e]; [|sicher_tac].
  apply sicher_bind; [| intro kuppel_an].
  - apply sicher_versuche; [apply sicher_kuppel_ankunft; exact Hrek | apply sicher_ret].
  - apply sicher_bind; [auto with sicher | intro ziel'].
    rewrite kuppel_schleife_ergebnis.
    destruct (kuppel_bedingung kuppel_an plan_an (Ziel.verspaetung_an ziel')); sicher_tac.
Qed.

Lemma sicher_ankunft_schaetzen n node : sicher n (ankunft_schaetzen node).
Proof. unfold ankunft_schaetzen. sicher_tac. Qed.

Lemma sicher_abfahrt_korrigieren n rek node :
  sicher n rek -> sicher n (abfahrt_korrigieren rek node).
Proof.
  intro Hrek. unfold abfahrt_korrigieren. cbv zeta.
  apply sicher_bind; [auto with sicher | intro data].
  apply sicher_bind; [auto with sicher | intro ziel].
  apply sicher_bind; [| intros _; sicher_tac].
  destruct (negb (wahr (Ziel.abgefahren ziel))); [|apply sicher_ret].
  destruct (Ziel.fdl_korrektur ziel) as [k|]; [apply sicher_anwenden; exact Hrek|].
  destruct (Ziel.auto_korrektur ziel) as [k|]; [apply sicher_anwenden; exact Hrek|].
  auto with sicher.
Qed.

Lemma sicher_knoten_korrigieren n rek node :
  sicher n rek -> sicher n (knoten_korrigieren rek node).
Proof.
  intro Hrek. unfold knoten_korrigieren.
  apply sicher_bind; [apply sicher_ankunft_schaetzen | intros _].
  apply sicher_abfahrt_korrigieren. exact Hrek.
Qed.

Lemma bind_eq {A B} (m : M A) (k : A -> M B) (s : Planung) :
  bind m k s = match m s with
               | (Ok a, s') => k a s'
               | (Raise e, s') => (Raise e, s')
               end.
Proof. reflexivity. Qed.

Lemma korrigieren_schleife_eq (fuel : nat) :
  korrigieren_schleife (S fuel) =
    (n <- naechster_knoten ;;
     match n with
     | None => ret tt
     | Some node =>
         knoten_korrigieren (korrigieren_schleife fuel) node ;;
         korrigieren_schleife fuel
     end).
Proof. reflexivity. Qed.

(** The three outcomes of [next(self.zielsortierung)]. *)
Lemma naechster_knoten_faelle (s : Planung) :
  (zielsortierung s = mkGenerator [] false /\ naechster_knoten s = (Ok None, s))
  \/ (rest (zielsortierung s) = []
      /\ naechster_knoten s =
           (Raise NetworkXUnfeasible, set_zielsortierung (mkGenerator [] false) s))
  \/ (exists node r,
        rest (zielsortierung s) = node :: r
        /\ naechster_knoten s =
             (Ok (Some node),
              set_zielsortierung (mkGenerator r (unfeasible (zielsortierung s))) s)).
Proof.
  unfold naechster_knoten. destruct (zielsortierung s) as [[|node r] [|]]; simpl.
  - right. left. split; reflexivity.
  - left. split; reflexivity.
  - right. right. exists node, r. split; reflexivity.
  - right. right. exists node, r. split; reflexivity.
Qed.

(** The fuel of [verspaetungen_korrigieren] is enough: with more fuel
    than nodes left, the loop does not reach the end of its fuel, and
    the generator only shrinks. *)
Lemma korrigieren_schleife_sicher (fuel : nat) :
  forall n, (n < fuel)%nat -> sicher n (korrigieren_schleife fuel).
Proof.
  induction fuel as [|fuel IH]; intros n Hn; [lia|].
  intros s Hs. rewrite korrigieren_schleife_eq, bind_eq.
  destruct (naechster_knoten_faelle s) as [[Hg E]|[[Hg E]|[node [r [Hg E]]]]]; rewrite E.
  - split; [exact Hs | discriminate].
  - simpl. split; [unfold restknoten; simpl; lia | discriminate].
  - assert (Hr : (restknoten s = S (List.length r))%nat)
      by (unfold restknoten; rewrite Hg; reflexivity).
    set (s1 := set_zielsortierung (mkGenerator r (unfeasible (zielsortierung s))) s).
    assert (Hs1 : (restknoten s1 <= Nat.pred n)%nat) by (unfold restknoten, s1; simpl; lia).
    assert (Hlt : (Nat.pred n < fuel)%nat) by lia.
    assert (Hb : sicher (Nat.pred n)
                   (knoten_korrigieren (korrigieren_schleife fuel) node ;;
                    korrigieren_schleife fuel)).
    { apply sicher_bind.
      - apply sicher_knoten_korrigieren. apply IH. exact Hlt.
      - intros _. apply IH. exact Hlt. }
    destruct (Hb s1 Hs1) as [H1 H2]. split; [lia | exact H2].
Qed.

(** X21: a sweep comes to an end, nested sweeps included: every step
    takes a node out of the shared generator, so that the steps of one
    more than the nodes left are never used up, and the generator has
    no more nodes after the sweep than before. *)
Lemma verspaetungen_korrigieren_sicher (s : Planung) :
  (restknoten (snd (verspaetungen_korrigieren s)) <= restknoten s)%nat
  /\ fst (verspaetungen_korrigieren s) <> Raise RecursionError.
Proof.
  unfold verspaetungen_korrigieren.
  apply (korrigieren_schleife_sicher (S (restknoten s)) (restknoten s)); lia.
Qed.


(** On a used-up generator the sweep does nothing. *)
Lemma verspaetungen_korrigieren_erschoepft (s : Planung) :
  zielsortierung s = mkGenerator [] false ->
  verspaetungen_korrigieren s = (Ok tt, s).
Proof.
  intro H. unfold verspaetungen_korrigieren, restknoten. rewrite H.
  simpl List.length. rewrite korrigieren_schleife_eq, bind_eq.
  unfold naechster_knoten. rewrite H. reflexivity.
Qed.

(** X20: where the coupling rule completes, it computes what its
    description says.  On a used-up generator, for a row with the
    planned arrival [p_a] whose partner train has a row at the same plan
    track with a planned arrival: [kuppel_an] is the arrival of the
    partner, the arrival delay is raised until the arrivals are 2
    minutes apart, and the departure delay is
    [max(a + dwell, kuppel_an) - p_d]. *)
Lemma Kupplung_anwenden_formel (s : Planung) (r : ZielRef) (ziel : Ziel.t) (p_a : Z)
    (kzid : Z) (kuppelzug : Zug.t) (i : nat) (kuppel_ziel : Ziel.t) (k_a : Z) :
  zielsortierung s = mkGenerator [] false ->
  ziel_von s r = Some ziel ->
  Ziel.an ziel = Some p_a ->
  Ziel.kuppelzug ziel = Some kzid ->
  zug_von s kzid = Some kuppelzug ->
  find_fahrplan_index (Zug.fahrplan kuppelzug) (Ziel.plan ziel) = Some i ->
  nth_error (Zug.fahrplan kuppelzug) i = Some kuppel_ziel ->
  Ziel.an kuppel_ziel = Some k_a ->
  let kuppel_an := k_a + Ziel.verspaetung_an kuppel_ziel in
  let p_d := match Ziel.ab ziel with
             | Some t => t
             | None => p_a + Ziel.mindestaufenthalt ziel
             end in
  let v := if kuppel_bedingung kuppel_an p_a (Ziel.verspaetung_an ziel)
           then kuppel_an + 2 - p_a
           else Ziel.verspaetung_an ziel in
  let a := p_a + v in
  let dwell := Z.max (p_d - a) (Ziel.mindestaufenthalt ziel) in
  exists s',
    Kupplung_anwenden verspaetungen_korrigieren r s = (Ok tt, s')
    /\ ziel_von s' r =
         Some (Ziel.set_verspaetung_ab (Z.max (a + dwell) kuppel_an - p_d)
                 (Ziel.set_verspaetung_an v ziel)).
Proof.
  intros Hgen Hz Han Hk Hkz Hfind Hnth Hkan kuppel_an p_d v a dwell.
  assert (Hka : versuche (kuppel_ankunft verspaetungen_korrigieren r)
                  [AttributeError; IndexError] (ret 0) s = (Ok kuppel_an, s)).
  { unfold versuche, kuppel_ankunft.
    rewrite bind_eq, (verspaetungen_korrigieren_erschoepft s Hgen).
    rewrite bind_eq, (ziel_objekt_ok r ziel s Hz), Hk.
    rewrite bind_eq. unfold zug_objekt. rewrite Hkz, Hfind, Hnth.
    rewrite bind_eq. unfold hebe. rewrite Hkan. reflexivity. }
  unfold Kupplung_anwenden.
  rewrite bind_eq, (ziel_objekt_ok r ziel s Hz), Han. cbn [time_to_minutes]. cbv zeta.
  rewrite bind_eq, Hka.
  rewrite bind_eq, (ziel_objekt_ok r ziel s Hz).
  rewrite kuppel_schleife_ergebnis.
  assert (Hp : (match time_to_minutes (Ziel.ab ziel) with
                | Ok t => t
                | Raise _ => p_a + Ziel.mindestaufenthalt ziel
                end) = p_d)
    by (subst p_d; destruct (Ziel.ab ziel); reflexivity).
  rewrite Hp.
  assert (Hende : forall x,
            ziel_von s r = Some ziel ->
            exists s',
              (ziel_aendern r (Ziel.set_verspaetung_an x) ;;
               ziel_aendern r
                 (Ziel.set_verspaetung_ab
                    (Z.max (p_a + x + Z.max (p_d - (p_a + x)) (Ziel.mindestaufenthalt ziel))
                           kuppel_an - p_d)) ;;
               match Ziel.kuppelzug ziel with
               | Some _ => verspaetungen_korrigieren
               | None => ret tt
               end) s = (Ok tt, s')
              /\ ziel_von s' r =
                   Some (Ziel.set_verspaetung_ab
                           (Z.max (p_a + x + Z.max (p_d - (p_a + x)) (Ziel.mindestaufenthalt ziel))
                                  kuppel_an - p_d)
                           (Ziel.set_verspaetung_an x ziel))).
  { intros x Hz0.
    rewrite bind_eq, (ziel_aendern_ok r _ ziel s Hz0).
    pose proof (ziel_von_ziel_setzen_eq r (Ziel.set_verspaetung_an x ziel) ziel s Hz0) as Hz1.
    rewrite bind_eq, (ziel_aendern_ok r _ _ _ Hz1).
    rewrite Hk. eexists. split.
    - apply verspaetungen_korrigieren_erschoepft.
      rewrite !zielsortierung_ziel_setzen. exact Hgen.
    - apply (ziel_von_ziel_setzen_eq r _ _ _ Hz1). }
  subst v a dwell.
  destruct (kuppel_bedingung kuppel_an p_a (Ziel.verspaetung_an ziel));
    apply (Hende _ Hz).
Qed.




(** ** Trains that are missing in a snapshot *)

Lemma erhaelt_ret I {A} (a : A) : erhaelt I (ret a).
Proof. intros s H. exact H. Qed.

Lemma erhaelt_raise I {A} (e : Exception) : erhaelt I (@raise A e).
Proof. intros s H. exact H. Qed.

Lemma erhaelt_hebe I {A} (r : Result A) : erhaelt I (hebe r).
Proof. intros s H. exact H. Qed.

Lemma erhaelt_lies I {A} (f : Planung -> A) : erhaelt I (lies f).
Proof. intros s H. exact H. Qed.

Lemma erhaelt_aendere I (f : Planung -> Planung) :
  (forall s, I s -> I (f s)) -> erhaelt I (aendere f).
Proof. intros Hf s H. apply Hf. exact H. Qed.

Lemma erhaelt_bind I {A B} (m : M A) (k : A -> M B) :
  erhaelt I m -> (forall a, erhaelt I (k a)) -> erhaelt I (bind m k).
Proof.
  intros Hm Hk s H. unfold bind. specialize (Hm s H).
  destruct (m s) as [[a|e] s']; simpl in *; [apply Hk|]; exact Hm.
Qed.

Lemma erhaelt_versuche I {A} (m : M A) (faengt : list Exception) (h : M A) :
  erhaelt I m -> erhaelt I h -> erhaelt I (versuche m faengt h).
Proof.
  intros Hm Hh s H. unfold versuche. specialize (Hm s H).
  destruct (m s) as [[a|e] s']; simpl in *; [exact Hm|].
  destruct (existsb (Exception_eqb e) faengt); [apply Hh|]; exact Hm.
Qed.

Lemma erhaelt_fuer I {A} (l : list A) (f : A -> M unit) :
  (forall a, erhaelt I (f a)) -> erhaelt I (fuer l f).
Proof.
  intro Hf. induction l as [|a l IH]; simpl.
  - apply erhaelt_ret.
  - apply erhaelt_bind; [apply Hf | intros _; exact IH].
Qed.

(** A method that returns has passed every step of a sequence. *)
Lemma bind_ok {A B} (m : M A) (k : A -> M B) (s s' : Planung) (b : B) :
  bind m k s = (Ok b, s') ->
  exists a s1, m s = (Ok a, s1) /\ k a s1 = (Ok b, s').
Proof.
  unfold bind. destruct (m s) as [[a|e] s1]; [|discriminate].
  intro H. exists a, s1. split; [reflexivity | exact H].
Qed.

Lemma dict_get_app_some {K V} (eqb : K -> K -> bool) (k : K) (v : V)
    (d d' : list (K * V)) :
  dict_get eqb k d = Some v -> dict_get eqb k (d ++ d') = Some v.
Proof.
  induction d as [|[k0 v0] d IH]; simpl; [discriminate|].
  destruct (eqb k k0); [intro H; exact H | exact IH].
Qed.

Lemma dict_get_setdefault_some {K V} (eqb : K -> K -> bool) (k k' : K) (v v' : V)
    (d : list (K * V)) :
  dict_get eqb k d = Some v -> dict_get eqb k (dict_setdefault eqb k' v' d) = Some v.
Proof.
  intro H. unfold dict_setdefault. destruct (dict_get eqb k' d); [exact H|].
  apply dict_get_app_some. exact H.
Qed.

Lemma zug_von_add_edge (s : Planung) (u v : Z) (e : ZugKante) (zid : Z) (z : Zug.t) :
  zug_von s zid = Some z ->
  zug_von (set_zugbaum (add_edge Z.eqb u v e (zugbaum s)) s) zid = Some z.
Proof.
  unfold zug_von, node_attr, add_edge. simpl.
  destruct (dict_get Z.eqb zid (nodes (zugbaum s))) as [[z0|]|] eqn:E; try discriminate.
  intro H. inversion H. subst z0.
  rewrite (dict_get_setdefault_some Z.eqb zid v (Some z) None).
  - reflexivity.
  - apply dict_get_setdefault_some. exact E.
Qed.

Lemma forallb_liste_setzen {A} (p : A -> bool) (n : nat) (x y : A) (l : list A) :
  forallb p l = true -> nth_error l n = Some x -> p y = p x ->
  forallb p (liste_setzen n y l) = true.
Proof.
  revert n. induction l as [|a l IH]; intros [|n]; simpl; try discriminate.
  - intros H Hx Hp. inversion Hx. subst a. rewrite Hp. exact H.
  - intros H Hx Hp. apply andb_true_iff in H. destruct H as [H1 H2].
    rewrite H1. simpl. apply (IH n H2 Hx Hp).
Qed.

Lemma ist_markiert_ziel_setzen (zid : Z) (r : ZielRef) (x y : Ziel.t) (s : Planung) :
  ziel_von s r = Some x ->
  Ziel.abgefahren y = Ziel.abgefahren x ->
  ist_markiert zid s -> ist_markiert zid (ziel_setzen r y s).
Proof.
  intros Hx Hab [z [Hz Hm]]. unfold ziel_setzen, ziel_von in *.
  destruct (zug_von s (fst r)) as [z0|] eqn:E; [|discriminate].
  destruct (Z.eq_dec zid (fst r)) as [Heq|Hne].
  - rewrite Heq in *. rewrite E in Hz. inversion Hz. subst z0.
    eexists. split; [apply zug_von_zug_setzen_eq|].
    unfold ausgefahren_markiert in *. simpl.
    repeat (apply andb_true_iff in Hm; destruct Hm as [Hm ?]).
    repeat (apply andb_true_iff; split); try assumption.
    eapply forallb_liste_setzen; [eassumption | exact Hx | rewrite Hab; reflexivity].
  - exists z. split; [|exact Hm].
    rewrite zug_von_zug_setzen_neq by exact Hne. exact Hz.
Qed.

Lemma erhaelt_ziel_aendern (zid : Z) (r : ZielRef) (f : Ziel.t -> Ziel.t) :
  (forall x, Ziel.abgefahren (f x) = Ziel.abgefahren x) ->
  erhaelt (ist_markiert zid) (ziel_aendern r f).
Proof.
  intros Hf s H. unfold ziel_aendern, bind, ziel_objekt, aendere.
  destruct (ziel_von s r) as [x|] eqn:E; simpl; [|exact H].
  apply (ist_markiert_ziel_setzen zid r x (f x) s E (Hf x) H).
Qed.

Lemma erhaelt_zug_aendern (zid zid' : Z) (f : Zug.t -> Zug.t) :
  (forall z, ausgefahren_markiert (f z) = ausgefahren_markiert z) ->
  erhaelt (ist_markiert zid) (zug_aendern zid' f).
Proof.
  intros Hf s [z [Hz Hm]]. unfold zug_aendern, bind, zug_objekt, aendere.
  destruct (zug_von s zid') as [z0|] eqn:E; simpl; [|exists z; split; assumption].
  destruct (Z.eq_dec zid zid') as [Heq|Hne].
  - subst zid'. rewrite E in Hz. inversion Hz. subst z0.
    exists (f z). split; [apply zug_von_zug_setzen_eq | rewrite Hf; exact Hm].
  - exists z. split; [|exact Hm].
    rewrite zug_von_zug_setzen_neq by exact Hne. exact Hz.
Qed.

Lemma erhaelt_zugbaum_add_edge (zid u v : Z) (k : ZugKante) :
  erhaelt (ist_markiert zid) (zugbaum_add_edge u v k).
Proof.
  intros s [z [Hz Hm]]. exists z. split; [|exact Hm].
  apply zug_von_add_edge. exact Hz.
Qed.

Lemma erhaelt_zielgraph_add_edge (zid : Z) (u v : ZugZielNode) (t : ZielKante) :
  erhaelt (ist_markiert zid) (zielgraph_add_edge u v t).
Proof. intros s H. exact H. Qed.

Lemma erhaelt_zug_objekt (zid zid' : Z) : erhaelt (ist_markiert zid) (zug_objekt zid').
Proof. intros s H. unfold zug_objekt. destruct (zug_von s zid'); exact H. Qed.

Lemma erhaelt_ziel_objekt (zid : Z) (r : ZielRef) : erhaelt (ist_markiert zid) (ziel_objekt r).
Proof. intros s H. unfold ziel_objekt. destruct (ziel_von s r); exact H. Qed.


(** Follows the structure of a method for the marks of train [zid]. *)
Ltac erhaelt_schritt :=
  match goal with
  | |- erhaelt _ (bind _ _) => apply erhaelt_bind; [| intro]
  | |- erhaelt _ (versuche _ _ _) => apply erhaelt_versuche
  | |- erhaelt _ (fuer _ _) => apply erhaelt_fuer; intro
  | |- erhaelt _ (ret _) => apply erhaelt_ret
  | |- erhaelt _ (raise _) => apply erhaelt_raise
  | |- erhaelt _ (hebe _) => apply erhaelt_hebe
  | |- erhaelt _ (lies _) => apply erhaelt_lies
  | |- erhaelt _ (ziel_objekt _) => apply erhaelt_ziel_objekt
  | |- erhaelt _ (zug_objekt _) => apply erhaelt_zug_objekt
  | |- erhaelt _ (ziel_aendern _ _) => apply erhaelt_ziel_aendern; intro; reflexivity
  | |- erhaelt _ (zug_aendern _ _) => apply erhaelt_zug_aendern; intro; reflexivity
  | |- erhaelt _ (zugbaum_add_edge _ _ _) => apply erhaelt_zugbaum_add_edge
  | |- erhaelt _ (zielgraph_add_edge _ _ _) => apply erhaelt_zielgraph_add_edge
  | |- erhaelt _ (aendere _) =>
      apply erhaelt_aendere; let H := fresh in intros ? H; exact H
  | |- erhaelt _ (match ?x with _ => _ end) => destruct x
  | |- erhaelt _ _ => assumption
  end.

Ltac erhaelt_tac := cbv zeta; repeat erhaelt_schritt.

Lemma erhaelt_ursprung_objekt zid u : erhaelt (ist_markiert zid) (ursprung_objekt u).
Proof. unfold ursprung_objekt. erhaelt_tac. Qed.

Lemma erhaelt_ziel_eintragen zid zid2 zug zzid1 idx ziel2 :
  erhaelt (ist_markiert zid) (ziel_eintragen zid2 zug zzid1 idx ziel2).
Proof.
  unfold ziel_eintragen, folgezug_kante, abwarten_kante, korrektur_ursprung.
  pose proof (erhaelt_ursprung_objekt zid) as Hu.
  cbv zeta.
  repeat first [ apply Hu | erhaelt_schritt ].
Qed.

Lemma erhaelt_fahrplan_eintragen zid zid2 zug fahrplan :
  forall zzid1 idx,
    erhaelt (ist_markiert zid) (fahrplan_eintragen zid2 zug zzid1 idx fahrplan).
Proof.
  induction fahrplan as [|ziel2 r IH]; intros zzid1 idx; simpl.
  - apply erhaelt_ret.
  - apply erhaelt_bind; [apply erhaelt_ziel_eintragen | intros _; apply IH].
Qed.

Lemma erhaelt_zielgraph_erstellen zid : erhaelt (ist_markiert zid) _zielgraph_erstellen.
Proof.
  unfold _zielgraph_erstellen.
  apply erhaelt_bind; [apply erhaelt_lies | intro knoten].
  apply erhaelt_bind.
  - apply erhaelt_fuer. intros [k [zug|]]; simpl.
    + apply erhaelt_fahrplan_eintragen.
    + apply erhaelt_ret.
  - intros _. apply erhaelt_aendere. intros s H.
    destruct (topological_sort ZugZielNode_eqb (zielgraph s)). exact H.
Qed.

Lemma erhaelt_folgezuege_aufloesen zid : erhaelt (ist_markiert zid) _folgezuege_aufloesen.
Proof.
  unfold _folgezuege_aufloesen, folgezug_aufloesen. erhaelt_tac.
Qed.

Lemma erhaelt_zugbaum_analysieren zid : erhaelt (ist_markiert zid) _zugbaum_analysieren.
Proof.
  unfold _zugbaum_analysieren. erhaelt_tac.
Qed.

Lemma erhaelt_anschluss_setzen zid peer suche anschluss :
  erhaelt (ist_markiert zid) (anschluss_setzen peer suche anschluss).
Proof. unfold anschluss_setzen. erhaelt_tac. Qed.

Lemma erhaelt_ziel_korrekturen_definieren zid r :
  erhaelt (ist_markiert zid) (ziel_korrekturen_definieren r).
Proof.
  unfold ziel_korrekturen_definieren.
  pose proof (erhaelt_anschluss_setzen zid) as Ha.
  cbv zeta.
  repeat first [ apply Ha | erhaelt_schritt ].
Qed.

Lemma erhaelt_ziele_korrekturen_definieren zid zid' n :
  forall idx result,
    erhaelt (ist_markiert zid) (ziele_korrekturen_definieren zid' idx n result).
Proof.
  induction n as [|n IH]; intros idx result; simpl.
  - apply erhaelt_ret.
  - apply erhaelt_bind; [apply erhaelt_ziel_korrekturen_definieren | intro; apply IH].
Qed.

Lemma erhaelt_korrekturen_definieren zid : erhaelt (ist_markiert zid) korrekturen_definieren.
Proof.
  unfold korrekturen_definieren, zug_korrekturen_definieren.
  pose proof (erhaelt_ziele_korrekturen_definieren zid) as Hz.
  cbv zeta.
  repeat first [ apply Hz | erhaelt_schritt ].
Qed.

(** The first loop of [zuege_uebernehmen] leaves a train alone that is
    not in the snapshot. *)
Lemma zug_uebernehmen_anderer (zid : Z) (z : Zug.t) (zug : ZugDetails.t) :
  ZugDetails.zid zug <> zid ->
  erhaelt (fun s => zug_von s zid = Some z) (zug_uebernehmen zug).
Proof.
  intros Hne s H. unfold zug_uebernehmen, bind, lies, hebe, aendere.
  assert (Hn : zid <> ZugDetails.zid zug) by congruence.
  destruct (zug_von s (ZugDetails.zid zug)); simpl.
  - rewrite zug_von_zug_setzen_neq by exact Hn. exact H.
  - destruct (assign_zug_details zug); simpl; [|exact H].
    rewrite zug_von_zug_setzen_neq by exact Hn. exact H.
Qed.

Lemma zuege_uebernehmen_anderer (zid : Z) (z : Zug.t) (zuege : list ZugDetails.t) :
  zid_in zid zuege = false ->
  erhaelt (fun s => zug_von s zid = Some z) (fuer zuege zug_uebernehmen).
Proof.
  induction zuege as [|zug l IH]; simpl; intro H.
  - apply erhaelt_ret.
  - apply orb_false_iff in H. destruct H as [H1 H2].
    apply erhaelt_bind.
    + apply zug_uebernehmen_anderer. apply Z.eqb_neq. exact H1.
    + intros _. apply IH. exact H2.
Qed.

Lemma ausgefahren_setzen_markiert (z : Zug.t) :
  ausgefahren_markiert (ausgefahren_setzen z) = true.
Proof.
  unfold ausgefahren_markiert, ausgefahren_setzen. simpl.
  induction (Zug.fahrplan z) as [|x l IH]; simpl; [reflexivity|].
  rewrite IH. unfold oder_wahr. destruct (Ziel.abgefahren x); reflexivity.
Qed.

(** The second loop keeps the marks of a train. *)
Lemma ausfahrt_markieren_erhaelt (zid zid' : Z) :
  erhaelt (ist_markiert zid) (ausfahrt_markieren zid').
Proof.
  intros s [z [Hz Hm]]. unfold ausfahrt_markieren, bind, lies, aendere.
  destruct (zug_von s zid') as [z'|] eqn:E; simpl; [|exists z; split; assumption].
  destruct (Zug.sichtbar z') eqn:Es; simpl; [|exists z; split; assumption].
  destruct (Z.eq_dec zid zid') as [Heq|Hne].
  - subst zid'. eexists. split; [apply zug_von_zug_setzen_eq|].
    apply ausgefahren_setzen_markiert.
  - exists z. split; [|exact Hm].
    rewrite zug_von_zug_setzen_neq by exact Hne. exact Hz.
Qed.

(** The second loop marks a visible train of its list. *)
Lemma ausfahrt_markieren_liste (zid : Z) (z : Zug.t) (l : list Z) :
  In zid l ->
  Zug.sichtbar z = true ->
  forall s, zug_von s zid = Some z ->
            ist_markiert zid (snd (fuer l ausfahrt_markieren s)).
Proof.
  intros Hin Hs. induction l as [|zid' l IH]; [destruct Hin|].
  intros s Hz. simpl. rewrite bind_eq.
  destruct (Z.eq_dec zid' zid) as [Heq|Hne].
  - subst zid'.
    assert (Hm : ist_markiert zid (snd (ausfahrt_markieren zid s))).
    { unfold ausfahrt_markieren, bind, lies, aendere. rewrite Hz, Hs. simpl.
      eexists. split; [apply zug_von_zug_setzen_eq | apply ausgefahren_setzen_markiert]. }
    destruct (ausfahrt_markieren zid s) as [[[]|e] s1]; simpl in *; [|exact Hm].
    apply (erhaelt_fuer (ist_markiert zid) l ausfahrt_markieren
             (ausfahrt_markieren_erhaelt zid) s1 Hm).
  - destruct Hin as [Hin|Hin]; [congruence|].
    assert (Hz1 : zug_von (snd (ausfahrt_markieren zid' s)) zid = Some z).
    { unfold ausfahrt_markieren, bind, lies, aendere.
      destruct (zug_von s zid'); simpl; [|exact Hz].
      destruct (Zug.sichtbar t); simpl; [|exact Hz].
      rewrite zug_von_zug_setzen_neq by congruence. exact Hz. }
    assert (Hok : exists s1, ausfahrt_markieren zid' s = (Ok tt, s1)).
    { unfold ausfahrt_markieren, bind, lies, aendere.
      destruct (zug_von s zid'); simpl; [|eexists; reflexivity].
      destruct (Zug.sichtbar t); eexists; reflexivity. }
    destruct Hok as [s1 Hok]. rewrite Hok in *. simpl in Hz1.
    apply (IH Hin s1 Hz1).
Qed.

Lemma zug_von_bekannt (s : Planung) (zid : Z) (z : Zug.t) :
  zug_von s zid = Some z -> In zid (map fst (nodes (zugbaum s))).
Proof.
  unfold zug_von, node_attr. generalize (nodes (zugbaum s)).
  induction l as [|[k v] l IH]; simpl; [discriminate|].
  destruct (zid =? k) eqn:E.
  - apply Z.eqb_eq in E. intros _. left. congruence.
  - intro H. right. apply IH. exact H.
Qed.

(** A train that is known to the engine and visible, and whose [zid]
    is not in the snapshot, carries the marks once [zuege_uebernehmen]
    has returned. *)
Lemma sichtbarer_zug_markiert (s s' : Planung) (zuege : list ZugDetails.t)
    (zid : Z) (zug : Zug.t) :
  zug_von s zid = Some zug ->
  Zug.sichtbar zug = true ->
  zid_in zid zuege = false ->
  zuege_uebernehmen zuege s = (Ok tt, s') ->
  exists zug',
    zug_von s' zid = Some zug'
    /\ Zug.ausgefahren zug' = true
    /\ Zug.sichtbar zug' = false
    /\ Zug.amgleis zug' = false
    /\ Zug.gleis zug' = EmptyString
    /\ Zug.plangleis zug' = EmptyString
    /\ Forall (fun zeile => wahr (Ziel.abgefahren zeile) = true) (Zug.fahrplan zug').
Proof.
  intros Hz Hs Hin Hrun.
  unfold zuege_uebernehmen in Hrun.
  apply bind_ok in Hrun. destruct Hrun as [bekannt [s0 [H0 Hrun]]].
  unfold lies in H0. injection H0 as Hbekannt Hs0. subst s0.
  apply bind_ok in Hrun. destruct Hrun as [[] [s1 [Hlauf1 Hrun]]].
  apply bind_ok in Hrun. destruct Hrun as [[] [s2 [Hlauf2 Hrun]]].
  assert (Hz1 : zug_von s1 zid = Some zug).
  { pose proof (zuege_uebernehmen_anderer zid zug zuege Hin s Hz) as H.
    rewrite Hlauf1 in H. exact H. }
  assert (Hm2 : ist_markiert zid s2).
  { assert (Hl : In zid (filter (fun zid0 => negb (zid_in zid0 zuege)) bekannt)).
    { apply filter_In. split; [|rewrite Hin; reflexivity].
      subst bekannt. apply (zug_von_bekannt s zid zug Hz). }
    pose proof (ausfahrt_markieren_liste zid zug _ Hl Hs s1 Hz1) as H.
    rewrite Hlauf2 in H. exact H. }
  assert (Hm : ist_markiert zid s').
  { assert (He : erhaelt (ist_markiert zid)
                   (_zielgraph_erstellen ;; _folgezuege_aufloesen ;;
                    _zugbaum_analysieren ;; korrekturen_definieren)).
    { apply erhaelt_bind; [apply erhaelt_zielgraph_erstellen | intros _].
      apply erhaelt_bind; [apply erhaelt_folgezuege_aufloesen | intros _].
      apply erhaelt_bind; [apply erhaelt_zugbaum_analysieren | intros _].
      apply erhaelt_korrekturen_definieren. }
    specialize (He s2 Hm2). rewrite Hrun in He. exact He. }
  destruct Hm as [zug' [Hz' Hm]]. exists zug'. split; [exact Hz'|].
  unfold ausgefahren_markiert in Hm.
  repeat (apply andb_true_iff in Hm; destruct Hm as [Hm ?]).
  repeat split.
  - exact Hm.
  - destruct (Zug.sichtbar zug'); [discriminate | reflexivity].
  - destruct (Zug.amgleis zug'); [discriminate | reflexivity].
  - destruct (Zug.gleis zug'); [reflexivity | discriminate].
  - destruct (Zug.plangleis zug'); [reflexivity | discriminate].
  - apply Forall_forall. intros x Hx.
    match goal with H : forallb _ _ = true |- _ =>
      rewrite forallb_forall in H; apply H; exact Hx end.
Qed.

(** Train 2 is known to the engine and has not been visible; when it is
    missing in the next snapshot, [zuege_uebernehmen] returns and the
    train is not marked as [ausgefahren]. *)
Lemma C8_gegenbeispiel :
  let s' := snd (zuege_uebernehmen anschluss_ohne_2 planung_am_gleis) in
  fst (zuege_uebernehmen anschluss_ohne_2 planung_am_gleis) = Ok tt
  /\ option_map Zug.sichtbar (zug_von planung_am_gleis 2) = Some false
  /\ zid_in 2 anschluss_ohne_2 = false
  /\ ~ (option_map Zug.ausgefahren (zug_von s' 2) = Some true).
Proof.
  vm_compute. repeat split; try reflexivity. intro H. discriminate H.
Qed.

(** * Further properties of the planning module *)

(** ** Dispatcher corrections *)

Lemma nth_error_ab_aendern {A} (k : nat) (f : A -> A) (l : list A) (j : nat) :
  nth_error (ab_aendern k f l) j =
    if (j <? k)%nat then nth_error l j else option_map f (nth_error l j).
Proof.
  unfold ab_aendern. revert k j. induction l as [|a l IH]; intros k j.
  - rewrite firstn_nil, skipn_nil. simpl.
    destruct j; simpl; destruct (_ <? k)%nat; reflexivity.
  - destruct k as [|k]; simpl.
    + destruct j as [|j]; simpl; [reflexivity | apply nth_error_map].
    + destruct j as [|j]; simpl; [reflexivity|].
      rewrite IH. reflexivity.
Qed.

(** The first row with the plan track of a row is not after the row. *)
Lemma find_fahrplan_index_le (fahrplan : list Ziel.t) (n : nat) (z : Ziel.t) :
  nth_error fahrplan n = Some z ->
  exists i, find_fahrplan_index fahrplan (Ziel.plan z) = Some i /\ (i <= n)%nat.
Proof.
  revert n. induction fahrplan as [|a l IH]; intros [|n]; simpl; try discriminate.
  - intro H. inversion H. subst a. rewrite String.eqb_refl. exists O. split; [reflexivity | lia].
  - intro H. destruct (String.eqb (Ziel.plan a) (Ziel.plan z)).
    + exists O. split; [reflexivity | lia].
    + destruct (IH n H) as [i [Hi Hle]]. rewrite Hi. exists (S i). split; [reflexivity | lia].
Qed.

(** X1: [fdl_korrektur_setzen] with a correction gives it to the row and
    clears the dispatcher corrections of all rows after the first row
    [i] with the plan track of the row; the rows up to [i] keep theirs.
    The row itself is at [i] when its plan track occurs once; when the
    plan track occurs before it, its own new correction is cleared with
    the later ones. *)
Theorem fdl_korrektur_setzen_folgende (s : Planung) (r : ZielRef) (ziel : Ziel.t)
    (zug : Zug.t) (k : VerspaetungsKorrektur) :
  zug_von s (fst r) = Some zug ->
  nth_error (Zug.fahrplan zug) (snd r) = Some ziel ->
  Ziel.zid ziel = fst r ->
  exists s' i,
    fdl_korrektur_setzen (Some k) r s = (Ok tt, s')
    /\ find_fahrplan_index (Zug.fahrplan zug) (Ziel.plan ziel) = Some i
    /\ (i <= snd r)%nat
    /\ forall j z,
         nth_error (Zug.fahrplan zug) j = Some z ->
         ziel_von s' (fst r, j) =
           Some (if (j <=? i)%nat
                 then if (j =? snd r)%nat then Ziel.set_fdl_korrektur (Some k) z else z
                 else Ziel.set_fdl_korrektur None z).
Proof.
  intros Hzug Hnth Hzid.
  destruct (find_fahrplan_index_le _ _ _ Hnth) as [i [Hi Hle]].
  assert (Hz : ziel_von s r = Some ziel) by (unfold ziel_von; rewrite Hzug; exact Hnth).
  set (fp1 := liste_setzen (snd r) (Ziel.set_fdl_korrektur (Some k) ziel) (Zug.fahrplan zug)).
  set (s1 := ziel_setzen r (Ziel.set_fdl_korrektur (Some k) ziel) s).
  assert (Hzug1 : zug_von s1 (fst r) = Some (Zug.set_fahrplan fp1 zug)).
  { unfold s1, ziel_setzen. rewrite Hzug. apply zug_von_zug_setzen_eq. }
  exists (zug_setzen (fst r)
            (Zug.set_fahrplan
               (ab_aendern (S i) (Ziel.set_fdl_korrektur None) fp1)
               (Zug.set_fahrplan fp1 zug)) s1), i.
  split; [|split; [exact Hi | split; [exact Hle|]]].
  - unfold fdl_korrektur_setzen.
    rewrite bind_eq, (ziel_objekt_ok r ziel s Hz).
    rewrite bind_eq. unfold zug_objekt. rewrite Hzid, Hzug.
    rewrite bind_eq, (ziel_aendern_ok r _ ziel s Hz). fold s1.
    rewrite Hi. unfold zug_aendern. rewrite bind_eq. unfold zug_objekt.
    rewrite Hzug1. reflexivity.
  - intros j z Hj. unfold ziel_von. simpl fst. simpl snd.
    rewrite zug_von_zug_setzen_eq. simpl.
    rewrite nth_error_ab_aendern. unfold fp1.
    destruct (Nat.eq_dec j (snd r)) as [Heq|Hne].
    + subst j. rewrite Hnth in Hj. inversion Hj. subst z.
      rewrite (nth_error_liste_setzen_eq _ _ _ _ Hnth), Nat.eqb_refl.
      destruct (snd r <? S i)%nat eqn:E1; destruct (snd r <=? i)%nat eqn:E2;
        try reflexivity.
      * apply Nat.ltb_lt in E1. apply Nat.leb_gt in E2. lia.
      * apply Nat.ltb_ge in E1. apply Nat.leb_le in E2. lia.
    + rewrite (nth_error_liste_setzen_neq _ _ _ _ Hne), Hj.
      assert (En : (j =? snd r)%nat = false) by (apply Nat.eqb_neq; exact Hne).
      rewrite En.
      destruct (j <? S i)%nat eqn:E1; destruct (j <=? i)%nat eqn:E2; try reflexivity.
      * apply Nat.ltb_lt in E1. apply Nat.leb_gt in E2. lia.
      * apply Nat.ltb_ge in E1. apply Nat.leb_le in E2. lia.
Qed.

(** X2: [fdl_korrektur_setzen] with [None] clears the dispatcher
    correction of the row and leaves every other row as it is. *)
Theorem fdl_korrektur_setzen_loeschen (s : Planung) (r : ZielRef) (ziel : Ziel.t)
    (zug : Zug.t) :
  ziel_von s r = Some ziel ->
  zug_von s (Ziel.zid ziel) = Some zug ->
  exists s',
    fdl_korrektur_setzen None r s = (Ok tt, s')
    /\ ziel_von s' r = Some (Ziel.set_fdl_korrektur None ziel)
    /\ forall r', r' <> r -> ziel_von s' r' = ziel_von s r'.
Proof.
  intros Hz Hzug. exists (ziel_setzen r (Ziel.set_fdl_korrektur None ziel) s).
  split; [|split].
  - unfold fdl_korrektur_setzen.
    rewrite bind_eq, (ziel_objekt_ok r ziel s Hz).
    rewrite bind_eq. unfold zug_objekt. rewrite Hzug.
    rewrite bind_eq, (ziel_aendern_ok r _ ziel s Hz). reflexivity.
  - apply (ziel_von_ziel_setzen_eq r _ ziel s Hz).
  - intros r' Hne. apply ziel_von_ziel_setzen_neq. exact Hne.
Qed.

(** ** Guarantees of the correction rules *)

(** X3: the rules [Einfahrtszeit], [PlanmaessigeAbfahrt], [Ersatzzug],
    [Kupplung] and [Fluegelung] applied to a row without a planned
    arrival log one message, set the departure delay of the row to its
    arrival delay and return; they start no sweep and change nothing
    else. *)
Theorem anwenden_ohne_ankunft (rek : M unit) (k : VerspaetungsKorrektur)
    (s : Planung) (r : ZielRef) (ziel : Ziel.t) :
  faengt_fehlende_ankunft k = true ->
  ziel_von s r = Some ziel ->
  Ziel.an ziel = None ->
  exists lvl msg,
    anwenden rek k r s =
      (Ok tt,
       ziel_setzen r (abfahrt_wie_ankunft ziel)
         (set_protokoll (protokoll s ++ [(lvl, msg)]) s))
    /\ ziel_von (snd (anwenden rek k r s)) r
       = Some (Ziel.set_verspaetung_ab (Ziel.verspaetung_an ziel) ziel).
Proof.
  intros Hk Hz Han.
  assert (Hlog : forall lvl msg,
            (logge lvl msg ;; ziel_aendern r abfahrt_wie_ankunft) s =
              (Ok tt, ziel_setzen r (abfahrt_wie_ankunft ziel)
                        (set_protokoll (protokoll s ++ [(lvl, msg)]) s))).
  { intros lvl msg. rewrite bind_eq. unfold logge, aendere.
    apply ziel_aendern_ok. exact Hz. }
  assert (Hrow : forall lvl msg,
            ziel_von (ziel_setzen r (abfahrt_wie_ankunft ziel)
                        (set_protokoll (protokoll s ++ [(lvl, msg)]) s)) r
            = Some (Ziel.set_verspaetung_ab (Ziel.verspaetung_an ziel) ziel)).
  { intros lvl msg. apply (ziel_von_ziel_setzen_eq r _ ziel). exact Hz. }
  destruct k; try discriminate Hk; simpl anwenden;
    unfold Einfahrtszeit_anwenden, PlanmaessigeAbfahrt_anwenden, Ersatzzug_anwenden,
      Kupplung_anwenden, Fluegelung_anwenden;
    rewrite bind_eq, (ziel_objekt_ok r ziel s Hz), Han; cbn [time_to_minutes];
    rewrite Hlog; eexists; eexists; (split; [reflexivity | apply Hrow]).
Qed.

(** X4: [PlanmaessigeAbfahrt.anwenden] on a row with a planned arrival
    never gives a negative departure delay: the delay is what the
    minimum dwell after the delayed arrival leaves of it,
    [max(0, a + min_dwell - p_d)].  With a planned departure the train
    then stays at least the minimum dwell and does not leave before the
    planned departure. *)
Theorem PlanmaessigeAbfahrt_mindestaufenthalt (s : Planung) (r : ZielRef)
    (ziel : Ziel.t) (p_a : Z) :
  ziel_von s r = Some ziel ->
  Ziel.an ziel = Some p_a ->
  let p_d := match Ziel.ab ziel with
             | Some t => t
             | None => p_a + Ziel.mindestaufenthalt ziel
             end in
  exists s' ziel',
    PlanmaessigeAbfahrt_anwenden r s = (Ok tt, s')
    /\ ziel_von s' r = Some ziel'
    /\ Ziel.verspaetung_ab ziel' =
         Z.max 0 (p_a + Ziel.verspaetung_an ziel + Ziel.mindestaufenthalt ziel - p_d)
    /\ 0 <= Ziel.verspaetung_ab ziel'
    /\ (forall an' ab',
          ankunft_minute ziel' = Some an' -> abfahrt_minute ziel' = Some ab' ->
          Ziel.mindestaufenthalt ziel <= ab' - an' /\ p_d <= ab').
Proof.
  intros Hz Han p_d.
  unfold PlanmaessigeAbfahrt_anwenden.
  rewrite bind_eq, (ziel_objekt_ok r ziel s Hz), Han. cbn [time_to_minutes]. cbv zeta.
  rewrite (ziel_aendern_ok r _ ziel s Hz).
  assert (Hp : (match time_to_minutes (Ziel.ab ziel) with
                | Ok t => t
                | Raise _ => p_a + Ziel.mindestaufenthalt ziel
                end) = p_d)
    by (subst p_d; destruct (Ziel.ab ziel); reflexivity).
  rewrite Hp.
  eexists. eexists. split; [reflexivity|].
  split; [apply (ziel_von_ziel_setzen_eq r _ ziel s Hz)|].
  unfold ankunft_minute, abfahrt_minute. simpl. rewrite Han. simpl.
  split; [lia | split; [lia|]].
  intros an' ab' Ha Hb. inversion Ha. subst an'.
  destruct (Ziel.ab ziel) as [t|] eqn:Eab; simpl in Hb; [|discriminate].
  inversion Hb. subst ab' p_d. lia.
Qed.

(** X5: [AnkunftAbwarten.anwenden], for a row whose planned times are
    found and an awaited row with a planned arrival, sets
    [departure_delay = max(a + dwell, ca + wartezeit) - p_d] with [ca]
    the delayed arrival of the awaited row: the departure is not
    before the arrival of the awaited train plus the waiting time, and
    not before the minimum dwell is over. *)
Theorem AnkunftAbwarten_formel (s : Planung) (r u : ZielRef) (wartezeit : Z)
    (ziel ursprung : Ziel.t) (p_a p_d c_a : Z) :
  ziel_von s r = Some ziel ->
  abwarten_planzeiten ziel = Ok (p_a, p_d) ->
  ziel_von s u = Some ursprung ->
  Ziel.an ursprung = Some c_a ->
  let a := p_a + Ziel.verspaetung_an ziel in
  let dwell := Z.max (p_d - a) (Ziel.mindestaufenthalt ziel) in
  let ca := c_a + Ziel.verspaetung_an ursprung in
  let v := Z.max (a + dwell) (ca + wartezeit) - p_d in
  exists s',
    AnkunftAbwarten_anwenden (Some u) wartezeit r s = (Ok tt, s')
    /\ ziel_von s' r = Some (Ziel.set_verspaetung_ab v ziel)
    /\ ca + wartezeit <= p_d + v
    /\ a + Ziel.mindestaufenthalt ziel <= p_d + v
    /\ p_d <= p_d + v.
Proof.
  intros Hz Hp Hu Hca a dwell ca v.
  unfold AnkunftAbwarten_anwenden.
  rewrite bind_eq, (ziel_objekt_ok r ziel s Hz).
  rewrite bind_eq. unfold hebe at 1. rewrite Hp. cbv zeta. simpl fst. simpl snd.
  rewrite bind_eq. unfold ursprung_objekt. rewrite (ziel_objekt_ok u ursprung s Hu).
  rewrite bind_eq. unfold hebe. rewrite Hca. cbn [time_to_minutes].
  rewrite (ziel_aendern_ok r _ ziel s Hz).
  eexists. split; [reflexivity|].
  split; [apply (ziel_von_ziel_setzen_eq r _ ziel s Hz)|].
  subst v dwell a ca. lia.
Qed.

(** X6: [AbfahrtAbwarten.anwenden], for a row whose planned times are
    found and an awaited row with a planned departure, sets
    [departure_delay = max(a + dwell, cd + wartezeit) - p_d] with [cd]
    the delayed departure of the awaited row: the departure is not
    before the departure of the awaited train plus the waiting time,
    and not before the minimum dwell is over. *)
Theorem AbfahrtAbwarten_formel (s : Planung) (r u : ZielRef) (wartezeit : Z)
    (ziel ursprung : Ziel.t) (p_a p_d c_d : Z) :
  ziel_von s r = Some ziel ->
  abwarten_planzeiten ziel = Ok (p_a, p_d) ->
  ziel_von s u = Some ursprung ->
  Ziel.ab ursprung = Some c_d ->
  let a := p_a + Ziel.verspaetung_an ziel in
  let dwell := Z.max (p_d - a) (Ziel.mindestaufenthalt ziel) in
  let cd := c_d + Ziel.verspaetung_ab ursprung in
  let v := Z.max (a + dwell) (cd + wartezeit) - p_d in
  exists s',
    AbfahrtAbwarten_anwenden (Some u) wartezeit r s = (Ok tt, s')
    /\ ziel_von s' r = Some (Ziel.set_verspaetung_ab v ziel)
    /\ cd + wartezeit <= p_d + v
    /\ a + Ziel.mindestaufenthalt ziel <= p_d + v
    /\ p_d <= p_d + v.
Proof.
  intros Hz Hp Hu Hcd a dwell cd v.
  unfold AbfahrtAbwarten_anwenden.
  rewrite bind_eq, (ziel_objekt_ok r ziel s Hz).
  rewrite bind_eq. unfold hebe at 1. rewrite Hp. cbv zeta. simpl fst. simpl snd.
  rewrite bind_eq. unfold ursprung_objekt. rewrite (ziel_objekt_ok u ursprung s Hu).
  rewrite bind_eq. unfold hebe. rewrite Hcd. cbn [time_to_minutes].
  rewrite (ziel_aendern_ok r _ ziel s Hz).
  eexists. split; [reflexivity|].
  split; [apply (ziel_von_ziel_setzen_eq r _ ziel s Hz)|].
  subst v dwell a cd. lia.
Qed.

(** X7: where the separation loop of the coupling rule runs, it ends
    with the arrival exactly 2 minutes after [kuppel_an], after 1 to 3
    iterations; where the arrivals are 2 minutes or more apart it does
    not run.  The coupling train is never moved to before its partner. *)
Theorem kuppel_schleife_abstand (kuppel_an plan_an verspaetung_an : Z) :
  exists (n : nat) (v : Z),
    kuppel_schleife (S (kuppel_schranke kuppel_an plan_an verspaetung_an))
                    kuppel_an plan_an verspaetung_an = Some (n, v)
    /\ (if kuppel_bedingung kuppel_an plan_an verspaetung_an
        then plan_an + v = kuppel_an + 2 /\ (1 <= n <= 3)%nat
        else v = verspaetung_an /\ n = O)
    /\ verspaetung_an <= v
    /\ 2 <= Z.abs (kuppel_an - (plan_an + v)).
Proof.
  rewrite kuppel_schleife_ergebnis.
  destruct (kuppel_bedingung kuppel_an plan_an verspaetung_an) eqn:Hc.
  - apply kuppel_bedingung_true in Hc.
    eexists. eexists. split; [reflexivity|]. repeat split; lia.
  - apply kuppel_bedingung_false in Hc.
    eexists. eexists. split; [reflexivity|]. repeat split; lia.
Qed.

(** ** Single steps of the sweep *)

Lemma ZielTyp_eqb_eq (a b : ZielTyp) : ZielTyp_eqb a b = true <-> a = b.
Proof. destruct a, b; simpl; split; intro H; try reflexivity; discriminate. Qed.

Lemma ZugZielNode_eqb_eq (a b : ZugZielNode) : ZugZielNode_eqb a b = true <-> a = b.
Proof.
  unfold ZugZielNode_eqb. destruct a as [t1 z1 p1], b as [t2 z2 p2]. simpl.
  rewrite !andb_true_iff, ZielTyp_eqb_eq, Z.eqb_eq, String.eqb_eq.
  split.
  - intros [[H1 H2] H3]. congruence.
  - intro H. inversion H. repeat split.
Qed.

Lemma knoten_attribute_add_node (s : Planung) (node : ZugZielNode) (d : ZielDaten) :
  knoten_attribute (set_zielgraph (add_node ZugZielNode_eqb node d (zielgraph s)) s) node
  = Some d.
Proof.
  unfold knoten_attribute, node_attr, add_node. simpl.
  rewrite (dict_get_set_eq ZugZielNode_eqb ZugZielNode_eqb_eq). reflexivity.
Qed.

Lemma zielgraph_ziel_setzen (r : ZielRef) (x : Ziel.t) (s : Planung) :
  zielgraph (ziel_setzen r x s) = zielgraph s.
Proof. unfold ziel_setzen. destruct (zug_von s (fst r)); reflexivity. Qed.

(** X8: a dispatcher correction [FesteVerspaetung(d)] on a row that has
    not departed overrides every automatic correction: the second half
    of the loop body sets the departure delay of the row to [d] and
    publishes it as [v_ab] of the node, and it starts no other sweep. *)
Theorem abfahrt_korrigieren_fdl_fest (rek : M unit) (s : Planung) (node : ZugZielNode)
    (data : ZielDaten) (ziel : Ziel.t) (d : Z) :
  knoten_attribute s node = Some data ->
  ziel_von s (obj data) = Some ziel ->
  wahr (Ziel.abgefahren ziel) = false ->
  Ziel.fdl_korrektur ziel = Some (FesteVerspaetung d) ->
  exists s',
    abfahrt_korrigieren rek node s = (Ok tt, s')
    /\ ziel_von s' (obj data) = Some (Ziel.set_verspaetung_ab d ziel)
    /\ knoten_attribute s' node = Some (set_v_ab d data)
    /\ zielsortierung s' = zielsortierung s.
Proof.
  intros Hd Hz Hab Hfdl.
  assert (Hk : forall s0, zielgraph s0 = zielgraph s -> knoten_daten node s0 = (Ok data, s0)).
  { intros s0 Hg. unfold knoten_daten. rewrite Hg. unfold knoten_attribute in Hd.
    destruct (node_attr ZugZielNode_eqb (zielgraph s) node) as [[d0|]|]; try discriminate.
    inversion Hd. reflexivity. }
  set (s1 := ziel_setzen (obj data) (Ziel.set_verspaetung_ab d ziel) s).
  assert (Hz1 : ziel_von s1 (obj data) = Some (Ziel.set_verspaetung_ab d ziel))
    by (apply (ziel_von_ziel_setzen_eq _ _ ziel s Hz)).
  assert (Hg1 : zielgraph s1 = zielgraph s) by apply zielgraph_ziel_setzen.
  unfold abfahrt_korrigieren.
  rewrite bind_eq, (Hk s eq_refl). cbv zeta.
  rewrite bind_eq, (ziel_objekt_ok _ ziel s Hz).
  rewrite Hab, Hfdl. cbn [negb anwenden]. unfold FesteVerspaetung_anwenden.
  rewrite bind_eq, (ziel_aendern_ok _ _ ziel s Hz). fold s1.
  rewrite bind_eq, (ziel_objekt_ok _ _ s1 Hz1).
  unfold knoten_daten_aendern. rewrite bind_eq, (Hk s1 Hg1). unfold aendere.
  eexists. split; [reflexivity|]. split; [exact Hz1|].
  split; [apply knoten_attribute_add_node|].
  simpl. apply zielsortierung_ziel_setzen.
Qed.

(** X9: the first half of the loop body, for a node whose row has
    arrived or that has no predecessor.  An arrived row keeps its
    arrival delay, which becomes [v_an] of the node; a row that has not
    arrived takes the delay of its train, which becomes [v_an]. *)
Theorem ankunft_schaetzen_ohne_vorgaenger (s : Planung) (node : ZugZielNode)
    (data : ZielDaten) (ziel : Ziel.t) (zug : Zug.t) :
  knoten_attribute s node = Some data ->
  ziel_von s (obj data) = Some ziel ->
  zug_von s (Ziel.zid ziel) = Some zug ->
  wahr (Ziel.angekommen ziel) = true
    \/ pred_items ZugZielNode_eqb (zielgraph s) node = [] ->
  let v := if wahr (Ziel.angekommen ziel) then Ziel.verspaetung_an ziel
           else Zug.verspaetung zug in
  exists s',
    ankunft_schaetzen node s = (Ok tt, s')
    /\ ziel_von s' (obj data) = Some (Ziel.set_verspaetung_an v ziel)
    /\ knoten_attribute s' node = Some (set_v_an v data).
Proof.
  intros Hd Hz Hzug Hfall v.
  assert (Hk : forall s0, zielgraph s0 = zielgraph s -> knoten_daten node s0 = (Ok data, s0)).
  { intros s0 Hg. unfold knoten_daten. rewrite Hg. unfold knoten_attribute in Hd.
    destruct (node_attr ZugZielNode_eqb (zielgraph s) node) as [[d0|]|]; try discriminate.
    inversion Hd. reflexivity. }
  unfold ankunft_schaetzen.
  rewrite bind_eq, (Hk s eq_refl). cbv zeta.
  rewrite bind_eq, (ziel_objekt_ok _ ziel s Hz).
  rewrite bind_eq. unfold zug_objekt. rewrite Hzug.
  destruct (wahr (Ziel.angekommen ziel)) eqn:Ean; cbn [negb].
  - rewrite bind_eq. unfold ret at 1.
    unfold knoten_daten_aendern. rewrite bind_eq, (Hk s eq_refl). unfold aendere.
    eexists. split; [reflexivity|]. split.
    + subst v. destruct ziel. exact Hz.
    + apply knoten_attribute_add_node.
  - destruct Hfall as [Hf|Hp]; [discriminate|].
    rewrite bind_eq. rewrite bind_eq. unfold lies at 1.
    rewrite Hp. cbn [map sammle]. rewrite bind_eq. unfold hebe at 1.
    cbn [List.length Nat.eqb]. rewrite orb_true_r.
    rewrite bind_eq, (ziel_aendern_ok _ _ ziel s Hz). unfold ret at 1.
    set (s1 := ziel_setzen (obj data) (Ziel.set_verspaetung_an (Zug.verspaetung zug) ziel) s).
    unfold knoten_daten_aendern.
    rewrite bind_eq, (Hk s1 (zielgraph_ziel_setzen _ _ _)). unfold aendere.
    eexists. split; [reflexivity|]. split.
    + apply (ziel_von_ziel_setzen_eq _ _ ziel s Hz).
    + apply knoten_attribute_add_node.
Qed.

(** ** Events *)

(** X10: an event is dropped with a warning, and changes nothing but
    the log, when its train is not known, when the train has no current
    row, when its plan track is not in the timetable, or when its row
    is before the current row of the train. *)
Theorem ereignis_verworfen (s : Planung) (ereignis : Ereignis.t) :
  (zug_von s (Ereignis.zid ereignis) = None
   \/ exists zug alter_index,
        zug_von s (Ereignis.zid ereignis) = Some zug
        /\ Zug.ziel_index zug = Some alter_index
        /\ (py_position (List.length (Zug.fahrplan zug)) alter_index = None
            \/ ereignis_neuer_index ereignis zug = None
            \/ exists neuer_index,
                 ereignis_neuer_index ereignis zug = Some neuer_index
                 /\ neuer_index < alter_index)) ->
  exists msg,
    ereignis_uebernehmen ereignis s =
      (Ok tt,
       set_protokoll (protokoll s ++ [(DEBUG, "ereignis"%string)] ++ [(WARNING, msg)]) s).
Proof.
  intro H. unfold ereignis_uebernehmen.
  rewrite bind_eq. unfold logge at 1, aendere at 1.
  set (s1 := set_protokoll (protokoll s ++ [(DEBUG, "ereignis"%string)]) s).
  rewrite bind_eq. unfold lies at 1.
  assert (Hlog : forall msg,
            logge WARNING msg s1 =
              (Ok tt, set_protokoll
                        (protokoll s ++ [(DEBUG, "ereignis"%string)] ++ [(WARNING, msg)]) s)).
  { intro msg. unfold logge, aendere, s1. simpl. rewrite <- app_assoc. reflexivity. }
  change (zug_von s1 (Ereignis.zid ereignis)) with (zug_von s (Ereignis.zid ereignis)).
  destruct H as [H|[zug [alter_index [Hzug [Hidx H]]]]].
  - rewrite H. eexists. apply Hlog.
  - rewrite Hzug, Hidx.
    destruct H as [H|H].
    + rewrite H. eexists. apply Hlog.
    + destruct (py_position (List.length (Zug.fahrplan zug)) alter_index);
        [|eexists; apply Hlog].
      destruct H as [H|[neuer_index [H Hlt]]].
      * rewrite H. eexists. apply Hlog.
      * rewrite H. apply Z.ltb_lt in Hlt. rewrite Hlt. eexists. apply Hlog.
Qed.

Lemma nth_error_ersten_aendern {A} (k : nat) (f : A -> A) (l : list A) (j : nat) :
  nth_error (ersten_aendern k f l) j =
    if (j <? k)%nat then option_map f (nth_error l j) else nth_error l j.
Proof.
  unfold ersten_aendern. revert k j. induction l as [|a l IH]; intros k j.
  - rewrite firstn_nil, skipn_nil. simpl.
    destruct j; simpl; destruct (_ <? k)%nat; reflexivity.
  - destruct k as [|k]; simpl.
    + destruct j; reflexivity.
    + destruct j as [|j]; simpl; [reflexivity|].
      rewrite IH. reflexivity.
Qed.

Lemma py_slice_laenge_position (len : nat) (i : Z) (n : nat) :
  py_position len i = Some n -> py_slice_laenge len i = n.
Proof.
  unfold py_position, py_slice_laenge.
  destruct (0 <=? i) eqn:E1; simpl.
  - destruct (i <? Z.of_nat len) eqn:E2; simpl.
    + apply Z.leb_le in E1. apply Z.ltb_lt in E2. intro H. inversion H. lia.
    + destruct (i <? 0) eqn:E3; simpl; [|discriminate].
      apply Z.leb_le in E1. apply Z.ltb_lt in E3. lia.
  - destruct (i <? 0) eqn:E3; simpl; [|discriminate].
    destruct (0 <=? i + Z.of_nat len) eqn:E4; [|discriminate].
    apply Z.leb_le in E4. intro H. inversion H. lia.
Qed.

(** An assignment to a row, seen from every reference. *)
Lemma ziel_aendern_wirkung (r : ZielRef) (f : Ziel.t -> Ziel.t) (z : Ziel.t) (s : Planung) :
  ziel_von s r = Some z ->
  exists s',
    ziel_aendern r f s = (Ok tt, s')
    /\ ziel_von s' r = Some (f z)
    /\ forall r', r' <> r -> ziel_von s' r' = ziel_von s r'.
Proof.
  intro H. exists (ziel_setzen r (f z) s). split; [apply ziel_aendern_ok; exact H|].
  split; [apply (ziel_von_ziel_setzen_eq r _ z s H)|].
  intros r' Hne. apply ziel_von_ziel_setzen_neq. exact Hne.
Qed.

(** An assignment to the rows of a train as a whole. *)
Lemma zug_aendern_fahrplan (zid : Z) (h : list Ziel.t -> list Ziel.t) (z : Zug.t)
    (s : Planung) :
  zug_von s zid = Some z ->
  exists s',
    zug_aendern zid (fun z => Zug.set_fahrplan (h (Zug.fahrplan z)) z) s = (Ok tt, s')
    /\ forall j, ziel_von s' (zid, j) = nth_error (h (Zug.fahrplan z)) j.
Proof.
  intro H. unfold zug_aendern. rewrite bind_eq. unfold zug_objekt. rewrite H.
  eexists. split; [reflexivity|]. intro j.
  unfold ziel_von. simpl fst. rewrite zug_von_zug_setzen_eq. reflexivity.
Qed.

(** X11: an arrival event that is taken over, for a train whose current
    row [altes_ziel] has a planned arrival.  The delay of the row
    becomes the time of the event minus the planned arrival and the row
    is marked as arrived at that time; a row of a passage is also
    marked as departed, with the same delay.  Every row before it is
    marked as arrived and departed, a recorded time being kept; the
    rows after it stay as they are. *)
Theorem ereignis_ankunft (s : Planung) (ereignis : Ereignis.t) (zug : Zug.t)
    (alter_index neuer_index : Z) (alt : nat) (altes_ziel : Ziel.t) (p_a : Z) :
  Ereignis.art ereignis = ankunft_art ->
  zug_von s (Ereignis.zid ereignis) = Some zug ->
  Zug.ziel_index zug = Some alter_index ->
  py_position (List.length (Zug.fahrplan zug)) alter_index = Some alt ->
  nth_error (Zug.fahrplan zug) alt = Some altes_ziel ->
  Ziel.an altes_ziel = Some p_a ->
  ereignis_neuer_index ereignis zug = Some neuer_index ->
  alter_index <= neuer_index ->
  let zeit := Ereignis.zeit ereignis in
  let angekommen :=
    Ziel.set_angekommen (Zeitpunkt zeit) (Ziel.set_verspaetung_an (zeit - p_a) altes_ziel) in
  exists s',
    ereignis_uebernehmen ereignis s = (Ok tt, s')
    /\ forall j z,
         nth_error (Zug.fahrplan zug) j = Some z ->
         ziel_von s' (Ereignis.zid ereignis, j) =
           Some (if (j <? alt)%nat then
                   Ziel.set_abgefahren (oder_wahr (Ziel.abgefahren z))
                     (Ziel.set_angekommen (oder_wahr (Ziel.angekommen z)) z)
                 else if (j =? alt)%nat then
                   if durchfahrt (Ziel.flags altes_ziel)
                   then Ziel.set_abgefahren (Zeitpunkt zeit) (abfahrt_wie_ankunft angekommen)
                   else angekommen
                 else z).
Proof.
  intros Hart Hzug Hidx Halt Hziel Han Hneu Hle zeit angekommen.
  assert (Hne : Zug.fahrplan zug <> []).
  { intro E. rewrite E in Hziel. destruct alt; discriminate. }
  pose proof (ereignis_neuer_index_gueltig _ _ _ Hne Hneu) as Hg.
  set (s1 := set_protokoll (protokoll s ++ [(DEBUG, "ereignis"%string)]) s).
  assert (Hzug1 : zug_von s1 (Ereignis.zid ereignis) = Some zug) by exact Hzug.
  assert (Hrows1 : forall j, ziel_von s1 (Ereignis.zid ereignis, j) = nth_error (Zug.fahrplan zug) j).
  { intro j. unfold ziel_von. simpl fst. rewrite Hzug1. reflexivity. }
  assert (Hz1 : ziel_von s1 (Ereignis.zid ereignis, alt) = Some altes_ziel) by (rewrite Hrows1; exact Hziel).
  unfold ereignis_uebernehmen.
  rewrite bind_eq. unfold logge at 1, aendere at 1. fold s1.
  rewrite bind_eq. unfold lies at 1.
  rewrite Hzug1, Hidx, Halt, Hneu.
  destruct (neuer_index <? alter_index) eqn:E; [apply Z.ltb_lt in E; lia|].
  rewrite (py_position_gueltig _ _ Hg).
  unfold ereignis_anwenden.
  rewrite bind_eq. unfold zug_objekt at 1. rewrite Hzug1, Hart.
  rewrite bind_eq, (ziel_objekt_ok _ _ _ Hz1).
  rewrite bind_eq. unfold hebe at 1. rewrite Han. cbn [time_to_minutes].
  (* the assignments to the current row *)
  destruct (ziel_aendern_wirkung (Ereignis.zid ereignis, alt) (Ziel.set_verspaetung_an (zeit - p_a))
              altes_ziel s1 Hz1) as [s2 [E2 [Hz2 Hr2]]].
  fold zeit. rewrite bind_eq, E2.
  destruct (ziel_aendern_wirkung (Ereignis.zid ereignis, alt) (Ziel.set_angekommen (Zeitpunkt zeit))
              _ s2 Hz2) as [s3 [E3 [Hz3 Hr3]]].
  rewrite bind_eq, E3. fold angekommen in Hz3.
  assert (Hdurch : exists s4,
            (if durchfahrt (Ziel.flags altes_ziel)
             then ziel_aendern (Ereignis.zid ereignis, alt) abfahrt_wie_ankunft ;;
                  ziel_aendern (Ereignis.zid ereignis, alt) (Ziel.set_abgefahren (Zeitpunkt zeit))
             else ret tt) s3 = (Ok tt, s4)
            /\ ziel_von s4 (Ereignis.zid ereignis, alt) =
                 Some (if durchfahrt (Ziel.flags altes_ziel)
                       then Ziel.set_abgefahren (Zeitpunkt zeit) (abfahrt_wie_ankunft angekommen)
                       else angekommen)
            /\ forall r', r' <> (Ereignis.zid ereignis, alt) -> ziel_von s4 r' = ziel_von s3 r').
  { destruct (durchfahrt (Ziel.flags altes_ziel)).
    - destruct (ziel_aendern_wirkung (Ereignis.zid ereignis, alt) abfahrt_wie_ankunft _ s3 Hz3)
        as [sa [Ea [Hza Hra]]].
      destruct (ziel_aendern_wirkung (Ereignis.zid ereignis, alt) (Ziel.set_abgefahren (Zeitpunkt zeit))
                  _ sa Hza) as [sb [Eb [Hzb Hrb]]].
      exists sb. rewrite bind_eq, Ea. split; [exact Eb|]. split; [exact Hzb|].
      intros r' Hr'. rewrite Hrb, Hra by exact Hr'. reflexivity.
    - exists s3. split; [reflexivity|]. split; [exact Hz3|]. reflexivity. }
  destruct Hdurch as [s4 [E4 [Hz4 Hr4]]].
  rewrite bind_eq, E4.
  (* the rows before the current row *)
  assert (Hzug4 : exists zug4, zug_von s4 (Ereignis.zid ereignis) = Some zug4).
  { unfold ziel_von in Hz4. simpl fst in Hz4.
    destruct (zug_von s4 (Ereignis.zid ereignis)) as [z4|]; [exists z4; reflexivity | discriminate]. }
  destruct Hzug4 as [zug4 Hzug4].
  destruct (zug_aendern_fahrplan (Ereignis.zid ereignis)
              (ersten_aendern (py_slice_laenge (List.length (Zug.fahrplan zug)) alter_index)
                 (fun ziel => Ziel.set_abgefahren (oder_wahr (Ziel.abgefahren ziel))
                                (Ziel.set_angekommen (oder_wahr (Ziel.angekommen ziel)) ziel)))
              zug4 s4 Hzug4) as [s5 [E5 Hr5]].
  rewrite E5. exists s5. split; [reflexivity|].
  intros j z Hj. rewrite Hr5, nth_error_ersten_aendern.
  rewrite (py_slice_laenge_position _ _ _ Halt).
  assert (Hrow4 : nth_error (Zug.fahrplan zug4) j = ziel_von s4 (Ereignis.zid ereignis, j)).
  { unfold ziel_von. simpl fst. rewrite Hzug4. reflexivity. }
  rewrite Hrow4.
  destruct (Nat.eq_dec j alt) as [Heq|Hneq].
  - subst j. rewrite Nat.ltb_irrefl, Nat.eqb_refl. exact Hz4.
  - assert (Hr : (Ereignis.zid ereignis, j) <> (Ereignis.zid ereignis, alt)) by congruence.
    rewrite (Hr4 _ Hr), (Hr3 _ Hr), (Hr2 _ Hr), Hrows1, Hj.
    assert (En : (j =? alt)%nat = false) by (apply Nat.eqb_neq; exact Hneq).
    rewrite En. destruct (j <? alt)%nat; reflexivity.
Qed.

(** ** What the sweep keeps *)

(** Reading keeps every property of the state. *)
Lemma lesen_zug_objekt I zid : erhaelt I (zug_objekt zid).
Proof. intros s H. unfold zug_objekt. destruct (zug_von s zid); exact H. Qed.

Lemma lesen_ziel_objekt I r : erhaelt I (ziel_objekt r).
Proof. intros s H. unfold ziel_objekt. destruct (ziel_von s r); exact H. Qed.

Lemma lesen_knoten_daten I node : erhaelt I (knoten_daten node).
Proof.
  intros s H. unfold knoten_daten.
  destruct (node_attr ZugZielNode_eqb (zielgraph s) node) as [[d|]|]; exact H.
Qed.

Lemma lesen_ursprung_objekt I u : erhaelt I (ursprung_objekt u).
Proof.
  unfold ursprung_objekt. destruct u; [apply lesen_ziel_objekt | apply erhaelt_raise].
Qed.

Lemma lesen_ersatz_ankunft I z : erhaelt I (ersatz_ankunft z).
Proof.
  unfold ersatz_ankunft. destruct (Ziel.ersatzzug z); [|apply erhaelt_raise].
  apply erhaelt_bind; [apply lesen_zug_objekt | intro zug].
  destruct (Zug.fahrplan zug); [apply erhaelt_raise | apply erhaelt_hebe].
Qed.

Section SweepRahmen.
Variable I : Planung -> Prop.

Hypothesis I_protokoll : forall s l, I s -> I (set_protokoll l s).
Hypothesis I_zielsortierung : forall s g, I s -> I (set_zielsortierung g s).
Hypothesis I_knoten : forall node f, erhaelt I (knoten_daten_aendern node f).
Hypothesis I_zugverspaetung :
  forall zid v, erhaelt I (zug_aendern zid (Zug.set_verspaetung v)).
Hypothesis I_ankunft :
  forall r v, erhaelt I (ziel_aendern r (Ziel.set_verspaetung_an v)).
Hypothesis I_offen :
  forall s r z, I s -> ziel_von s r = Some z -> wahr (Ziel.abgefahren z) = false ->
                schreibbar I r.

Lemma rahmen_logge lvl msg : erhaelt I (logge lvl msg).
Proof. intros s H. apply I_protokoll. exact H. Qed.

Ltac rahmen_schritt :=
  match goal with
  | |- erhaelt _ (bind _ _) => apply erhaelt_bind; [| intro]
  | |- erhaelt _ (versuche _ _ _) => apply erhaelt_versuche
  | |- erhaelt _ (ret _) => apply erhaelt_ret
  | |- erhaelt _ (raise _) => apply erhaelt_raise
  | |- erhaelt _ (hebe _) => apply erhaelt_hebe
  | |- erhaelt _ (lies _) => apply erhaelt_lies
  | |- erhaelt _ (logge _ _) => apply rahmen_logge
  | |- erhaelt _ (ziel_objekt _) => apply lesen_ziel_objekt
  | |- erhaelt _ (zug_objekt _) => apply lesen_zug_objekt
  | |- erhaelt _ (knoten_daten _) => apply lesen_knoten_daten
  | |- erhaelt _ (ursprung_objekt _) => apply lesen_ursprung_objekt
  | |- erhaelt _ (ersatz_ankunft _) => apply lesen_ersatz_ankunft
  | |- erhaelt _ (knoten_daten_aendern _ _) => apply I_knoten
  | |- erhaelt _ (zug_aendern _ (Zug.set_verspaetung _)) => apply I_zugverspaetung
  | |- erhaelt _ (ziel_aendern _ (Ziel.set_verspaetung_an _)) => apply I_ankunft
  | H : schreibbar _ ?r |- erhaelt _ (ziel_aendern ?r abfahrt_wie_ankunft) =>
      apply (proj1 H)
  | H : schreibbar _ ?r |- erhaelt _ (ziel_aendern ?r (Ziel.set_verspaetung_ab _)) =>
      apply (proj1 (proj2 H))
  | H : schreibbar _ ?r |- erhaelt _ (ziel_aendern ?r (Ziel.set_ab _)) =>
      apply (proj2 (proj2 (proj2 H)))
  | |- erhaelt _ (match ?x with _ => _ end) => destruct x
  | |- erhaelt _ _ => assumption
  end.

Ltac rahmen_tac := cbv zeta; repeat rahmen_schritt.

Lemma rahmen_erstes_ziel_aendern zid v :
  erhaelt I (erstes_ziel_aendern zid (Ziel.set_verspaetung_an v)).
Proof. unfold erstes_ziel_aendern. rahmen_tac. Qed.

Lemma rahmen_kuppel_ankunft rek r : erhaelt I rek -> erhaelt I (kuppel_ankunft rek r).
Proof. intro Hrek. unfold kuppel_ankunft. rahmen_tac. Qed.

(** A rule keeps the property when the assignments to its own row do. *)
Lemma rahmen_anwenden rek k r :
  schreibbar I r -> erhaelt I rek -> erhaelt I (anwenden rek k r).
Proof.
  intros Hr Hrek.
  pose proof rahmen_erstes_ziel_aendern as He.
  pose proof (rahmen_kuppel_ankunft rek r Hrek) as Hk.
  destruct k; unfold anwenden, Basis_anwenden, FesteVerspaetung_anwenden,
    Einfahrtszeit_anwenden, PlanmaessigeAbfahrt_anwenden, AnkunftAbwarten_anwenden,
    AbfahrtAbwarten_anwenden, Ersatzzug_anwenden, Kupplung_anwenden, Fluegelung_anwenden;
    cbv zeta; repeat first [ apply He | apply Hk | rahmen_schritt ].
Qed.

Lemma rahmen_ankunft_schaetzen node : erhaelt I (ankunft_schaetzen node).
Proof. unfold ankunft_schaetzen. rahmen_tac. Qed.

Lemma rahmen_abfahrt_korrigieren rek node :
  erhaelt I rek -> erhaelt I (abfahrt_korrigieren rek node).
Proof.
  intros Hrek s HI. unfold abfahrt_korrigieren. rewrite bind_eq.
  unfold knoten_daten.
  destruct (node_attr ZugZielNode_eqb (zielgraph s) node) as [[data|]|]; try exact HI.
  cbv zeta. rewrite bind_eq. unfold ziel_objekt at 1.
  destruct (ziel_von s (obj data)) as [ziel|] eqn:Ez; [|exact HI].
  revert s HI Ez.
  assert (Hrest : forall a : unit,
            erhaelt I (ziel0 <- ziel_objekt (obj data) ;;
                       knoten_daten_aendern node (set_v_ab (Ziel.verspaetung_ab ziel0))))
    by (intro; rahmen_tac).
  intros s HI Ez.
  destruct (wahr (Ziel.abgefahren ziel)) eqn:Eab; cbn [negb].
  - apply (erhaelt_bind I (ret tt) _ (erhaelt_ret I tt) Hrest s HI).
  - pose proof (I_offen s (obj data) ziel HI Ez Eab) as Hr.
    assert (Hrule : erhaelt I
              match Ziel.fdl_korrektur ziel with
              | Some k => anwenden rek k (obj data)
              | None =>
                  match Ziel.auto_korrektur ziel with
                  | Some k => anwenden rek k (obj data)
                  | None => ziel_aendern (obj data) abfahrt_wie_ankunft
                  end
              end).
    { destruct (Ziel.fdl_korrektur ziel); [apply rahmen_anwenden; assumption|].
      destruct (Ziel.auto_korrektur ziel); [apply rahmen_anwenden; assumption|].
      apply (proj1 Hr). }
    apply (erhaelt_bind I _ _ Hrule Hrest s HI).
Qed.

Lemma rahmen_knoten_korrigieren rek node :
  erhaelt I rek -> erhaelt I (knoten_korrigieren rek node).
Proof.
  intro Hrek. unfold knoten_korrigieren.
  apply erhaelt_bind; [apply rahmen_ankunft_schaetzen | intros _].
  apply rahmen_abfahrt_korrigieren. exact Hrek.
Qed.

Lemma rahmen_naechster_knoten : erhaelt I naechster_knoten.
Proof.
  intros s H. unfold naechster_knoten.
  destruct (rest (zielsortierung s)); [destruct (unfeasible (zielsortierung s))|]; simpl;
    try apply I_zielsortierung; exact H.
Qed.

Lemma rahmen_korrigieren_schleife fuel : erhaelt I (korrigieren_schleife fuel).
Proof.
  induction fuel as [|fuel IH]; [apply erhaelt_raise|].
  rewrite korrigieren_schleife_eq.
  apply erhaelt_bind; [apply rahmen_naechster_knoten | intros [node|]].
  - apply erhaelt_bind; [apply rahmen_knoten_korrigieren; exact IH | intros _; exact IH].
  - apply erhaelt_ret.
Qed.

(** A property of the state that the assignments of the sweep keep is
    kept by the sweep, whether it returns or raises. *)
Lemma rahmen_verspaetungen_korrigieren : erhaelt I verspaetungen_korrigieren.
Proof.
  intros s H. unfold verspaetungen_korrigieren. apply rahmen_korrigieren_schleife. exact H.
Qed.

End SweepRahmen.

Lemma ZielRef_dec (a b : ZielRef) : a = b \/ a <> b.
Proof.
  destruct a as [z n], b as [z' n'].
  destruct (Z.eq_dec z z'), (Nat.eq_dec n n'); [left; congruence | right; congruence ..].
Qed.

Lemma zeile_erfuellt_ziel_aendern r0 (P : Ziel.t -> Prop) r f :
  (forall x, P x -> P (f x)) -> erhaelt (zeile_erfuellt r0 P) (ziel_aendern r f).
Proof.
  intros Hf s [z [Hz HP]]. unfold ziel_aendern, bind, ziel_objekt, aendere.
  destruct (ziel_von s r) as [x|] eqn:E; simpl; [|exists z; split; assumption].
  destruct (ZielRef_dec r0 r) as [Heq|Hne].
  - subst r0. rewrite E in Hz. inversion Hz. subst x.
    exists (f z). split; [apply (ziel_von_ziel_setzen_eq r _ z s E) | apply Hf; exact HP].
  - exists z. split; [|exact HP].
    rewrite ziel_von_ziel_setzen_neq by exact Hne. exact Hz.
Qed.

Lemma zeile_erfuellt_ziel_aendern_neq r0 (P : Ziel.t -> Prop) r f :
  r <> r0 -> erhaelt (zeile_erfuellt r0 P) (ziel_aendern r f).
Proof.
  intros Hne s [z [Hz HP]]. unfold ziel_aendern, bind, ziel_objekt, aendere.
  destruct (ziel_von s r) as [x|] eqn:E; simpl; [|exists z; split; assumption].
  exists z. split; [|exact HP].
  rewrite ziel_von_ziel_setzen_neq by congruence. exact Hz.
Qed.

Lemma zeile_erfuellt_zug_setzen r0 (P : Ziel.t -> Prop) zid z1 z2 s :
  zug_von s zid = Some z1 ->
  (forall j x, nth_error (Zug.fahrplan z1) j = Some x -> P x ->
               exists x', nth_error (Zug.fahrplan z2) j = Some x' /\ P x') ->
  zeile_erfuellt r0 P s -> zeile_erfuellt r0 P (zug_setzen zid z2 s).
Proof.
  intros H1 Hrows [z [Hz HP]]. unfold zeile_erfuellt, ziel_von in *.
  destruct (Z.eq_dec (fst r0) zid) as [Heq|Hne].
  - rewrite Heq in *. rewrite zug_von_zug_setzen_eq. rewrite H1 in Hz.
    apply (Hrows _ _ Hz HP).
  - rewrite zug_von_zug_setzen_neq by exact Hne. exists z. split; assumption.
Qed.

Lemma zeile_erfuellt_zug_aendern r0 (P : Ziel.t -> Prop) zid f :
  (forall z, Zug.fahrplan (f z) = Zug.fahrplan z) ->
  erhaelt (zeile_erfuellt r0 P) (zug_aendern zid f).
Proof.
  intros Hf s H. unfold zug_aendern, bind, zug_objekt, aendere.
  destruct (zug_von s zid) as [z1|] eqn:E; simpl; [|exact H].
  apply (zeile_erfuellt_zug_setzen r0 P zid z1 (f z1) s E); [|exact H].
  intros j x Hj Hx. exists x. rewrite Hf. split; assumption.
Qed.

Lemma zeile_erfuellt_knoten r0 (P : Ziel.t -> Prop) node f :
  erhaelt (zeile_erfuellt r0 P) (knoten_daten_aendern node f).
Proof.
  intros s H. unfold knoten_daten_aendern, bind, knoten_daten, aendere.
  destruct (node_attr ZugZielNode_eqb (zielgraph s) node) as [[d|]|]; exact H.
Qed.

(** X12: a row that is marked as departed keeps all its data in a sweep,
    whether the sweep returns or raises; only its arrival delay can
    change.  In particular the departure delay that the simulator
    reported for it stays. *)
Theorem verspaetungen_korrigieren_abgefahren (s : Planung) (r : ZielRef) (z : Ziel.t) :
  ziel_von s r = Some z ->
  wahr (Ziel.abgefahren z) = true ->
  exists z',
    ziel_von (snd (verspaetungen_korrigieren s)) r = Some z'
    /\ Ziel.set_verspaetung_an 0 z' = Ziel.set_verspaetung_an 0 z
    /\ Ziel.verspaetung_ab z' = Ziel.verspaetung_ab z
    /\ abfahrt_minute z' = abfahrt_minute z.
Proof.
  intros Hz Hab.
  pose (P := fun z' : Ziel.t => Ziel.set_verspaetung_an 0 z' = Ziel.set_verspaetung_an 0 z).
  assert (H : zeile_erfuellt r P (snd (verspaetungen_korrigieren s))).
  { apply (rahmen_verspaetungen_korrigieren (zeile_erfuellt r P)).
    - intros s' l H. exact H.
    - intros s' g H. exact H.
    - apply zeile_erfuellt_knoten.
    - intros zid v. apply zeile_erfuellt_zug_aendern. reflexivity.
    - intros r' v. apply zeile_erfuellt_ziel_aendern. intros x Hx. exact Hx.
    - intros s' r' x [z' [Hz' HP]] Hx Hoffen.
      assert (Hne : r' <> r).
      { intro Heq. subst r'. rewrite Hx in Hz'. inversion Hz'. subst x.
        apply (f_equal Ziel.abgefahren) in HP. simpl in HP. congruence. }
      repeat split; intros; apply zeile_erfuellt_ziel_aendern_neq; exact Hne.
    - exists z. split; [exact Hz | reflexivity]. }
  destruct H as [z' [Hz' HP]]. exists z'. split; [exact Hz'|]. split; [exact HP|].
  pose proof (f_equal Ziel.verspaetung_ab HP) as H1.
  pose proof (f_equal Ziel.ab HP) as H2. simpl in H1, H2.
  split; [exact H1|]. unfold abfahrt_minute. rewrite H1, H2. reflexivity.
Qed.

(** X13: a sweep changes nothing of a row but its forecast, whether it
    returns or raises: every row of the store is still there afterwards
    and differs at most in the two delays and the planned departure.
    The marks of arrival and departure, the rules, the planned arrival
    and the references to peer trains are never written. *)
Theorem verspaetungen_korrigieren_nur_prognose (s : Planung) (r : ZielRef) (z : Ziel.t) :
  ziel_von s r = Some z ->
  exists z',
    ziel_von (snd (verspaetungen_korrigieren s)) r = Some z'
    /\ ohne_prognose z' = ohne_prognose z.
Proof.
  intro Hz.
  pose (P := fun z' : Ziel.t => ohne_prognose z' = ohne_prognose z).
  apply (rahmen_verspaetungen_korrigieren (zeile_erfuellt r P)).
  - intros s' l H. exact H.
  - intros s' g H. exact H.
  - apply zeile_erfuellt_knoten.
  - intros zid v. apply zeile_erfuellt_zug_aendern. reflexivity.
  - intros r' v. apply zeile_erfuellt_ziel_aendern. intros x Hx. exact Hx.
  - intros s' r' x _ _ _.
    repeat split; intros; apply zeile_erfuellt_ziel_aendern; intros y Hy; exact Hy.
  - exists z. split; [exact Hz | reflexivity].
Qed.

Lemma dict_set_schluessel {K V} (eqb : K -> K -> bool) (k : K) (v x : V) (d : list (K * V)) :
  dict_get eqb k d = Some x -> map fst (dict_set eqb k v d) = map fst d.
Proof.
  induction d as [|[k' v'] d IH]; simpl; [discriminate|].
  destruct (eqb k k'); simpl; [reflexivity|].
  intro H. rewrite IH by exact H. reflexivity.
Qed.

Lemma geruest_zug_setzen zid z1 z2 s :
  zug_von s zid = Some z1 -> geruest (zug_setzen zid z2 s) = geruest s.
Proof.
  unfold zug_von, node_attr, geruest, zug_setzen, add_node. simpl.
  destruct (dict_get Z.eqb zid (nodes (zugbaum s))) as [a|] eqn:E; [|discriminate].
  intros _. rewrite (dict_set_schluessel Z.eqb zid (Some z2) a _ E). reflexivity.
Qed.

Lemma geruest_ziel_aendern G r f :
  erhaelt (fun s => geruest s = G) (ziel_aendern r f).
Proof.
  intros s H. unfold ziel_aendern, bind, ziel_objekt, aendere.
  destruct (ziel_von s r) as [x|] eqn:E; simpl; [|exact H].
  unfold ziel_setzen. unfold ziel_von in E.
  destruct (zug_von s (fst r)) as [z1|] eqn:E1; [|exact H].
  rewrite (geruest_zug_setzen _ z1 _ s E1). exact H.
Qed.

Lemma geruest_zug_aendern G zid f :
  erhaelt (fun s => geruest s = G) (zug_aendern zid f).
Proof.
  intros s H. unfold zug_aendern, bind, zug_objekt, aendere.
  destruct (zug_von s zid) as [z1|] eqn:E; simpl; [|exact H].
  rewrite (geruest_zug_setzen _ z1 _ s E). exact H.
Qed.

Lemma geruest_knoten G node f :
  erhaelt (fun s => geruest s = G) (knoten_daten_aendern node f).
Proof.
  intros s H. unfold knoten_daten_aendern, bind, knoten_daten, aendere, node_attr.
  destruct (dict_get ZugZielNode_eqb node (nodes (zielgraph s))) as [[d|]|] eqn:E;
    simpl; try exact H.
  rewrite <- H. unfold geruest, add_node. simpl.
  rewrite (dict_set_schluessel ZugZielNode_eqb node _ _ _ E). reflexivity.
Qed.

(** X14: a sweep writes attributes of trains, of rows and of nodes only:
    the nodes and edges of the train graph and of the target graph, the
    order of the trains and the clock are the same after it, whether it
    returns or raises. *)
Theorem verspaetungen_korrigieren_geruest (s : Planung) :
  geruest (snd (verspaetungen_korrigieren s)) = geruest s.
Proof.
  apply (rahmen_verspaetungen_korrigieren (fun s' => geruest s' = geruest s)).
  - intros s' l H. exact H.
  - intros s' g H. exact H.
  - apply geruest_knoten.
  - intros zid v. apply geruest_zug_aendern.
  - intros r v. apply geruest_ziel_aendern.
  - intros s' r x _ _ _. repeat split; intros; apply geruest_ziel_aendern.
  - reflexivity.
Qed.

(** ** What taking over snapshots keeps *)

Section UebernahmeRahmen.
Variable I : Planung -> Prop.

Hypothesis I_zielgraph : forall s g, I s -> I (set_zielgraph g s).
Hypothesis I_zielsortierung : forall s g, I s -> I (set_zielsortierung g s).
Hypothesis I_zugsortierung : forall s l, I s -> I (set_zugsortierung l s).
Hypothesis I_kante : forall u v k, erhaelt I (zugbaum_add_edge u v k).
Hypothesis I_ersatzzug : forall r v, erhaelt I (ziel_aendern r (Ziel.set_ersatzzug v)).
Hypothesis I_kuppelzug : forall r v, erhaelt I (ziel_aendern r (Ziel.set_kuppelzug v)).
Hypothesis I_fluegelzug : forall r v, erhaelt I (ziel_aendern r (Ziel.set_fluegelzug v)).
Hypothesis I_mindestaufenthalt :
  forall r (g : Ziel.t -> Z),
    erhaelt I (ziel_aendern r (fun z => Ziel.set_mindestaufenthalt (g z) z)).
Hypothesis I_auto_korrektur :
  forall r v, erhaelt I (ziel_aendern r (Ziel.set_auto_korrektur v)).
Hypothesis I_korrekturen_definiert :
  forall zid result,
    erhaelt I (zug_aendern zid (fun z =>
      Zug.set_korrekturen_definiert (Zug.folgezuege_aufgeloest z && result) z)).
Hypothesis I_zug_uebernehmen : forall zug, erhaelt I (zug_uebernehmen zug).
Hypothesis I_ausfahrt_markieren : forall zid, erhaelt I (ausfahrt_markieren zid).

Lemma uebernahme_zielgraph_aendern (f : Planung -> DiGraph ZugZielNode ZielDaten ZielKante) :
  erhaelt I (aendere (fun s => set_zielgraph (f s) s)).
Proof. intros s H. apply I_zielgraph. exact H. Qed.

Ltac uebernahme_schritt :=
  match goal with
  | |- erhaelt _ (bind _ _) => apply erhaelt_bind; [| intro]
  | |- erhaelt _ (versuche _ _ _) => apply erhaelt_versuche
  | |- erhaelt _ (fuer _ _) => apply erhaelt_fuer; intro
  | |- erhaelt _ (ret _) => apply erhaelt_ret
  | |- erhaelt _ (raise _) => apply erhaelt_raise
  | |- erhaelt _ (hebe _) => apply erhaelt_hebe
  | |- erhaelt _ (lies _) => apply erhaelt_lies
  | |- erhaelt _ (ziel_objekt _) => apply lesen_ziel_objekt
  | |- erhaelt _ (zug_objekt _) => apply lesen_zug_objekt
  | |- erhaelt _ (ursprung_objekt _) => apply lesen_ursprung_objekt
  | |- erhaelt _ (ziel_aendern _ (Ziel.set_ersatzzug _)) => apply I_ersatzzug
  | |- erhaelt _ (ziel_aendern _ (Ziel.set_kuppelzug _)) => apply I_kuppelzug
  | |- erhaelt _ (ziel_aendern _ (Ziel.set_fluegelzug _)) => apply I_fluegelzug
  | |- erhaelt _ (ziel_aendern _ (Ziel.set_auto_korrektur _)) => apply I_auto_korrektur
  | |- erhaelt _ (ziel_aendern _ (Ziel.set_mindestaufenthalt ?v)) =>
      apply (I_mindestaufenthalt _ (fun _ => v))
  | |- erhaelt _ (ziel_aendern _ (fun z => Ziel.set_mindestaufenthalt _ z)) =>
      apply I_mindestaufenthalt
  | |- erhaelt _ (zug_aendern _ _) => apply I_korrekturen_definiert
  | |- erhaelt _ (zugbaum_add_edge _ _ _) => apply I_kante
  | |- erhaelt _ (zielgraph_add_edge _ _ _) => apply uebernahme_zielgraph_aendern
  | |- erhaelt _ (aendere (fun s => set_zielgraph _ s)) => apply uebernahme_zielgraph_aendern
  | |- erhaelt _ (aendere (set_zugsortierung _)) =>
      apply erhaelt_aendere; intros; apply I_zugsortierung; assumption
  | |- erhaelt _ (match ?x with _ => _ end) => destruct x
  | |- erhaelt _ _ => assumption
  end.

Ltac uebernahme_tac := cbv zeta; repeat uebernahme_schritt.

Lemma uebernahme_ziel_eintragen zid2 zug zzid1 idx ziel2 :
  erhaelt I (ziel_eintragen zid2 zug zzid1 idx ziel2).
Proof.
  unfold ziel_eintragen, folgezug_kante, abwarten_kante, korrektur_ursprung.
  uebernahme_tac.
Qed.

Lemma uebernahme_fahrplan_eintragen zid2 zug fahrplan :
  forall zzid1 idx, erhaelt I (fahrplan_eintragen zid2 zug zzid1 idx fahrplan).
Proof.
  induction fahrplan as [|ziel2 r IH]; intros zzid1 idx; simpl.
  - apply erhaelt_ret.
  - apply erhaelt_bind; [apply uebernahme_ziel_eintragen | intros _; apply IH].
Qed.

Lemma uebernahme_zielgraph_erstellen : erhaelt I _zielgraph_erstellen.
Proof.
  unfold _zielgraph_erstellen.
  apply erhaelt_bind; [apply erhaelt_lies | intro knoten].
  apply erhaelt_bind.
  - apply erhaelt_fuer. intros [k [zug|]]; simpl.
    + apply uebernahme_fahrplan_eintragen.
    + apply erhaelt_ret.
  - intros _. apply erhaelt_aendere. intros s H.
    destruct (topological_sort ZugZielNode_eqb (zielgraph s)).
    apply I_zielsortierung. exact H.
Qed.

Lemma uebernahme_folgezuege_aufloesen : erhaelt I _folgezuege_aufloesen.
Proof. unfold _folgezuege_aufloesen, folgezug_aufloesen. uebernahme_tac. Qed.

Lemma uebernahme_zugbaum_analysieren : erhaelt I _zugbaum_analysieren.
Proof. unfold _zugbaum_analysieren. uebernahme_tac. Qed.

Lemma uebernahme_anschluss_setzen peer suche anschluss :
  erhaelt I (anschluss_setzen peer suche anschluss).
Proof. unfold anschluss_setzen. uebernahme_tac. Qed.

Lemma uebernahme_ziel_korrekturen_definieren r :
  erhaelt I (ziel_korrekturen_definieren r).
Proof.
  unfold ziel_korrekturen_definieren.
  pose proof uebernahme_anschluss_setzen as Ha.
  cbv zeta.
  repeat first [ apply Ha | uebernahme_schritt ].
Qed.

Lemma uebernahme_ziele_korrekturen_definieren zid n :
  forall idx result, erhaelt I (ziele_korrekturen_definieren zid idx n result).
Proof.
  induction n as [|n IH]; intros idx result; simpl.
  - apply erhaelt_ret.
  - apply erhaelt_bind; [apply uebernahme_ziel_korrekturen_definieren | intro; apply IH].
Qed.

Lemma uebernahme_korrekturen_definieren : erhaelt I korrekturen_definieren.
Proof.
  unfold korrekturen_definieren, zug_korrekturen_definieren.
  pose proof uebernahme_ziele_korrekturen_definieren as Hz.
  cbv zeta.
  repeat first [ apply Hz | uebernahme_schritt ].
Qed.

(** A property of the state that the assignments of the ingestion keep
    is kept by [zuege_uebernehmen], whether it returns or raises. *)
Lemma uebernahme_zuege_uebernehmen zuege : erhaelt I (zuege_uebernehmen zuege).
Proof.
  unfold zuege_uebernehmen.
  apply erhaelt_bind; [apply erhaelt_lies | intro bekannt].
  apply erhaelt_bind; [apply erhaelt_fuer; intro; apply I_zug_uebernehmen | intros _].
  apply erhaelt_bind; [apply erhaelt_fuer; intro; apply I_ausfahrt_markieren | intros _].
  apply erhaelt_bind; [apply uebernahme_zielgraph_erstellen | intros _].
  apply erhaelt_bind; [apply uebernahme_folgezuege_aufloesen | intros _].
  apply erhaelt_bind; [apply uebernahme_zugbaum_analysieren | intros _].
  apply uebernahme_korrekturen_definieren.
Qed.

End UebernahmeRahmen.

Lemma bleibt_refl (z : Ziel.t) : bleibt z z.
Proof. split; [reflexivity | left; reflexivity]. Qed.

Lemma bleibt_nebensache (z0 : Ziel.t) (f : Ziel.t -> Ziel.t) :
  (forall x, bestand (f x) = bestand x) ->
  (forall x, Ziel.abgefahren (f x) = Ziel.abgefahren x) ->
  forall x, bleibt z0 x -> bleibt z0 (f x).
Proof.
  intros Hb Ha x [H1 H2]. split; [rewrite Hb; exact H1 | rewrite Ha; exact H2].
Qed.

Lemma bleibt_abgefahren (z0 x : Ziel.t) :
  bleibt z0 x -> bleibt z0 (Ziel.set_abgefahren (oder_wahr (Ziel.abgefahren x)) x).
Proof.
  intros [H1 H2]. split; [exact H1|]. simpl.
  destruct H2 as [H2|[H2 H3]].
  - rewrite H2. destruct (Ziel.abgefahren z0); simpl; [right; split; reflexivity | left; reflexivity ..].
  - rewrite H3. right. split; [exact H2 | reflexivity].
Qed.

Lemma nth_error_liste_setzen {A} (i j : nat) (y : A) (l : list A) :
  nth_error (liste_setzen i y l) j =
  if (j =? i)%nat then option_map (fun _ => y) (nth_error l j) else nth_error l j.
Proof.
  revert i j. induction l as [|a l IH]; intros i j.
  - destruct i, j; simpl; try reflexivity. destruct (j =? i)%nat; reflexivity.
  - destruct i, j; simpl; try reflexivity. apply IH.
Qed.

Lemma update_fahrplan_zeile_bleibt (P : Ziel.t -> Prop) (fahrplan : list Ziel.t)
    (zeile : FahrplanZeile.t) :
  (forall g x, P x -> P (Ziel.set_gleis g x)) ->
  forall j x, nth_error fahrplan j = Some x -> P x ->
              exists x', nth_error (update_fahrplan_zeile fahrplan zeile) j = Some x' /\ P x'.
Proof.
  intros HP j x Hj Hx. unfold update_fahrplan_zeile.
  destruct (find_fahrplan_index fahrplan (FahrplanZeile.plan zeile)) as [i|];
    [|exists x; split; assumption].
  destruct (nth_error fahrplan i) as [z|] eqn:Ei; [|exists x; split; assumption].
  rewrite nth_error_liste_setzen.
  destruct (j =? i)%nat eqn:Eji.
  - apply Nat.eqb_eq in Eji. subst j. rewrite Hj. simpl.
    rewrite Ei in Hj. inversion Hj. subst z.
    eexists. split; [reflexivity | apply HP; exact Hx].
  - exists x. split; assumption.
Qed.

Lemma update_zug_details_bleibt (P : Ziel.t -> Prop) (zeilen : list FahrplanZeile.t) :
  (forall g x, P x -> P (Ziel.set_gleis g x)) ->
  forall fahrplan j x,
    nth_error fahrplan j = Some x -> P x ->
    exists x', nth_error (fold_left update_fahrplan_zeile zeilen fahrplan) j = Some x' /\ P x'.
Proof.
  intro HP. induction zeilen as [|zeile zeilen IH]; intros fahrplan j x Hj Hx; simpl.
  - exists x. split; assumption.
  - destruct (update_fahrplan_zeile_bleibt P fahrplan zeile HP j x Hj Hx) as [x1 [H1 H2]].
    apply (IH _ j x1 H1 H2).
Qed.

Lemma zeile_erfuellt_zug_uebernehmen r0 (P : Ziel.t -> Prop) zug :
  (forall g x, P x -> P (Ziel.set_gleis g x)) ->
  erhaelt (zeile_erfuellt r0 P) (zug_uebernehmen zug).
Proof.
  intros HP s H. unfold zug_uebernehmen, bind, lies, hebe, aendere.
  destruct (zug_von s (ZugDetails.zid zug)) as [z1|] eqn:E.
  - simpl. apply (zeile_erfuellt_zug_setzen r0 P _ z1 _ s E); [|exact H].
    intros j x Hj Hx. simpl. apply (update_zug_details_bleibt P _ HP _ j x Hj Hx).
  - destruct (assign_zug_details zug) as [neu|e]; simpl; [|exact H].
    destruct H as [z [Hz Hx]]. exists z. split; [|exact Hx].
    unfold ziel_von in *.
    destruct (Z.eq_dec (fst r0) (ZugDetails.zid zug)) as [Heq|Hne].
    + rewrite Heq, E in Hz. discriminate.
    + rewrite zug_von_zug_setzen_neq by exact Hne. exact Hz.
Qed.

Lemma zeile_erfuellt_ausfahrt_markieren r0 (P : Ziel.t -> Prop) zid :
  (forall x, P x -> P (Ziel.set_abgefahren (oder_wahr (Ziel.abgefahren x)) x)) ->
  erhaelt (zeile_erfuellt r0 P) (ausfahrt_markieren zid).
Proof.
  intros HP s H. unfold ausfahrt_markieren, bind, lies, aendere, ret.
  destruct (zug_von s zid) as [z1|] eqn:E; [|exact H].
  destruct (Zug.sichtbar z1); [|exact H]. simpl.
  apply (zeile_erfuellt_zug_setzen r0 P _ z1 _ s E); [|exact H].
  intros j x Hj Hx. simpl. rewrite nth_error_map, Hj. simpl.
  eexists. split; [reflexivity | apply HP; exact Hx].
Qed.

Lemma zeile_erfuellt_zugbaum_add_edge r0 (P : Ziel.t -> Prop) u v k :
  erhaelt (zeile_erfuellt r0 P) (zugbaum_add_edge u v k).
Proof.
  intros s [z [Hz Hx]]. exists z. split; [|exact Hx].
  unfold ziel_von in *.
  destruct (zug_von s (fst r0)) as [z1|] eqn:E; [|discriminate].
  unfold zugbaum_add_edge, aendere. simpl snd.
  rewrite (zug_von_add_edge s u v k (fst r0) z1 E). exact Hz.
Qed.

(** X15: taking over snapshots keeps the rows of the trains that are
    known: a row of the store is still at its place afterwards, whether
    [zuege_uebernehmen] returns or raises, with the same train, number,
    planned track and times, flags, delays, dispatcher correction and
    arrival mark.  Its mark of the departure is the same or newly set;
    only the track, the references to peer trains, the minimum dwell
    time and the automatic rule are written. *)
Theorem zuege_uebernehmen_zeile_bleibt (s : Planung) (zuege : list ZugDetails.t)
    (r : ZielRef) (z : Ziel.t) :
  ziel_von s r = Some z ->
  exists z',
    ziel_von (snd (zuege_uebernehmen zuege s)) r = Some z' /\ bleibt z z'.
Proof.
  intro Hz.
  apply (uebernahme_zuege_uebernehmen (zeile_erfuellt r (bleibt z))).
  - intros s' g H. exact H.
  - intros s' g H. exact H.
  - intros s' l H. exact H.
  - apply zeile_erfuellt_zugbaum_add_edge.
  - intros r' v. apply zeile_erfuellt_ziel_aendern.
    apply bleibt_nebensache; intro; reflexivity.
  - intros r' v. apply zeile_erfuellt_ziel_aendern.
    apply bleibt_nebensache; intro; reflexivity.
  - intros r' v. apply zeile_erfuellt_ziel_aendern.
    apply bleibt_nebensache; intro; reflexivity.
  - intros r' g. apply zeile_erfuellt_ziel_aendern.
    apply (bleibt_nebensache z (fun x => Ziel.set_mindestaufenthalt (g x) x));
      intro; reflexivity.
  - intros r' v. apply zeile_erfuellt_ziel_aendern.
    apply bleibt_nebensache; intro; reflexivity.
  - intros zid result. apply zeile_erfuellt_zug_aendern. reflexivity.
  - intro zug. apply zeile_erfuellt_zug_uebernehmen.
    intro g. apply (bleibt_nebensache z (Ziel.set_gleis g)); intro; reflexivity.
  - intro zid. apply zeile_erfuellt_ausfahrt_markieren. apply bleibt_abgefahren.
  - exists z. split; [exact Hz | apply bleibt_refl].
Qed.

Lemma forallb_dict_set {K V} (eqb : K -> K -> bool) (q : V -> bool) (k : K) (v : V)
    (d : list (K * V)) :
  q v = true ->
  forallb (fun n => q (snd n)) d = true ->
  forallb (fun n => q (snd n)) (dict_set eqb k v d) = true.
Proof.
  intro Hv. induction d as [|[k' v'] d IH]; simpl.
  - intros _. rewrite Hv. reflexivity.
  - intro H. apply andb_true_iff in H. destruct H as [H1 H2].
    destruct (eqb k k'); simpl.
    + rewrite Hv, H2. reflexivity.
    + rewrite H1, (IH H2). reflexivity.
Qed.

Lemma forallb_dict_setdefault {K V} (eqb : K -> K -> bool) (q : V -> bool) (k : K) (v : V)
    (d : list (K * V)) :
  q v = true ->
  forallb (fun n => q (snd n)) d = true ->
  forallb (fun n => q (snd n)) (dict_setdefault eqb k v d) = true.
Proof.
  intros Hv H. unfold dict_setdefault. destruct (dict_get eqb k d); [exact H|].
  rewrite forallb_app, H. simpl. rewrite Hv. reflexivity.
Qed.

Lemma forallb_dict_get {K V} (eqb : K -> K -> bool) (q : V -> bool) (k : K) (v : V)
    (d : list (K * V)) :
  forallb (fun n => q (snd n)) d = true -> dict_get eqb k d = Some v -> q v = true.
Proof.
  induction d as [|[k' v'] d IH]; simpl; [discriminate|].
  intro H. apply andb_true_iff in H. destruct H as [H1 H2].
  destruct (eqb k k'); [intro E; inversion E; subst; exact H1 | apply IH; exact H2].
Qed.

Lemma korrekturen_offen_zug_von (s : Planung) (zid : Z) (z : Zug.t) :
  korrekturen_offen s = true -> zug_von s zid = Some z ->
  Zug.folgezuege_aufgeloest z = false /\ Zug.korrekturen_definiert z = false.
Proof.
  unfold korrekturen_offen, zug_von, node_attr. intros H E.
  destruct (dict_get Z.eqb zid (nodes (zugbaum s))) as [[z'|]|] eqn:Ed; try discriminate.
  inversion E. subst z'.
  pose proof (forallb_dict_get Z.eqb
                (fun a : option Zug.t =>
                   match a with
                   | Some z => negb (Zug.folgezuege_aufgeloest z)
                               && negb (Zug.korrekturen_definiert z)
                   | None => true
                   end) zid (Some z) _ H Ed) as Hq.
  simpl in Hq. apply andb_true_iff in Hq. destruct Hq as [H1 H2].
  apply negb_true_iff in H1, H2. split; assumption.
Qed.

Lemma korrekturen_offen_zug_setzen (s : Planung) (zid : Z) (z : Zug.t) :
  Zug.folgezuege_aufgeloest z = false -> Zug.korrekturen_definiert z = false ->
  korrekturen_offen s = true -> korrekturen_offen (zug_setzen zid z s) = true.
Proof.
  intros H1 H2 H. unfold korrekturen_offen, zug_setzen, add_node. simpl.
  apply (forallb_dict_set Z.eqb
           (fun a : option Zug.t =>
              match a with
              | Some z => negb (Zug.folgezuege_aufgeloest z)
                          && negb (Zug.korrekturen_definiert z)
              | None => true
              end)); [|exact H].
  rewrite H1, H2. reflexivity.
Qed.

Lemma korrekturen_offen_ziel_aendern r f :
  erhaelt (fun s => korrekturen_offen s = true) (ziel_aendern r f).
Proof.
  intros s H. unfold ziel_aendern, bind, ziel_objekt, aendere.
  destruct (ziel_von s r) as [x|] eqn:E; simpl; [|exact H].
  unfold ziel_setzen.
  destruct (zug_von s (fst r)) as [z1|] eqn:E1; [|exact H].
  destruct (korrekturen_offen_zug_von s _ z1 H E1) as [H1 H2].
  apply korrekturen_offen_zug_setzen; assumption.
Qed.

Lemma assign_zug_details_offen (zug : ZugDetails.t) (neu : Zug.t) :
  assign_zug_details zug = Ok neu ->
  Zug.folgezuege_aufgeloest neu = false /\ Zug.korrekturen_definiert neu = false.
Proof.
  unfold assign_zug_details. cbv zeta.
  match goal with |- match ?x with _ => _ end = _ -> _ => destruct x end;
    [|discriminate].
  intro H. inversion H. split; reflexivity.
Qed.

(** X16: no method of the module sets [folgezuege_aufgeloest], so that
    [korrekturen_definiert] never becomes true: when no train of the
    store has one of the two flags set, as in the initial state, none
    has after [zuege_uebernehmen], whether it returns or raises.  The
    automatic rules of every train are therefore defined anew each time
    snapshots are taken over. *)
Theorem zuege_uebernehmen_korrekturen_offen (s : Planung) (zuege : list ZugDetails.t) :
  korrekturen_offen s = true ->
  korrekturen_offen (snd (zuege_uebernehmen zuege s)) = true.
Proof.
  apply (uebernahme_zuege_uebernehmen (fun s => korrekturen_offen s = true)).
  - intros s' g H. exact H.
  - intros s' g H. exact H.
  - intros s' l H. exact H.
  - intros u v k s' H. unfold zugbaum_add_edge, aendere, korrekturen_offen, add_edge. simpl.
    apply (forallb_dict_setdefault Z.eqb
             (fun a : option Zug.t =>
                match a with
                | Some z => negb (Zug.folgezuege_aufgeloest z)
                            && negb (Zug.korrekturen_definiert z)
                | None => true
                end)); [reflexivity|].
    apply (forallb_dict_setdefault Z.eqb
             (fun a : option Zug.t =>
                match a with
                | Some z => negb (Zug.folgezuege_aufgeloest z)
                            && negb (Zug.korrekturen_definiert z)
                | None => true
                end)); [reflexivity | exact H].
  - intros r v. apply korrekturen_offen_ziel_aendern.
  - intros r v. apply korrekturen_offen_ziel_aendern.
  - intros r v. apply korrekturen_offen_ziel_aendern.
  - intros r g. apply korrekturen_offen_ziel_aendern.
  - intros r v. apply korrekturen_offen_ziel_aendern.
  - intros zid result s' H. unfold zug_aendern, bind, zug_objekt, aendere.
    destruct (zug_von s' zid) as [z1|] eqn:E; simpl; [|exact H].
    destruct (korrekturen_offen_zug_von s' _ z1 H E) as [H1 H2].
    apply korrekturen_offen_zug_setzen; simpl; [exact H1 | rewrite H1; reflexivity | exact H].
  - intros zug s' H. unfold zug_uebernehmen, bind, lies, hebe, aendere.
    destruct (zug_von s' (ZugDetails.zid zug)) as [z1|] eqn:E.
    + simpl. destruct (korrekturen_offen_zug_von s' _ z1 H E) as [H1 H2].
      apply korrekturen_offen_zug_setzen; assumption.
    + destruct (assign_zug_details zug) as [neu|e] eqn:Ea; simpl; [|exact H].
      destruct (assign_zug_details_offen zug neu Ea) as [H1 H2].
      apply korrekturen_offen_zug_setzen; assumption.
  - intros zid s' H. unfold ausfahrt_markieren, bind, lies, aendere, ret.
    destruct (zug_von s' zid) as [z1|] eqn:E; [|exact H].
    destruct (Zug.sichtbar z1); [|exact H]. simpl.
    destruct (korrekturen_offen_zug_von s' _ z1 H E) as [H1 H2].
    apply korrekturen_offen_zug_setzen; assumption.
Qed.

(** ** The numbers of the rows *)

Lemma zielnr_setzen_nth (l : list Ziel.t) :
  forall n i z,
    nth_error (zielnr_setzen n l) i = Some z ->
    Ziel.zielnr z = (n + Z.of_nat i) * 1000
    /\ exists z0, nth_error l i = Some z0 /\ Ziel.zid z = Ziel.zid z0.
Proof.
  induction l as [|a l IH]; intros n i z; simpl.
  - destruct i; discriminate.
  - destruct i as [|i]; simpl.
    + intro H. inversion H. subst z. simpl. split; [f_equal; lia|].
      exists a. split; reflexivity.
    + intro H. destruct (IH (n + 1) i z H) as [H1 H2].
      split; [rewrite H1; f_equal; lia | exact H2].
Qed.

Lemma startaufstellung_nth (zug : ZugDetails.t) (fahrplan fahrplan' : list Ziel.t) :
  startaufstellung zug fahrplan = Ok fahrplan' ->
  forall i z', nth_error fahrplan' i = Some z' ->
               exists z, nth_error fahrplan i = Some z
                         /\ Ziel.zielnr z' = Ziel.zielnr z /\ Ziel.zid z' = Ziel.zid z.
Proof.
  unfold startaufstellung. cbv zeta.
  set (k := py_slice_laenge _ _). set (f := fun z : Ziel.t => _).
  assert (H1 : forall i z', nth_error (ersten_aendern k f fahrplan) i = Some z' ->
                            exists z, nth_error fahrplan i = Some z
                                      /\ Ziel.zielnr z' = Ziel.zielnr z
                                      /\ Ziel.zid z' = Ziel.zid z).
  { intros i z'. rewrite nth_error_ersten_aendern.
    destruct (i <? k)%nat.
    - destruct (nth_error fahrplan i) as [z|]; [|discriminate].
      simpl. intro H. inversion H. subst z'. exists z. repeat split; reflexivity.
    - intro H. exists z'. repeat split; [exact H | reflexivity ..]. }
  destruct (ZugDetails.amgleis zug).
  - destruct (py_position _ _) as [p|]; [|discriminate].
    destruct (nth_error (ersten_aendern k f fahrplan) p) as [zp|] eqn:Ep; [|discriminate].
    intro H. inversion H. subst fahrplan'. intros i z'.
    rewrite nth_error_liste_setzen.
    destruct (i =? p)%nat eqn:Eip.
    + apply Nat.eqb_eq in Eip. subst i. rewrite Ep. simpl.
      intro H'. inversion H'. subst z'.
      destruct (H1 p zp Ep) as [z [Hz [Hn Hi]]].
      exists z. repeat split; [exact Hz | exact Hn | exact Hi].
    + apply H1.
  - intro H. inversion H. subst fahrplan'. exact H1.
Qed.

Lemma find_fahrplan_zielnr_nummeriert (l : list Ziel.t) :
  forall n,
    (forall i z, nth_error l i = Some z -> Ziel.zielnr z = (n + Z.of_nat i) * 1000) ->
    (forall i, (i < List.length l)%nat ->
               find_fahrplan_zielnr l ((n + Z.of_nat i) * 1000) = Ok i)
    /\ (forall k, (forall i, (i < List.length l)%nat -> k <> (n + Z.of_nat i) * 1000) ->
                  find_fahrplan_zielnr l k = Raise ValueError).
Proof.
  induction l as [|a l IH]; intros n Hnum.
  - split; [intros i Hi; simpl in Hi; lia | reflexivity].
  - assert (Ha : Ziel.zielnr a = n * 1000).
    { rewrite (Hnum O a eq_refl). f_equal. lia. }
    assert (Hl : forall i z, nth_error l i = Some z ->
                             Ziel.zielnr z = (n + 1 + Z.of_nat i) * 1000).
    { intros i z Hz. rewrite (Hnum (S i) z Hz). f_equal. lia. }
    destruct (IH (n + 1) Hl) as [IH1 IH2]. split.
    + intros i Hi. simpl. rewrite Ha. destruct i as [|i].
      * replace ((n + Z.of_nat 0) * 1000) with (n * 1000) by lia.
        rewrite Z.eqb_refl. reflexivity.
      * destruct (n * 1000 =? (n + Z.of_nat (S i)) * 1000) eqn:E;
          [apply Z.eqb_eq in E; lia|].
        replace ((n + Z.of_nat (S i)) * 1000) with ((n + 1 + Z.of_nat i) * 1000) by lia.
        rewrite IH1 by (simpl in Hi; lia). reflexivity.
    + intros k Hk. simpl. rewrite Ha.
      destruct (n * 1000 =? k) eqn:E.
      * apply Z.eqb_eq in E. exfalso. apply (Hk O); [simpl; lia|]. rewrite <- E. f_equal. lia.
      * rewrite IH2; [reflexivity|].
        intros i Hi. intro Heq. apply (Hk (S i)); [simpl; lia|]. rewrite Heq. f_equal. lia.
Qed.

(** X17: the rows of a train made by [assign_zug_details] belong to the
    train and are numbered by their position: the row at position [i]
    has the number [1000 * i], and [find_fahrplan_zielnr] finds the row
    by its number at its position.  A number that is not the thousandfold
    of a position raises [ValueError]. *)
Theorem assign_zug_details_zielnr (zug : ZugDetails.t) (zp : Zug.t) :
  assign_zug_details zug = Ok zp ->
  (forall i z, nth_error (Zug.fahrplan zp) i = Some z ->
               Ziel.zid z = ZugDetails.zid zug
               /\ Ziel.zielnr z = Z.of_nat i * 1000
               /\ find_fahrplan_zielnr (Zug.fahrplan zp) (Ziel.zielnr z) = Ok i)
  /\ (forall k, (forall i, (i < List.length (Zug.fahrplan zp))%nat -> k <> Z.of_nat i * 1000) ->
                find_fahrplan_zielnr (Zug.fahrplan zp) k = Raise ValueError).
Proof.
  unfold assign_zug_details. cbv zeta.
  set (zid := ZugDetails.zid zug).
  set (einfahrt := if (_ && _ && _)%bool then _ else []).
  set (ausfahrt := if (_ && _)%bool then _ else []).
  set (roh := einfahrt ++ map (assign_fahrplan_zeile zid) (ZugDetails.fahrplan zug) ++ ausfahrt).
  assert (Hzid : forall i z0, nth_error roh i = Some z0 -> Ziel.zid z0 = zid).
  { intros i z0 H. apply nth_error_In in H. unfold roh in H.
    apply in_app_or in H. destruct H as [H|H].
    - unfold einfahrt in H.
      match type of H with In _ (if ?c then _ else _) => destruct c end; simpl in H;
        [destruct H as [H|[]]; subst z0; reflexivity | contradiction].
    - apply in_app_or in H. destruct H as [H|H].
      + apply in_map_iff in H. destruct H as [x [Hx _]]. subst z0. reflexivity.
      + unfold ausfahrt in H.
        match type of H with In _ (if ?c then _ else _) => destruct c end; simpl in H;
          [destruct H as [H|[]]; subst z0; reflexivity | contradiction]. }
  assert (Hnum : forall fahrplan,
            (forall i z', nth_error fahrplan i = Some z' ->
                          exists z, nth_error (zielnr_setzen 0 roh) i = Some z
                                    /\ Ziel.zielnr z' = Ziel.zielnr z
                                    /\ Ziel.zid z' = Ziel.zid z) ->
            forall i z, nth_error fahrplan i = Some z ->
                        Ziel.zid z = zid /\ Ziel.zielnr z = (0 + Z.of_nat i) * 1000).
  { intros fahrplan Hf i z Hz.
    destruct (Hf i z Hz) as [z1 [Hz1 [Hn Hi]]].
    destruct (zielnr_setzen_nth roh 0 i z1 Hz1) as [Hn1 [z0 [Hz0 Hi0]]].
    split; [rewrite Hi, Hi0; apply (Hzid i z0 Hz0) | rewrite Hn; exact Hn1]. }
  assert (Hende : forall fahrplan,
            (forall i z, nth_error fahrplan i = Some z ->
                         Ziel.zid z = zid /\ Ziel.zielnr z = (0 + Z.of_nat i) * 1000) ->
            (forall i z, nth_error fahrplan i = Some z ->
                         Ziel.zid z = zid
                         /\ Ziel.zielnr z = Z.of_nat i * 1000
                         /\ find_fahrplan_zielnr fahrplan (Ziel.zielnr z) = Ok i)
            /\ (forall k, (forall i, (i < List.length fahrplan)%nat -> k <> Z.of_nat i * 1000) ->
                          find_fahrplan_zielnr fahrplan k = Raise ValueError)).
  { intros fahrplan Hf.
    destruct (find_fahrplan_zielnr_nummeriert fahrplan 0 (fun i z H => proj2 (Hf i z H)))
      as [F1 F2].
    split.
    - intros i z Hz. destruct (Hf i z Hz) as [H1 H2].
      split; [exact H1|]. split; [rewrite H2; f_equal; lia|].
      rewrite H2. apply F1. apply nth_error_Some. rewrite Hz. discriminate.
    - intros k Hk. apply F2. intros i Hi. rewrite Z.add_0_l. apply Hk. exact Hi. }
  destruct (ZugDetails.sichtbar zug).
  - destruct (startaufstellung zug (zielnr_setzen 0 roh)) as [fahrplan'|e] eqn:Es;
      [|discriminate].
    intro H. inversion H. subst zp. simpl. apply Hende. apply Hnum.
    apply (startaufstellung_nth zug _ _ Es).
  - intro H. inversion H. subst zp. simpl. apply Hende. apply Hnum.
    intros i z' Hz'. exists z'. repeat split; [exact Hz' | reflexivity ..].
Qed.

(** ** Handing over to another train *)

Lemma ziel_von_zug_setzen_fahrplan (s : Planung) (zid : Z) (z z' : Zug.t) (r : ZielRef) :
  zug_von s zid = Some z -> Zug.fahrplan z' = Zug.fahrplan z ->
  ziel_von (zug_setzen zid z' s) r = ziel_von s r.
Proof.
  intros Hz Hf. unfold ziel_von.
  destruct (Z.eq_dec (fst r) zid) as [Heq|Hne].
  - rewrite Heq, zug_von_zug_setzen_eq, Hz, Hf. reflexivity.
  - rewrite zug_von_zug_setzen_neq by exact Hne. reflexivity.
Qed.

Lemma liste_setzen_length {A} (n : nat) (x : A) (l : list A) :
  List.length (liste_setzen n x l) = List.length l.
Proof.
  revert n. induction l as [|a l IH]; intro n; destruct n; simpl; try reflexivity.
  rewrite IH. reflexivity.
Qed.

Lemma zug_von_ziel_setzen (s : Planung) (r : ZielRef) (x : Ziel.t) (zid : Z) (z : Zug.t) :
  zug_von s zid = Some z ->
  exists z', zug_von (ziel_setzen r x s) zid = Some z'
             /\ List.length (Zug.fahrplan z') = List.length (Zug.fahrplan z).
Proof.
  intro Hz. unfold ziel_setzen.
  destruct (zug_von s (fst r)) as [z1|] eqn:E; [|exists z; split; [exact Hz | reflexivity]].
  destruct (Z.eq_dec zid (fst r)) as [Heq|Hne].
  - subst zid. rewrite E in Hz. inversion Hz. subst z1.
    rewrite zug_von_zug_setzen_eq. eexists. split; [reflexivity|].
    simpl. apply liste_setzen_length.
  - rewrite zug_von_zug_setzen_neq by exact Hne. exists z. split; [exact Hz | reflexivity].
Qed.

(** X18: [Ersatzzug.anwenden] for a row with a planned arrival whose
    replacement train has a first row with a planned arrival [e_a].
    The train leaves the row no earlier than [e_a] and after the minimum
    dwell time; the departure of the row is planned at [e_a], its
    departure delay is [max(0, a + dwell_min - e_a)] for the arrival
    [a], the replacement train gets this delay, and the sweep goes on
    from there. *)
Theorem Ersatzzug_anwenden_formel (rek : M unit) (s : Planung) (r : ZielRef)
    (ziel : Ziel.t) (p_a : Z) (ezid : Z) (ersatzzug : Zug.t) (e0 : Ziel.t)
    (rest : list Ziel.t) (e_a : Z) :
  ziel_von s r = Some ziel ->
  Ziel.an ziel = Some p_a ->
  Ziel.ersatzzug ziel = Some ezid ->
  zug_von s ezid = Some ersatzzug ->
  Zug.fahrplan ersatzzug = e0 :: rest ->
  Ziel.an e0 = Some e_a ->
  let a := p_a + Ziel.verspaetung_an ziel in
  let v := Z.max 0 (a + Ziel.mindestaufenthalt ziel - e_a) in
  exists s1,
    Ersatzzug_anwenden rek r s = rek s1
    /\ ziel_von s1 r = Some (Ziel.set_ab (Some e_a) (Ziel.set_verspaetung_ab v ziel))
    /\ (exists z', zug_von s1 ezid = Some z' /\ Zug.verspaetung z' = v)
    /\ e_a <= e_a + v
    /\ a + Ziel.mindestaufenthalt ziel <= e_a + v.
Proof.
  intros Hz Han Hers Hzug Hfp Hea a v.
  unfold Ersatzzug_anwenden.
  rewrite bind_eq, (ziel_objekt_ok r ziel s Hz), Han. cbn [time_to_minutes]. cbv zeta.
  assert (Hplan : versuche (ersatz_ankunft ziel) [AttributeError; IndexError]
                    (ret (match time_to_minutes (Ziel.ab ziel) with
                          | Ok t => t
                          | Raise _ => p_a + Ziel.mindestaufenthalt ziel
                          end)) s = (Ok e_a, s)).
  { unfold versuche, ersatz_ankunft. rewrite Hers, bind_eq.
    unfold zug_objekt. rewrite Hzug, Hfp. unfold hebe. rewrite Hea. reflexivity. }
  rewrite bind_eq, Hplan. fold a.
  assert (Hv : a + Z.max (e_a - a) (Ziel.mindestaufenthalt ziel) - e_a = v)
    by (subst v; lia).
  rewrite Hv.
  replace (a + Z.max (e_a - a) (Ziel.mindestaufenthalt ziel) - v) with e_a by lia.
  unfold minutes_to_time.
  rewrite bind_eq, (ziel_aendern_ok r _ ziel s Hz).
  pose proof (ziel_von_ziel_setzen_eq r (Ziel.set_verspaetung_ab v ziel) ziel s Hz) as Hz1.
  rewrite bind_eq, (ziel_aendern_ok r _ _ _ Hz1).
  set (s1 := ziel_setzen r (Ziel.set_verspaetung_ab v ziel) s) in *.
  pose proof (ziel_von_ziel_setzen_eq r
                (Ziel.set_ab (Some e_a) (Ziel.set_verspaetung_ab v ziel)) _ s1 Hz1) as Hz2.
  set (s2 := ziel_setzen r _ s1) in *.
  destruct (zug_von_ziel_setzen s r (Ziel.set_verspaetung_ab v ziel) ezid ersatzzug Hzug)
    as [z1 [Hzug1 _]].
  fold s1 in Hzug1.
  destruct (zug_von_ziel_setzen s1 r
              (Ziel.set_ab (Some e_a) (Ziel.set_verspaetung_ab v ziel)) ezid z1 Hzug1)
    as [z2 [Hzug2 _]].
  fold s2 in Hzug2.
  rewrite Hers, bind_eq.
  unfold zug_aendern. rewrite bind_eq. unfold zug_objekt. rewrite Hzug2.
  unfold aendere.
  exists (zug_setzen ezid (Zug.set_verspaetung v z2) s2).
  split; [reflexivity|]. split.
  - rewrite (ziel_von_zug_setzen_fahrplan s2 ezid z2 (Zug.set_verspaetung v z2) r Hzug2
               eq_refl).
    exact Hz2.
  - split; [|subst v; lia].
    eexists. split; [apply zug_von_zug_setzen_eq | reflexivity].
Qed.

(** X19: [Fluegelung.anwenden] for a row with a planned arrival whose
    train splits off a train with at least one row.  The departure
    delay of the row is [max(0, a + dwell_min - p_d)] as for a planned
    stop; the train split off and its first row get the arrival delay
    of the row, and the sweep goes on from there. *)
Theorem Fluegelung_anwenden_formel (rek : M unit) (s : Planung) (r : ZielRef)
    (ziel : Ziel.t) (p_a : Z) (fzid : Z) (fluegelzug : Zug.t) :
  ziel_von s r = Some ziel ->
  Ziel.an ziel = Some p_a ->
  Ziel.fluegelzug ziel = Some fzid ->
  zug_von s fzid = Some fluegelzug ->
  Zug.fahrplan fluegelzug <> [] ->
  let p_d := match Ziel.ab ziel with
             | Some t => t
             | None => p_a + Ziel.mindestaufenthalt ziel
             end in
  let v := Z.max 0 (p_a + Ziel.verspaetung_an ziel + Ziel.mindestaufenthalt ziel - p_d) in
  exists s1,
    Fluegelung_anwenden rek r s = rek s1
    /\ ziel_von s1 r = Some (Ziel.set_verspaetung_ab v ziel)
    /\ (exists z', zug_von s1 fzid = Some z'
                   /\ Zug.verspaetung z' = Ziel.verspaetung_an ziel)
    /\ (exists f0, ziel_von s1 (fzid, O) = Some f0
                   /\ Ziel.verspaetung_an f0 = Ziel.verspaetung_an ziel).
Proof.
  intros Hz Han Hfl Hzug Hfp p_d v.
  unfold Fluegelung_anwenden.
  rewrite bind_eq, (ziel_objekt_ok r ziel s Hz), Han. cbn [time_to_minutes]. cbv zeta.
  assert (Hp : (match time_to_minutes (Ziel.ab ziel) with
                | Ok t => t
                | Raise _ => p_a + Ziel.mindestaufenthalt ziel
                end) = p_d)
    by (subst p_d; destruct (Ziel.ab ziel); reflexivity).
  rewrite Hp.
  assert (Hv : p_a + Ziel.verspaetung_an ziel
               + Z.max (p_d - (p_a + Ziel.verspaetung_an ziel)) (Ziel.mindestaufenthalt ziel)
               - p_d = v) by (subst v; lia).
  rewrite Hv.
  rewrite bind_eq, (ziel_aendern_ok r _ ziel s Hz).
  pose proof (ziel_von_ziel_setzen_eq r (Ziel.set_verspaetung_ab v ziel) ziel s Hz) as Hz1.
  destruct (zug_von_ziel_setzen s r (Ziel.set_verspaetung_ab v ziel) fzid fluegelzug Hzug)
    as [z1 [Hzug1 Hlen]].
  set (s1 := ziel_setzen r (Ziel.set_verspaetung_ab v ziel) s) in *.
  rewrite Hfl, bind_eq.
  unfold zug_aendern. rewrite bind_eq. unfold zug_objekt at 1. rewrite Hzug1.
  unfold aendere.
  set (s2 := zug_setzen fzid (Zug.set_verspaetung (Ziel.verspaetung_an ziel) z1) s1).
  assert (Hzug2 : zug_von s2 fzid = Some (Zug.set_verspaetung (Ziel.verspaetung_an ziel) z1))
    by apply zug_von_zug_setzen_eq.
  assert (Hz2 : ziel_von s2 r = Some (Ziel.set_verspaetung_ab v ziel)).
  { unfold s2.
    rewrite (ziel_von_zug_setzen_fahrplan s1 fzid z1
               (Zug.set_verspaetung (Ziel.verspaetung_an ziel) z1) r Hzug1 eq_refl).
    exact Hz1. }
  rewrite bind_eq. unfold erstes_ziel_aendern. rewrite bind_eq.
  unfold zug_objekt. rewrite Hzug2.
  change (Zug.fahrplan (Zug.set_verspaetung (Ziel.verspaetung_an ziel) z1))
    with (Zug.fahrplan z1).
  destruct (Zug.fahrplan z1) as [|x rest] eqn:Efp.
  { exfalso. apply Hfp. destruct (Zug.fahrplan fluegelzug); [reflexivity | discriminate]. }
  assert (Hx : ziel_von s2 (fzid, O) = Some x).
  { unfold ziel_von. simpl fst. rewrite Hzug2. simpl. rewrite Efp. reflexivity. }
  cbv beta iota. rewrite (ziel_aendern_ok (fzid, O) _ x s2 Hx).
  set (s3 := ziel_setzen (fzid, O) (Ziel.set_verspaetung_an (Ziel.verspaetung_an ziel) x) s2).
  exists s3. split; [reflexivity|].
  assert (Hx3 : ziel_von s3 (fzid, O)
                = Some (Ziel.set_verspaetung_an (Ziel.verspaetung_an ziel) x))
    by apply (ziel_von_ziel_setzen_eq (fzid, O) _ x s2 Hx).
  split; [|split].
  - destruct (ZielRef_dec r (fzid, O)) as [Heq|Hne].
    + rewrite Heq in *. rewrite Hx3. rewrite Hx in Hz2. inversion Hz2.
      destruct ziel. reflexivity.
    + unfold s3. rewrite ziel_von_ziel_setzen_neq by exact Hne. exact Hz2.
  - unfold s3, ziel_setzen. simpl fst. rewrite Hzug2.
    rewrite zug_von_zug_setzen_eq. eexists. split; reflexivity.
  - eexists. split; [exact Hx3 | reflexivity].
Qed.

(** ** The further properties at concrete inputs *)

(** X1 for train 7: a stop signal at "B" replaces the fixed delay there,
    keeps the correction at "A" and deletes the one at "C". *)
Lemma fdl_korrektur_setzen_folgende_beispiel :
  exists s',
    fdl_korrektur_setzen (Some (Signalhalt 4)) (7, 1%nat) (nur_zug zug_7 0) = (Ok tt, s')
    /\ option_map Ziel.fdl_korrektur (ziel_von s' (7, O)) = Some (Some (FesteVerspaetung 1))
    /\ option_map Ziel.fdl_korrektur (ziel_von s' (7, 1%nat)) = Some (Some (Signalhalt 4))
    /\ option_map Ziel.fdl_korrektur (ziel_von s' (7, 2%nat)) = Some None.
Proof.
  destruct (fdl_korrektur_setzen_folgende (nur_zug zug_7 0) (7, 1%nat)
              (halt_mit 7 1000 "B" (Some 610) (Some 612) 0 (Some (FesteVerspaetung 2)))
              zug_7 (Signalhalt 4) eq_refl eq_refl eq_refl)
    as [s' [i [H1 [H2 [_ H4]]]]].
  exists s'. split; [exact H1|].
  assert (Hi : i = 1%nat) by (vm_compute in H2; congruence).
  cbn [fst snd] in H4.
  rewrite (H4 O _ eq_refl), (H4 1%nat _ eq_refl), (H4 2%nat _ eq_refl), Hi.
  repeat split.
Defined.

(** X2 for train 7: deleting the correction at "B" leaves the one at
    "C". *)
Lemma fdl_korrektur_setzen_loeschen_beispiel :
  exists s',
    fdl_korrektur_setzen None (7, 1%nat) (nur_zug zug_7 0) = (Ok tt, s')
    /\ option_map Ziel.fdl_korrektur (ziel_von s' (7, 1%nat)) = Some None
    /\ option_map Ziel.fdl_korrektur (ziel_von s' (7, 2%nat)) = Some (Some (FesteVerspaetung 3)).
Proof.
  destruct (fdl_korrektur_setzen_loeschen (nur_zug zug_7 0) (7, 1%nat)
              (halt_mit 7 1000 "B" (Some 610) (Some 612) 0 (Some (FesteVerspaetung 2)))
              zug_7 eq_refl eq_refl)
    as [s' [H1 [H2 H3]]].
  exists s'. split; [exact H1|].
  rewrite H2, (H3 (7, 2%nat)) by discriminate. split; reflexivity.
Defined.

(** X3 for train 8 and the rule of a coupling: the departure delay
    becomes the arrival delay 4. *)
Lemma anwenden_ohne_ankunft_beispiel :
  option_map Ziel.verspaetung_ab
    (ziel_von (snd (anwenden (ret tt) Kupplung (8, O) (nur_zug zug_8 0))) (8, O)) = Some 4.
Proof.
  destruct (anwenden_ohne_ankunft (ret tt) Kupplung (nur_zug zug_8 0) (8, O)
              (halt_mit 8 0 "B" None (Some 620) 4 None) eq_refl eq_refl eq_refl)
    as [lvl [msg [_ H2]]].
  rewrite H2. reflexivity.
Defined.

(** X4 for train 9: the arrival at 10:09 and the minimum dwell of 1
    minute give the departure delay 8. *)
Lemma PlanmaessigeAbfahrt_mindestaufenthalt_beispiel :
  exists s' ziel',
    PlanmaessigeAbfahrt_anwenden (9, O) (nur_zug zug_9 0) = (Ok tt, s')
    /\ ziel_von s' (9, O) = Some ziel'
    /\ Ziel.verspaetung_ab ziel' = 8.
Proof.
  destruct (PlanmaessigeAbfahrt_mindestaufenthalt (nur_zug zug_9 0) (9, O)
              (halt_mit 9 0 "A" (Some 600) (Some 602) 9 None) 600 eq_refl eq_refl)
    as [s' [ziel' [H1 [H2 [H3 _]]]]].
  exists s', ziel'. split; [exact H1|]. split; [exact H2 | rewrite H3; reflexivity].
Defined.

(** X5 in the scenario S3: the departure delay is
    [max(619 + 2, 623 + 3) - 620 = 6]. *)
Lemma AnkunftAbwarten_formel_S3 :
  exists s',
    AnkunftAbwarten_anwenden (Some (2, O)) 3 (1, O) planung_abwarten = (Ok tt, s')
    /\ option_map Ziel.verspaetung_ab (ziel_von s' (1, O)) = Some 6.
Proof.
  destruct (AnkunftAbwarten_formel planung_abwarten (1, O) (2, O) 3
              ziel_wartend ziel_zubringer 615 620 615 eq_refl eq_refl eq_refl eq_refl)
    as [s' [H1 [H2 _]]].
  exists s'. split; [exact H1 | rewrite H2; reflexivity].
Defined.

(** X6 in the scenario S3: the departure delay is
    [max(619 + 2, 627 + 3) - 620 = 10]. *)
Lemma AbfahrtAbwarten_formel_S3 :
  exists s',
    AbfahrtAbwarten_anwenden (Some (2, O)) 3 (1, O) planung_abwarten = (Ok tt, s')
    /\ option_map Ziel.verspaetung_ab (ziel_von s' (1, O)) = Some 10.
Proof.
  destruct (AbfahrtAbwarten_formel planung_abwarten (1, O) (2, O) 3
              ziel_wartend ziel_zubringer 615 620 618 eq_refl eq_refl eq_refl eq_refl)
    as [s' [H1 [H2 _]]].
  exists s'. split; [exact H1 | rewrite H2; reflexivity].
Defined.

(** X8 for train 1 at "A": the fixed delay 7 of the dispatcher becomes
    the departure delay of the row and of its node. *)
Lemma abfahrt_korrigieren_fdl_fest_beispiel :
  exists s',
    abfahrt_korrigieren (ret tt) (mkNode TypH 1 "A") planung_fest = (Ok tt, s')
    /\ option_map Ziel.verspaetung_ab (ziel_von s' (1, O)) = Some 7
    /\ option_map v_ab (knoten_attribute s' (mkNode TypH 1 "A")) = Some 7.
Proof.
  edestruct (abfahrt_korrigieren_fdl_fest (ret tt) planung_fest (mkNode TypH 1 "A"))
    as [s' [H1 [H2 [H3 _]]]];
    [vm_compute; reflexivity ..|].
  exists s'. split; [exact H1|]. cbn [obj] in H2. rewrite H2, H3. split; reflexivity.
Defined.

(** X9 for train 1, which has arrived at "A" 4 minutes late. *)
Lemma ankunft_schaetzen_ohne_vorgaenger_beispiel :
  exists s',
    ankunft_schaetzen (mkNode TypH 1 "A") planung_fest = (Ok tt, s')
    /\ option_map Ziel.verspaetung_an (ziel_von s' (1, O)) = Some 4
    /\ option_map v_an (knoten_attribute s' (mkNode TypH 1 "A")) = Some 4.
Proof.
  edestruct (ankunft_schaetzen_ohne_vorgaenger planung_fest (mkNode TypH 1 "A"))
    as [s' [H1 [H2 H3]]];
    [vm_compute; reflexivity | vm_compute; reflexivity | vm_compute; reflexivity
     | left; vm_compute; reflexivity |].
  exists s'. split; [exact H1|]. cbn [obj] in H2. rewrite H2, H3. split; reflexivity.
Defined.

(** X10 for train 300, which runs to "B": an arrival at "A" is dropped. *)
Lemma ereignis_verworfen_beispiel :
  exists msg,
    ereignis_uebernehmen ankunft_veraltet planung_300 =
      (Ok tt,
       set_protokoll
         (protokoll planung_300 ++ [(DEBUG, "ereignis"%string)] ++ [(WARNING, msg)])
         planung_300).
Proof.
  apply (ereignis_verworfen planung_300 ankunft_veraltet).
  right. exists zug_300, 1. split; [vm_compute; reflexivity|].
  split; [vm_compute; reflexivity|].
  right. right. exists 0. split; vm_compute; reflexivity.
Defined.

(** X11 for train 300: the arrival at "B" at 10:15 gives the row the
    arrival delay 5, and the row "A" before it stays departed. *)
Lemma ereignis_ankunft_beispiel :
  exists s',
    ereignis_uebernehmen ankunft_in_B planung_300 = (Ok tt, s')
    /\ option_map (fun z => (Ziel.verspaetung_an z, Ziel.angekommen z))
                  (ziel_von s' (300, 1%nat)) = Some (5, Zeitpunkt 615)
    /\ option_map (fun z => (Ziel.angekommen z, Ziel.abgefahren z))
                  (ziel_von s' (300, O)) = Some (Wahr, Wahr).
Proof.
  destruct (ereignis_ankunft planung_300 ankunft_in_B zug_300 1 1 1%nat ziel_300_B 610)
    as [s' [H1 H2]];
    [vm_compute; reflexivity ..|intro H; vm_compute in H; discriminate|].
  exists s'. split; [exact H1|].
  cbn [Ereignis.zid ankunft_in_B] in H2.
  rewrite (H2 1%nat ziel_300_B eq_refl), (H2 O ziel_300_A eq_refl).
  split; reflexivity.
Defined.

(** X12 for train 300: the row "A", which the train has left with a
    delay of 3 minutes, keeps this departure delay in the sweep. *)
Lemma verspaetungen_korrigieren_abgefahren_beispiel :
  exists z',
    ziel_von (snd (verspaetungen_korrigieren planung_300)) (300, O) = Some z'
    /\ Ziel.verspaetung_ab z' = 3.
Proof.
  destruct (verspaetungen_korrigieren_abgefahren planung_300 (300, O) ziel_300_A)
    as [z' [H1 [_ [H3 _]]]];
    [vm_compute; reflexivity ..|].
  exists z'. split; [exact H1 | rewrite H3; reflexivity].
Defined.

(** X13 for train 300: the row "B" keeps its planned arrival and stays
    without an arrival mark in the sweep. *)
Lemma verspaetungen_korrigieren_nur_prognose_beispiel :
  exists z',
    ziel_von (snd (verspaetungen_korrigieren planung_300)) (300, 1%nat) = Some z'
    /\ ohne_prognose z' = ohne_prognose ziel_300_B.
Proof.
  apply (verspaetungen_korrigieren_nur_prognose planung_300 (300, 1%nat) ziel_300_B).
  vm_compute. reflexivity.
Defined.

(** X15 for train 1, which is missing in the next snapshot: its row
    keeps its data and is marked as departed. *)
Lemma zuege_uebernehmen_zeile_bleibt_beispiel :
  exists z',
    ziel_von (snd (zuege_uebernehmen anschluss_ohne_1 planung_am_gleis)) (1, O) = Some z'
    /\ bleibt ziel_am_gleis z'.
Proof.
  apply (zuege_uebernehmen_zeile_bleibt planung_am_gleis anschluss_ohne_1 (1, O) ziel_am_gleis).
  vm_compute. reflexivity.
Defined.

(** X16 for the two trains of [planung_am_gleis]. *)
Lemma zuege_uebernehmen_korrekturen_offen_beispiel :
  korrekturen_offen (snd (zuege_uebernehmen anschluss planung_am_gleis)) = true.
Proof.
  apply (zuege_uebernehmen_korrekturen_offen planung_am_gleis anschluss).
  vm_compute. reflexivity.
Defined.

(** X17 for train 100 of S1: the stop after the entry row has the
    number 1000 and is found by it. *)
Lemma assign_zug_details_zielnr_beispiel :
  exists z,
    nth_error (Zug.fahrplan zug_100_neu) 1 = Some z
    /\ Ziel.zielnr z = 1000
    /\ find_fahrplan_zielnr (Zug.fahrplan zug_100_neu) 1000 = Ok 1%nat.
Proof.
  assert (H : assign_zug_details snapshot_100 = Ok zug_100_neu) by (vm_compute; reflexivity).
  destruct (nth_error (Zug.fahrplan zug_100_neu) 1) as [z|] eqn:E; [|vm_compute in E; discriminate].
  destruct (proj1 (assign_zug_details_zielnr snapshot_100 zug_100_neu H) 1%nat z E)
    as [_ [H2 H3]].
  exists z. split; [reflexivity|]. split; [exact H2 | rewrite <- H3, H2; reflexivity].
Defined.

(** X18 for train 11: the arrival at 10:04 and the minimum dwell of 1
    minute give the departure 10:05, which is 2 minutes after the
    planned arrival 10:03 of train 12. *)
Lemma Ersatzzug_anwenden_formel_beispiel :
  exists s',
    Ersatzzug_anwenden (ret tt) (11, O) planung_uebergang = (Ok tt, s')
    /\ option_map (fun z => (Ziel.ab z, Ziel.verspaetung_ab z)) (ziel_von s' (11, O))
       = Some (Some 603, 2)
    /\ option_map Zug.verspaetung (zug_von s' 12) = Some 2.
Proof.
  destruct (Ersatzzug_anwenden_formel (ret tt) planung_uebergang (11, O) ziel_mit_ersatz
              600 12 zug_12 (halt_mit 12 0 "A" (Some 603) (Some 610) 0 None) [] 603
              eq_refl eq_refl eq_refl eq_refl eq_refl eq_refl)
    as [s' [H1 [H2 [[z' [H3 H4]] _]]]].
  exists s'. split; [exact H1|]. rewrite H2, H3. simpl. rewrite H4. split; reflexivity.
Defined.

(** X19 for train 13: the row keeps the departure delay 0, and train 12
    and its first row get the arrival delay 4. *)
Lemma Fluegelung_anwenden_formel_beispiel :
  exists s',
    Fluegelung_anwenden (ret tt) (13, O) planung_uebergang = (Ok tt, s')
    /\ option_map Ziel.verspaetung_ab (ziel_von s' (13, O)) = Some 0
    /\ option_map Zug.verspaetung (zug_von s' 12) = Some 4
    /\ option_map Ziel.verspaetung_an (ziel_von s' (12, O)) = Some 4.
Proof.
  destruct (Fluegelung_anwenden_formel (ret tt) planung_uebergang (13, O) ziel_mit_fluegel
              600 12 zug_12 eq_refl eq_refl eq_refl eq_refl)
    as [s' [H1 [H2 [[z' [H3 H4]] [f0 [H5 H6]]]]]];
    [discriminate|].
  exists s'. split; [exact H1|]. rewrite H2, H3, H5. simpl. rewrite H4, H6.
  repeat split.
Defined.

(** X20 in the scenario S4: both trains are planned at "A" at 10:30, so
    that the arrival of train 1 is put off by 2 minutes; it leaves on
    time. *)
Lemma Kupplung_anwenden_formel_S4 :
  exists s',
    Kupplung_anwenden verspaetungen_korrigieren (1, O) planung_S4_erschoepft = (Ok tt, s')
    /\ option_map (fun z => (Ziel.verspaetung_an z, Ziel.verspaetung_ab z))
                  (ziel_von s' (1, O)) = Some (2, 0).
Proof.
  edestruct (Kupplung_anwenden_formel planung_S4_erschoepft (1, O)) as [s' [H1 H2]];
    [vm_compute; reflexivity ..|].
  exists s'. split; [exact H1 | rewrite H2; vm_compute; reflexivity].
Defined.

(** X22 for train 300, which runs to "B": the node of "B" has the node
    of "A" as predecessor. *)
Lemma ankunft_schaetzen_keyerror_beispiel :
  ankunft_schaetzen (mkNode TypH 300 "B") planung_300 = (Raise KeyError, planung_300).
Proof.
  eapply (ankunft_schaetzen_keyerror planung_300 (mkNode TypH 300 "B"));
    [vm_compute; reflexivity | vm_compute; reflexivity | vm_compute; reflexivity
     | vm_compute; reflexivity | vm_compute; discriminate].
Defined.

(** ** The other kinds of events *)

Lemma py_position_nicht_leer (len : nat) (i : Z) (n : nat) :
  py_position len i = Some n -> len <> O.
Proof.
  unfold py_position. cbv zeta. intros H E. subst len. simpl in H.
  destruct (0 <=? i) eqn:E1; destruct (i <? 0) eqn:E2; simpl in H; try discriminate.
  - apply Z.leb_le in E1. apply Z.ltb_lt in E2. lia.
  - destruct (0 <=? i + 0) eqn:E3; [|discriminate].
    apply Z.leb_le in E3. apply Z.ltb_lt in E2. lia.
Qed.

(** An event that is not dropped is applied to the rows at the current
    position of the train and at the position of its plan track. *)
Lemma ereignis_angenommen (s : Planung) (ereignis : Ereignis.t) (zug : Zug.t)
    (alter_index neuer_index : Z) (alt : nat) :
  zug_von s (Ereignis.zid ereignis) = Some zug ->
  Zug.ziel_index zug = Some alter_index ->
  py_position (List.length (Zug.fahrplan zug)) alter_index = Some alt ->
  ereignis_neuer_index ereignis zug = Some neuer_index ->
  alter_index <= neuer_index ->
  (Z.to_nat neuer_index < List.length (Zug.fahrplan zug))%nat
  /\ ereignis_uebernehmen ereignis s =
       ereignis_anwenden ereignis (Ereignis.zid ereignis) alter_index alt
         (Z.to_nat neuer_index)
         (set_protokoll (protokoll s ++ [(DEBUG, "ereignis"%string)]) s).
Proof.
  intros Hzug Hidx Halt Hneu Hle.
  assert (Hne : Zug.fahrplan zug <> []).
  { intro E. apply (py_position_nicht_leer _ _ _ Halt). rewrite E. reflexivity. }
  pose proof (ereignis_neuer_index_gueltig _ _ _ Hne Hneu) as Hg.
  split; [lia|].
  unfold ereignis_uebernehmen.
  rewrite bind_eq. unfold logge at 1, aendere at 1.
  set (s1 := set_protokoll (protokoll s ++ [(DEBUG, "ereignis"%string)]) s).
  rewrite bind_eq. unfold lies at 1.
  change (zug_von s1 (Ereignis.zid ereignis)) with (zug_von s (Ereignis.zid ereignis)).
  rewrite Hzug, Hidx, Halt, Hneu.
  destruct (neuer_index <? alter_index) eqn:E; [apply Z.ltb_lt in E; lia|].
  rewrite (py_position_gueltig _ _ Hg). reflexivity.
Qed.

(** X23: a red-signal or green-signal event that is taken over sets the
    delay of the train and the arrival delay of the row at the plan
    track of the event to the delay of the event; the other rows stay
    as they are. *)
Theorem ereignis_signal (s : Planung) (ereignis : Ereignis.t) (zug : Zug.t)
    (alter_index neuer_index : Z) (alt : nat) :
  Ereignis.art ereignis = rothalt_art \/ Ereignis.art ereignis = wurdegruen_art ->
  zug_von s (Ereignis.zid ereignis) = Some zug ->
  Zug.ziel_index zug = Some alter_index ->
  py_position (List.length (Zug.fahrplan zug)) alter_index = Some alt ->
  ereignis_neuer_index ereignis zug = Some neuer_index ->
  alter_index <= neuer_index ->
  exists s',
    ereignis_uebernehmen ereignis s = (Ok tt, s')
    /\ (exists zug', zug_von s' (Ereignis.zid ereignis) = Some zug'
                     /\ Zug.verspaetung zug' = Ereignis.verspaetung ereignis)
    /\ forall j z,
         nth_error (Zug.fahrplan zug) j = Some z ->
         ziel_von s' (Ereignis.zid ereignis, j) =
           Some (if (j =? Z.to_nat neuer_index)%nat
                 then Ziel.set_verspaetung_an (Ereignis.verspaetung ereignis) z
                 else z).
Proof.
  intros Hart Hzug Hidx Halt Hneu Hle.
  destruct (ereignis_angenommen s ereignis zug alter_index neuer_index alt
              Hzug Hidx Halt Hneu Hle) as [Hlt E].
  rewrite E. clear E.
  set (s1 := set_protokoll (protokoll s ++ [(DEBUG, "ereignis"%string)]) s).
  set (neu := Z.to_nat neuer_index) in *.
  set (v := Ereignis.verspaetung ereignis).
  assert (Hzug1 : zug_von s1 (Ereignis.zid ereignis) = Some zug) by exact Hzug.
  set (s2 := zug_setzen (Ereignis.zid ereignis) (Zug.set_verspaetung v zug) s1).
  assert (Hzug2 : zug_von s2 (Ereignis.zid ereignis) = Some (Zug.set_verspaetung v zug))
    by apply zug_von_zug_setzen_eq.
  assert (Hrows2 : forall j, ziel_von s2 (Ereignis.zid ereignis, j)
                             = nth_error (Zug.fahrplan zug) j).
  { intro j. unfold ziel_von. simpl fst. rewrite Hzug2. reflexivity. }
  destruct (nth_error (Zug.fahrplan zug) neu) as [zn|] eqn:En;
    [|apply nth_error_None in En; lia].
  assert (Hzn : ziel_von s2 (Ereignis.zid ereignis, neu) = Some zn)
    by (rewrite Hrows2; exact En).
  destruct (ziel_aendern_wirkung (Ereignis.zid ereignis, neu) (Ziel.set_verspaetung_an v)
              zn s2 Hzn) as [s3 [E3 [Hz3 Hr3]]].
  assert (Hlauf : (zug_aendern (Ereignis.zid ereignis) (Zug.set_verspaetung v) ;;
                   ziel_aendern (Ereignis.zid ereignis, neu) (Ziel.set_verspaetung_an v)) s1
                  = (Ok tt, s3)).
  { rewrite bind_eq. unfold zug_aendern. rewrite bind_eq. unfold zug_objekt.
    rewrite Hzug1. unfold aendere. fold s2. exact E3. }
  exists s3. split.
  - unfold ereignis_anwenden. rewrite bind_eq. unfold zug_objekt at 1. rewrite Hzug1.
    destruct Hart as [Hart|Hart]; rewrite Hart; exact Hlauf.
  - split.
    + destruct (zug_von_ziel_setzen s2 (Ereignis.zid ereignis, neu)
                  (Ziel.set_verspaetung_an v zn) (Ereignis.zid ereignis) _ Hzug2)
        as [z' [Hz' _]].
      assert (Es3 : s3 = ziel_setzen (Ereignis.zid ereignis, neu)
                           (Ziel.set_verspaetung_an v zn) s2).
      { rewrite (ziel_aendern_ok _ _ _ _ Hzn) in E3. inversion E3. reflexivity. }
      rewrite Es3. unfold ziel_setzen. simpl fst. rewrite Hzug2.
      rewrite zug_von_zug_setzen_eq. eexists. split; reflexivity.
    + intros j z Hj. destruct (Nat.eq_dec j neu) as [Heq|Hneq].
      * subst j. rewrite Nat.eqb_refl, Hz3. rewrite En in Hj. inversion Hj. reflexivity.
      * assert (Hr : (Ereignis.zid ereignis, j) <> (Ereignis.zid ereignis, neu)) by congruence.
        rewrite (Hr3 _ Hr), Hrows2, Hj.
        assert (Ej : (j =? neu)%nat = false) by (apply Nat.eqb_neq; exact Hneq).
        rewrite Ej. reflexivity.
Qed.

(** X24: an exit event that is taken over.  When the last row of the
    train is its exit row, the row gets the delay of the event as
    arrival and departure delay and is marked as arrived and departed at
    the time of the event, and the train is marked as [ausgefahren]; the
    other rows stay as they are.  When the last row is no exit row, the
    event changes nothing but the log, and no warning is logged. *)
Theorem ereignis_ausfahrt (s : Planung) (ereignis : Ereignis.t) (zug : Zug.t)
    (alter_index neuer_index : Z) (alt : nat) (letzte : Ziel.t) :
  Ereignis.art ereignis = ausfahrt_art ->
  zug_von s (Ereignis.zid ereignis) = Some zug ->
  Zug.ziel_index zug = Some alter_index ->
  py_position (List.length (Zug.fahrplan zug)) alter_index = Some alt ->
  ereignis_neuer_index ereignis zug = Some neuer_index ->
  alter_index <= neuer_index ->
  nth_error (Zug.fahrplan zug) (Nat.pred (List.length (Zug.fahrplan zug))) = Some letzte ->
  let zeit := Ereignis.zeit ereignis in
  let v := Ereignis.verspaetung ereignis in
  exists s',
    ereignis_uebernehmen ereignis s = (Ok tt, s')
    /\ if Ziel.ausfahrt letzte then
         (exists zug', zug_von s' (Ereignis.zid ereignis) = Some zug'
                       /\ Zug.ausgefahren zug' = true)
         /\ forall j z,
              nth_error (Zug.fahrplan zug) j = Some z ->
              ziel_von s' (Ereignis.zid ereignis, j) =
                Some (if (j =? Nat.pred (List.length (Zug.fahrplan zug)))%nat
                      then Ziel.set_angekommen (Zeitpunkt zeit)
                             (Ziel.set_abgefahren (Zeitpunkt zeit)
                                (Ziel.set_verspaetung_an v (Ziel.set_verspaetung_ab v z)))
                      else z)
       else s' = set_protokoll (protokoll s ++ [(DEBUG, "ereignis"%string)]) s.
Proof.
  intros Hart Hzug Hidx Halt Hneu Hle Hletzte zeit v.
  destruct (ereignis_angenommen s ereignis zug alter_index neuer_index alt
              Hzug Hidx Halt Hneu Hle) as [_ E].
  rewrite E. clear E.
  set (s1 := set_protokoll (protokoll s ++ [(DEBUG, "ereignis"%string)]) s).
  set (n := Nat.pred (List.length (Zug.fahrplan zug))) in *.
  assert (Hzug1 : zug_von s1 (Ereignis.zid ereignis) = Some zug) by exact Hzug.
  assert (Hrows1 : forall j, ziel_von s1 (Ereignis.zid ereignis, j)
                             = nth_error (Zug.fahrplan zug) j).
  { intro j. unfold ziel_von. simpl fst. rewrite Hzug1. reflexivity. }
  assert (Hz1 : ziel_von s1 (Ereignis.zid ereignis, n) = Some letzte)
    by (rewrite Hrows1; exact Hletzte).
  unfold ereignis_anwenden. rewrite bind_eq. unfold zug_objekt at 1. rewrite Hzug1, Hart.
  fold n. rewrite bind_eq, (ziel_objekt_ok _ _ _ Hz1).
  destruct (Ziel.ausfahrt letzte); [|exists s1; split; reflexivity].
  destruct (ziel_aendern_wirkung (Ereignis.zid ereignis, n)
              (fun z => Ziel.set_verspaetung_an v (Ziel.set_verspaetung_ab v z))
              letzte s1 Hz1) as [s2 [E2 [Hz2 Hr2]]].
  fold v. rewrite bind_eq, E2.
  destruct (ziel_aendern_wirkung (Ereignis.zid ereignis, n)
              (fun z => Ziel.set_angekommen (Zeitpunkt zeit)
                          (Ziel.set_abgefahren (Zeitpunkt zeit) z))
              _ s2 Hz2) as [s3 [E3 [Hz3 Hr3]]].
  fold zeit. rewrite bind_eq, E3.
  assert (Hzug3 : exists zug3, zug_von s3 (Ereignis.zid ereignis) = Some zug3).
  { unfold ziel_von in Hz3. simpl fst in Hz3.
    destruct (zug_von s3 (Ereignis.zid ereignis)) as [z3|]; [exists z3; reflexivity | discriminate]. }
  destruct Hzug3 as [zug3 Hzug3].
  unfold zug_aendern. rewrite bind_eq. unfold zug_objekt. rewrite Hzug3. unfold aendere.
  eexists. split; [reflexivity|]. split.
  - eexists. split; [apply zug_von_zug_setzen_eq | reflexivity].
  - intros j z Hj.
    rewrite (ziel_von_zug_setzen_fahrplan s3 (Ereignis.zid ereignis) zug3
               (Zug.set_ausgefahren true zug3) _ Hzug3 eq_refl).
    destruct (Nat.eq_dec j n) as [Heq|Hneq].
    + subst j. rewrite Nat.eqb_refl, Hz3. rewrite Hletzte in Hj. inversion Hj. reflexivity.
    + assert (Hr : (Ereignis.zid ereignis, j) <> (Ereignis.zid ereignis, n)) by congruence.
      rewrite (Hr3 _ Hr), (Hr2 _ Hr), Hrows1, Hj.
      assert (Ej : (j =? n)%nat = false) by (apply Nat.eqb_neq; exact Hneq).
      rewrite Ej. reflexivity.
Qed.

(** X25: an entry event that is taken over.  When the first row of the
    train is its entry row, with the planned departure [p_d], the row
    gets the departure delay [zeit - p_d] and is marked as arrived and
    departed at the time of the event; the other rows stay as they are.
    When the first row is no entry row, the event changes nothing but
    the log. *)
Theorem ereignis_einfahrt (s : Planung) (ereignis : Ereignis.t) (zug : Zug.t)
    (alter_index neuer_index : Z) (alt : nat) (erste : Ziel.t) (p_d : Z) :
  Ereignis.art ereignis = einfahrt_art ->
  zug_von s (Ereignis.zid ereignis) = Some zug ->
  Zug.ziel_index zug = Some alter_index ->
  py_position (List.length (Zug.fahrplan zug)) alter_index = Some alt ->
  ereignis_neuer_index ereignis zug = Some neuer_index ->
  alter_index <= neuer_index ->
  nth_error (Zug.fahrplan zug) O = Some erste ->
  (Ziel.einfahrt erste = true -> Ziel.ab erste = Some p_d) ->
  let zeit := Ereignis.zeit ereignis in
  exists s',
    ereignis_uebernehmen ereignis s = (Ok tt, s')
    /\ if Ziel.einfahrt erste then
         forall j z,
           nth_error (Zug.fahrplan zug) j = Some z ->
           ziel_von s' (Ereignis.zid ereignis, j) =
             Some (if (j =? O)%nat
                   then Ziel.set_angekommen (Zeitpunkt zeit)
                          (Ziel.set_abgefahren (Zeitpunkt zeit)
                             (Ziel.set_verspaetung_ab (zeit - p_d) z))
                   else z)
       else s' = set_protokoll (protokoll s ++ [(DEBUG, "ereignis"%string)]) s.
Proof.
  intros Hart Hzug Hidx Halt Hneu Hle Herste Hab zeit.
  destruct (ereignis_angenommen s ereignis zug alter_index neuer_index alt
              Hzug Hidx Halt Hneu Hle) as [_ E].
  rewrite E. clear E.
  set (s1 := set_protokoll (protokoll s ++ [(DEBUG, "ereignis"%string)]) s).
  assert (Hzug1 : zug_von s1 (Ereignis.zid ereignis) = Some zug) by exact Hzug.
  assert (Hrows1 : forall j, ziel_von s1 (Ereignis.zid ereignis, j)
                             = nth_error (Zug.fahrplan zug) j).
  { intro j. unfold ziel_von. simpl fst. rewrite Hzug1. reflexivity. }
  assert (Hz1 : ziel_von s1 (Ereignis.zid ereignis, O) = Some erste)
    by (rewrite Hrows1; exact Herste).
  unfold ereignis_anwenden. rewrite bind_eq. unfold zug_objekt at 1. rewrite Hzug1, Hart.
  rewrite bind_eq, (ziel_objekt_ok _ _ _ Hz1).
  destruct (Ziel.einfahrt erste); [|exists s1; split; reflexivity].
  rewrite bind_eq. unfold hebe at 1. rewrite (Hab eq_refl). cbn [time_to_minutes].
  destruct (ziel_aendern_wirkung (Ereignis.zid ereignis, O)
              (Ziel.set_verspaetung_ab (zeit - p_d)) erste s1 Hz1) as [s2 [E2 [Hz2 Hr2]]].
  fold zeit. rewrite bind_eq, E2.
  destruct (ziel_aendern_wirkung (Ereignis.zid ereignis, O)
              (fun z => Ziel.set_angekommen (Zeitpunkt zeit)
                          (Ziel.set_abgefahren (Zeitpunkt zeit) z))
              _ s2 Hz2) as [s3 [E3 [Hz3 Hr3]]].
  rewrite E3. exists s3. split; [reflexivity|].
  intros j z Hj. destruct (Nat.eq_dec j O) as [Heq|Hneq].
  - subst j. rewrite Hz3. rewrite Herste in Hj. inversion Hj. reflexivity.
  - assert (Hr : (Ereignis.zid ereignis, j) <> (Ereignis.zid ereignis, O)) by congruence.
    rewrite (Hr3 _ Hr), (Hr2 _ Hr), Hrows1, Hj.
    assert (Ej : (j =? O)%nat = false) by (apply Nat.eqb_neq; exact Hneq).
    rewrite Ej. reflexivity.
Qed.

(** X23 for train 300 at the red signal before "B". *)
Lemma ereignis_signal_beispiel :
  exists s',
    ereignis_uebernehmen rothalt_300 planung_300 = (Ok tt, s')
    /\ option_map Zug.verspaetung (zug_von s' 300) = Some 6
    /\ option_map Ziel.verspaetung_an (ziel_von s' (300, 1%nat)) = Some 6
    /\ ziel_von s' (300, O) = Some ziel_300_A.
Proof.
  destruct (ereignis_signal planung_300 rothalt_300 zug_300 1 1 1%nat)
    as [s' [H1 [[zug' [H2 H3]] H4]]];
    [left; reflexivity | vm_compute; reflexivity | vm_compute; reflexivity
     | vm_compute; reflexivity | vm_compute; reflexivity
     | intro H; vm_compute in H; discriminate |].
  exists s'. split; [exact H1|].
  cbn [Ereignis.zid rothalt_300] in H2, H4.
  rewrite H2, (H4 1%nat ziel_300_B eq_refl), (H4 O ziel_300_A eq_refl). simpl.
  rewrite H3. repeat split.
Defined.

(** X24 for train 400, whose last row is the exit to "Y". *)
Lemma ereignis_ausfahrt_beispiel :
  exists s',
    ereignis_uebernehmen ausfahrt_400 planung_400 = (Ok tt, s')
    /\ option_map Zug.ausgefahren (zug_von s' 400) = Some true
    /\ option_map (fun z => (Ziel.verspaetung_an z, Ziel.verspaetung_ab z, Ziel.abgefahren z))
                  (ziel_von s' (400, 1%nat)) = Some (2, 2, Zeitpunkt 605).
Proof.
  destruct (ereignis_ausfahrt planung_400 ausfahrt_400 zug_400 0 1 O ziel_400_Y)
    as [s' [H1 H2]];
    [vm_compute; reflexivity ..|intro H; vm_compute in H; discriminate
     |vm_compute; reflexivity|].
  exists s'. split; [exact H1|].
  change (Ziel.ausfahrt ziel_400_Y) with true in H2. cbv iota in H2.
  destruct H2 as [[zug' [H2 H3]] H4].
  cbn [Ereignis.zid ausfahrt_400] in H2, H4.
  rewrite H2, (H4 1%nat ziel_400_Y eq_refl). simpl. rewrite H3. split; reflexivity.
Defined.

(** X25 for train 100 of S1, which enters 5 minutes late. *)
Lemma ereignis_einfahrt_beispiel :
  exists s',
    ereignis_uebernehmen einfahrt_100 planung_100 = (Ok tt, s')
    /\ option_map (fun z => (Ziel.verspaetung_ab z, Ziel.angekommen z, Ziel.abgefahren z))
                  (ziel_von s' (100, O)) = Some (5, Zeitpunkt 605, Zeitpunkt 605).
Proof.
  destruct (ereignis_einfahrt planung_100 einfahrt_100 zug_100 1 1 1%nat ziel_100_X 600)
    as [s' [H1 H2]];
    [vm_compute; reflexivity ..|intro H; vm_compute in H; discriminate
     |vm_compute; reflexivity|intros _; vm_compute; reflexivity|].
  exists s'. split; [exact H1|].
  change (Ziel.einfahrt ziel_100_X) with true in H2. cbv iota in H2.
  cbn [Ereignis.zid einfahrt_100] in H2.
  rewrite (H2 O ziel_100_X eq_refl). reflexivity.
Defined.

(** ** The rows of an entry and of an exit *)

Lemma zielnr_setzen_stamm (l : list Ziel.t) :
  forall n,
    List.length (zielnr_setzen n l) = List.length l
    /\ forall i z, nth_error (zielnr_setzen n l) i = Some z ->
                   exists z0, nth_error l i = Some z0 /\ stammdaten z = stammdaten z0.
Proof.
  induction l as [|a l IH]; intro n; simpl.
  - split; [reflexivity|]. intros i z H. destruct i; discriminate.
  - destruct (IH (n + 1)) as [IH1 IH2]. split; [rewrite IH1; reflexivity|].
    intros i z H. destruct i as [|i]; simpl in *.
    + inversion H. exists a. split; reflexivity.
    + apply IH2. exact H.
Qed.

Lemma ersten_aendern_length {A} (k : nat) (f : A -> A) (l : list A) :
  List.length (ersten_aendern k f l) = List.length l.
Proof.
  unfold ersten_aendern. rewrite length_app, length_map, <- length_app, firstn_skipn.
  reflexivity.
Qed.

Lemma startaufstellung_stamm (zug : ZugDetails.t) (fahrplan fahrplan' : list Ziel.t) :
  startaufstellung zug fahrplan = Ok fahrplan' ->
  List.length fahrplan' = List.length fahrplan
  /\ forall i z', nth_error fahrplan' i = Some z' ->
                  exists z, nth_error fahrplan i = Some z /\ stammdaten z' = stammdaten z.
Proof.
  unfold startaufstellung. cbv zeta.
  set (k := py_slice_laenge _ _). set (f := fun z : Ziel.t => _).
  assert (H1 : forall i z', nth_error (ersten_aendern k f fahrplan) i = Some z' ->
                            exists z, nth_error fahrplan i = Some z
                                      /\ stammdaten z' = stammdaten z).
  { intros i z'. rewrite nth_error_ersten_aendern.
    destruct (i <? k)%nat.
    - destruct (nth_error fahrplan i) as [z|]; [|discriminate].
      simpl. intro H. inversion H. subst z'. exists z. split; reflexivity.
    - intro H. exists z'. split; [exact H | reflexivity]. }
  destruct (ZugDetails.amgleis zug).
  - destruct (py_position _ _) as [p|]; [|discriminate].
    destruct (nth_error (ersten_aendern k f fahrplan) p) as [zp|] eqn:Ep; [|discriminate].
    intro H. inversion H. subst fahrplan'.
    split; [rewrite liste_setzen_length; apply ersten_aendern_length|].
    intros i z'. rewrite nth_error_liste_setzen.
    destruct (i =? p)%nat eqn:Eip.
    + apply Nat.eqb_eq in Eip. subst i. rewrite Ep. simpl.
      intro H'. inversion H'. subst z'.
      destruct (H1 p zp Ep) as [z [Hz Hs]].
      exists z. split; [exact Hz | rewrite <- Hs; reflexivity].
    + apply H1.
  - intro H. inversion H. subst fahrplan'.
    split; [apply ersten_aendern_length | exact H1].
Qed.

(** X26: the rows that [assign_zug_details] adds for the entry and the
    exit of a train.  An entry row is the first row of the timetable
    and exists only for a train that is not visible; it is at the
    origin of the train, and its arrival and departure are the planned
    arrival of the first row of the snapshot.  An exit row is the last
    row; it is at the destination of the train, and its arrival and
    departure are the planned departure of the last row of the
    snapshot.  A train that is not visible and has an origin outside
    the area gets an entry row, a train with a destination outside the
    area gets an exit row. *)
Theorem assign_zug_details_randziele (zug : ZugDetails.t) (zp : Zug.t) :
  assign_zug_details zug = Ok zp ->
  (forall i z,
      nth_error (Zug.fahrplan zp) i = Some z ->
      (Ziel.einfahrt z = true ->
       i = O /\ ZugDetails.sichtbar zug = false
       /\ Ziel.plan z = Zug.von zp /\ Ziel.gleis z = Zug.von zp
       /\ Ziel.an z = match ZugDetails.fahrplan zug with
                      | z0 :: _ => FahrplanZeile.an z0
                      | [] => None
                      end
       /\ Ziel.ab z = Ziel.an z)
      /\ (Ziel.ausfahrt z = true ->
          S i = List.length (Zug.fahrplan zp)
          /\ Ziel.plan z = Zug.nach zp /\ Ziel.gleis z = Zug.nach zp
          /\ Ziel.ab z = match rev (ZugDetails.fahrplan zug) with
                         | z0 :: _ => FahrplanZeile.ab z0
                         | [] => None
                         end
          /\ Ziel.an z = Ziel.ab z))
  /\ (ZugDetails.sichtbar zug = false -> nicht_leer (Zug.von zp) = true ->
      String.prefix "Gleis" (ZugDetails.von zug) = false ->
      exists z, nth_error (Zug.fahrplan zp) O = Some z /\ Ziel.einfahrt z = true)
  /\ (nicht_leer (Zug.nach zp) = true ->
      String.prefix "Gleis" (ZugDetails.nach zug) = false ->
      exists z, nth_error (Zug.fahrplan zp) (Nat.pred (List.length (Zug.fahrplan zp))) = Some z
                /\ Ziel.ausfahrt z = true).
Proof.
  unfold assign_zug_details. cbv zeta.
  set (zid := ZugDetails.zid zug).
  set (von := if nicht_leer (ZugDetails.von zug) then _ else EmptyString).
  set (nach := if nicht_leer (ZugDetails.nach zug) then _ else EmptyString).
  set (an0 := match ZugDetails.fahrplan zug with z0 :: _ => FahrplanZeile.an z0 | [] => None end).
  set (ab1 := match rev (ZugDetails.fahrplan zug) with
              | z0 :: _ => FahrplanZeile.ab z0 | [] => None end).
  set (ce := (negb (ZugDetails.sichtbar zug) && nicht_leer von
              && negb (String.prefix "Gleis" (ZugDetails.von zug)))%bool).
  set (ca := (nicht_leer nach && negb (String.prefix "Gleis" (ZugDetails.nach zug)))%bool).
  set (einfahrt := if ce then [randziel zid von an0 true] else []).
  set (ausfahrt := if ca then [randziel zid nach ab1 false] else []).
  set (mitte := map (assign_fahrplan_zeile zid) (ZugDetails.fahrplan zug)).
  set (roh := einfahrt ++ mitte ++ ausfahrt).
  (* the rows before the numbering *)
  assert (Hm : forall z0, In z0 mitte -> Ziel.einfahrt z0 = false /\ Ziel.ausfahrt z0 = false).
  { intros z0 H. apply in_map_iff in H. destruct H as [x [Hx _]]. subst z0.
    split; reflexivity. }
  assert (Ha : forall z0, In z0 ausfahrt -> z0 = randziel zid nach ab1 false).
  { intros z0 H. unfold ausfahrt in H. destruct ca; simpl in H;
      [destruct H as [H|[]]; congruence | contradiction]. }
  assert (He : forall z0, In z0 einfahrt -> z0 = randziel zid von an0 true /\ ce = true).
  { intros z0 H. unfold einfahrt in H. destruct ce; simpl in H;
      [destruct H as [H|[]]; split; congruence | contradiction]. }
  assert (R1 : forall i z0, nth_error roh i = Some z0 -> Ziel.einfahrt z0 = true ->
                            i = O /\ ce = true /\ z0 = randziel zid von an0 true).
  { intros i z0 H Hein.
    assert (Hrest : forall j, nth_error (mitte ++ ausfahrt) j = Some z0 -> False).
    { intros j Hj. apply nth_error_In in Hj. apply in_app_or in Hj.
      destruct Hj as [Hj|Hj].
      - destruct (Hm z0 Hj) as [Hf _]. congruence.
      - rewrite (Ha z0 Hj) in Hein. discriminate. }
    unfold roh, einfahrt in H. destruct ce eqn:Ece; simpl in H.
    - destruct i as [|i]; simpl in H.
      + inversion H. repeat split.
      + exfalso. apply (Hrest i H).
    - exfalso. apply (Hrest i H). }
  assert (R2 : forall i z0, nth_error roh i = Some z0 -> Ziel.ausfahrt z0 = true ->
                            S i = List.length roh /\ z0 = randziel zid nach ab1 false).
  { intros i z0 H Haus.
    unfold roh in H |- *. rewrite app_assoc in H |- *.
    destruct (Nat.lt_ge_cases i (List.length (einfahrt ++ mitte))) as [Hlt|Hge].
    - exfalso. rewrite nth_error_app1 in H by exact Hlt.
      apply nth_error_In in H. apply in_app_or in H. destruct H as [H|H].
      + destruct (He z0 H) as [Hz _]. rewrite Hz in Haus. discriminate.
      + destruct (Hm z0 H) as [_ Hf]. congruence.
    - rewrite nth_error_app2 in H by exact Hge.
      pose proof (nth_error_In _ _ H) as Hin.
      split; [|apply Ha; exact Hin].
      rewrite length_app. unfold ausfahrt in H |- *. destruct ca; simpl in H |- *.
      + destruct (i - List.length (einfahrt ++ mitte))%nat eqn:Ed; simpl in H.
        * lia.
        * destruct n; discriminate.
      + destruct (i - List.length (einfahrt ++ mitte))%nat; discriminate. }
  assert (E1 : ce = true -> exists z0, nth_error roh O = Some z0 /\ Ziel.einfahrt z0 = true).
  { intro H. unfold roh, einfahrt. rewrite H. eexists. split; reflexivity. }
  assert (E2 : ca = true ->
               exists z0, nth_error roh (Nat.pred (List.length roh)) = Some z0
                          /\ Ziel.ausfahrt z0 = true).
  { intro H. unfold roh. rewrite app_assoc, length_app. unfold ausfahrt. rewrite H.
    simpl List.length. rewrite Nat.add_1_r. simpl Nat.pred.
    rewrite nth_error_app2 by lia. rewrite Nat.sub_diag.
    eexists. split; reflexivity. }
  (* the rows of the train *)
  assert (Hende : forall fahrplan,
            List.length fahrplan = List.length roh ->
            (forall i z, nth_error fahrplan i = Some z ->
                         exists z0, nth_error roh i = Some z0 /\ stammdaten z = stammdaten z0) ->
            (ZugDetails.sichtbar zug = true -> ce = false) ->
            (forall i z,
                nth_error fahrplan i = Some z ->
                (Ziel.einfahrt z = true ->
                 i = O /\ ZugDetails.sichtbar zug = false
                 /\ Ziel.plan z = von /\ Ziel.gleis z = von
                 /\ Ziel.an z = an0 /\ Ziel.ab z = Ziel.an z)
                /\ (Ziel.ausfahrt z = true ->
                    S i = List.length fahrplan
                    /\ Ziel.plan z = nach /\ Ziel.gleis z = nach
                    /\ Ziel.ab z = ab1 /\ Ziel.an z = Ziel.ab z))
            /\ (ZugDetails.sichtbar zug = false -> nicht_leer von = true ->
                String.prefix "Gleis" (ZugDetails.von zug) = false ->
                exists z, nth_error fahrplan O = Some z /\ Ziel.einfahrt z = true)
            /\ (nicht_leer nach = true ->
                String.prefix "Gleis" (ZugDetails.nach zug) = false ->
                exists z, nth_error fahrplan (Nat.pred (List.length fahrplan)) = Some z
                          /\ Ziel.ausfahrt z = true)).
  { intros fahrplan Hlen Hrows Hsicht.
    assert (Hex : forall i z0, nth_error roh i = Some z0 ->
                               exists z, nth_error fahrplan i = Some z
                                         /\ stammdaten z = stammdaten z0).
    { intros i z0 H0.
      destruct (nth_error fahrplan i) as [z|] eqn:Ez.
      - exists z. split; [reflexivity|].
        destruct (Hrows i z Ez) as [z1 [Hz1 Hs]]. rewrite H0 in Hz1. inversion Hz1.
        subst z1. exact Hs.
      - exfalso. apply nth_error_None in Ez.
        assert (i < List.length roh)%nat by (apply nth_error_Some; rewrite H0; discriminate).
        lia. }
    split; [|split].
    - intros i z Hz. destruct (Hrows i z Hz) as [z0 [Hz0 Hs]].
      unfold stammdaten in Hs. inversion Hs as [[Hs1 Hs2 Hs3 Hs4 Hs5 Hs6]].
      split.
      + intro Hein. rewrite Hs1 in Hein.
        destruct (R1 i z0 Hz0 Hein) as [Hi [Hce Hr]].
        split; [exact Hi|]. split.
        * destruct (ZugDetails.sichtbar zug) eqn:Es; [|reflexivity].
          rewrite (Hsicht eq_refl) in Hce. discriminate.
        * rewrite Hs3, Hs4, Hs5, Hs6, Hr. repeat split.
      + intro Haus. rewrite Hs2 in Haus.
        destruct (R2 i z0 Hz0 Haus) as [Hi Hr].
        split; [rewrite Hlen; exact Hi|].
        rewrite Hs3, Hs4, Hs5, Hs6, Hr. repeat split.
    - intros H1 H2 H3.
      assert (Hce : ce = true) by (unfold ce; rewrite H1, H2, H3; reflexivity).
      destruct (E1 Hce) as [z0 [Hz0 Hein]].
      destruct (Hex O z0 Hz0) as [z [Hz Hs]].
      exists z. split; [exact Hz|].
      unfold stammdaten in Hs. inversion Hs as [[Hs1 Hs2 Hs3 Hs4 Hs5 Hs6]].
      rewrite Hs1. exact Hein.
    - intros H1 H2.
      assert (Hca : ca = true) by (unfold ca; rewrite H1, H2; reflexivity).
      destruct (E2 Hca) as [z0 [Hz0 Haus]].
      rewrite Hlen.
      destruct (Hex _ z0 Hz0) as [z [Hz Hs]].
      exists z. split; [exact Hz|].
      unfold stammdaten in Hs. inversion Hs as [[Hs1 Hs2 Hs3 Hs4 Hs5 Hs6]].
      rewrite Hs2. exact Haus. }
  destruct (zielnr_setzen_stamm roh 0) as [Hn1 Hn2].
  destruct (ZugDetails.sichtbar zug) eqn:Es.
  - destruct (startaufstellung zug (zielnr_setzen 0 roh)) as [fahrplan'|e] eqn:Est;
      [|discriminate].
    intro H. inversion H. subst zp. simpl.
    destruct (startaufstellung_stamm zug _ _ Est) as [Hl Hr].
    apply Hende.
    + rewrite Hl. exact Hn1.
    + intros i z Hz. destruct (Hr i z Hz) as [z1 [Hz1 Hs1]].
      destruct (Hn2 i z1 Hz1) as [z0 [Hz0 Hs0]].
      exists z0. split; [exact Hz0 | rewrite Hs1; exact Hs0].
    + intros _. reflexivity.
  - intro H. inversion H. subst zp. simpl.
    apply Hende; [exact Hn1 | exact Hn2 | discriminate].
Qed.

(** X26 for train 100 of S1, which enters from "X": its first row is
    the entry row at "X" with the planned time 10:00. *)
Lemma assign_zug_details_randziele_beispiel :
  exists z,
    nth_error (Zug.fahrplan zug_100_neu) O = Some z
    /\ Ziel.einfahrt z = true
    /\ Ziel.plan z = "X"%string
    /\ Ziel.an z = Some 600.
Proof.
  assert (H : assign_zug_details snapshot_100 = Ok zug_100_neu) by (vm_compute; reflexivity).
  destruct (assign_zug_details_randziele snapshot_100 zug_100_neu H) as [H1 [H2 _]].
  destruct H2 as [z [Hz Hein]]; [reflexivity ..|].
  destruct (proj1 (H1 O z Hz) Hein) as [_ [_ [Hp [_ [Han _]]]]].
  exists z. split; [exact Hz|]. split; [exact Hein|].
  split; [rewrite Hp; reflexivity | rewrite Han; reflexivity].
Defined.

(** * The entry rule and the trains that are missing in a snapshot *)

(** ** The entry rule on the rows of the engine *)

(** [assign_zug_details] gives an entry row the planned arrival of the
    first row of the snapshot as arrival and as departure. *)
Lemma assign_zug_details_einfahrt_zeiten (zug : ZugDetails.t) (zp : Zug.t) (i : nat)
    (z : Ziel.t) :
  assign_zug_details zug = Ok zp ->
  nth_error (Zug.fahrplan zp) i = Some z ->
  Ziel.einfahrt z = true ->
  Ziel.ab z = Ziel.an z.
Proof.
  unfold assign_zug_details. cbv zeta.
  set (zid := ZugDetails.zid zug).
  set (einfahrt := if (_ && _ && _)%bool then _ else []).
  set (ausfahrt := if (_ && _)%bool then _ else []).
  set (roh := einfahrt ++ map (assign_fahrplan_zeile zid) (ZugDetails.fahrplan zug) ++ ausfahrt).
  assert (Hroh : forall j z0, nth_error roh j = Some z0 -> Ziel.einfahrt z0 = true ->
                              Ziel.ab z0 = Ziel.an z0).
  { intros j z0 H Hein. apply nth_error_In in H. unfold roh in H.
    apply in_app_or in H. destruct H as [H|H].
    - unfold einfahrt in H.
      match type of H with In _ (if ?c then _ else _) => destruct c end; simpl in H;
        [destruct H as [H|[]]; subst z0; reflexivity | contradiction].
    - apply in_app_or in H. destruct H as [H|H].
      + apply in_map_iff in H. destruct H as [x [Hx _]]. subst z0. discriminate Hein.
      + unfold ausfahrt in H.
        match type of H with In _ (if ?c then _ else _) => destruct c end; simpl in H;
          [destruct H as [H|[]]; subst z0; discriminate Hein | contradiction]. }
  assert (Hende : forall fahrplan,
            (forall j z', nth_error fahrplan j = Some z' ->
                          exists z0, nth_error roh j = Some z0
                                     /\ stammdaten z' = stammdaten z0) ->
            nth_error fahrplan i = Some z -> Ziel.einfahrt z = true ->
            Ziel.ab z = Ziel.an z).
  { intros fahrplan Hf Hz Hein. destruct (Hf i z Hz) as [z0 [Hz0 Hs]].
    unfold stammdaten in Hs. inversion Hs as [[Hs1 Hs2 Hs3 Hs4 Hs5 Hs6]].
    rewrite Hs5, Hs6. apply (Hroh i z0 Hz0). rewrite <- Hs1. exact Hein. }
  destruct (zielnr_setzen_stamm roh 0) as [_ Hn2].
  destruct (ZugDetails.sichtbar zug).
  - destruct (startaufstellung zug (zielnr_setzen 0 roh)) as [fahrplan'|e] eqn:Est;
      [|discriminate].
    intro H. inversion H. subst zp. simpl. apply Hende.
    intros j z' Hz'.
    destruct (proj2 (startaufstellung_stamm zug _ _ Est) j z' Hz') as [z1 [Hz1 Hs1]].
    destruct (Hn2 j z1 Hz1) as [z0 [Hz0 Hs0]].
    exists z0. split; [exact Hz0 | rewrite Hs1; exact Hs0].
  - intro H. inversion H. subst zp. simpl. apply Hende. exact Hn2.
Qed.

(** C4: [Einfahrtszeit.anwenden] sets
    [departure_delay = max(a, sim_clock_min) - p_d] with
    [a = p_a + arrival_delay] and [p_d] the planned departure,
    [p_a + min_dwell] when it is absent, for every row with a planned
    arrival [p_a] that has a planned departure or the minimum dwell 0.
    (For every row with a planned arrival the rule takes [p_a] itself
    for an absent planned departure.)  The entry rows are rows with a
    planned departure: [assign_zug_details] gives an entry row its
    planned arrival as planned departure.  In the scenario S1 the sweep
    leaves the entry row of train 100 with the arrival delay 0 and the
    departure delay 5 (it goes on to the row after it, where it ends). *)
Theorem C4_einfahrtszeit :
  (forall (s : Planung) (r : ZielRef) (ziel : Ziel.t) (p_a : Z),
      ziel_von s r = Some ziel ->
      Ziel.an ziel = Some p_a ->
      (Ziel.ab ziel = None -> Ziel.mindestaufenthalt ziel = 0) ->
      let a := p_a + Ziel.verspaetung_an ziel in
      let p_d := match Ziel.ab ziel with
                 | Some t => t
                 | None => p_a + Ziel.mindestaufenthalt ziel
                 end in
      exists s',
        Einfahrtszeit_anwenden r s = (Ok tt, s')
        /\ ziel_von s' r =
             Some (Ziel.set_verspaetung_ab (Z.max a (simzeit_minuten s) - p_d) ziel))
  /\ (forall (s : Planung) (r : ZielRef) (ziel : Ziel.t) (p_a : Z),
         ziel_von s r = Some ziel ->
         Ziel.an ziel = Some p_a ->
         let a := p_a + Ziel.verspaetung_an ziel in
         let p_d := match Ziel.ab ziel with Some t => t | None => p_a end in
         exists s',
           Einfahrtszeit_anwenden r s = (Ok tt, s')
           /\ ziel_von s' r =
                Some (Ziel.set_verspaetung_ab (Z.max a (simzeit_minuten s) - p_d) ziel))
  /\ (forall (zug : ZugDetails.t) (zp : Zug.t) (i : nat) (z : Ziel.t),
         assign_zug_details zug = Ok zp ->
         nth_error (Zug.fahrplan zp) i = Some z ->
         Ziel.einfahrt z = true ->
         Ziel.ab z = Ziel.an z)
  /\ (let s' := snd (verspaetungen_korrigieren planung_100) in
      option_map (fun z => (Ziel.einfahrt z, Ziel.verspaetung_an z, Ziel.verspaetung_ab z))
                 (ziel_von s' (100, O)) = Some (true, 0, 5)).
Proof.
  split; [|split; [|split]].
  - intros s r ziel p_a Hz Han Hab a p_d.
    destruct (Einfahrtszeit_anwenden_formel s r ziel p_a Hz Han) as [s' [H1 H2]].
    exists s'. split; [exact H1|]. rewrite H2. subst a p_d.
    destruct (Ziel.ab ziel); [reflexivity|].
    rewrite (Hab eq_refl), Z.add_0_r. reflexivity.
  - apply Einfahrtszeit_anwenden_formel.
  - apply assign_zug_details_einfahrt_zeiten.
  - vm_compute. reflexivity.
Qed.

(** C4 at the entry row of train 100 in the scenario S1, planned at
    10:00 with the simulator clock at 10:05. *)
Lemma C4_einfahrtszeit_S1 :
  exists s',
    Einfahrtszeit_anwenden (100, O) planung_100 = (Ok tt, s')
    /\ option_map Ziel.verspaetung_ab (ziel_von s' (100, O)) = Some 5.
Proof.
  destruct (proj1 C4_einfahrtszeit planung_100 (100, O) ziel_100_X 600)
    as [s' [H1 H2]];
    [vm_compute; reflexivity | reflexivity | intro H; discriminate H |].
  exists s'. split; [exact H1 | rewrite H2; reflexivity].
Defined.

(** ** A train that is missing in a snapshot and not visible *)

Lemma ausfahrt_markieren_unsichtbar (zid zid' : Z) (zug : Zug.t) :
  Zug.sichtbar zug = false ->
  erhaelt (fun s => zug_von s zid = Some zug) (ausfahrt_markieren zid').
Proof.
  intros Hs s H. unfold ausfahrt_markieren, bind, lies, aendere, ret.
  destruct (zug_von s zid') as [z'|] eqn:E; [|exact H].
  destruct (Zug.sichtbar z') eqn:Es; [|exact H]. simpl.
  destruct (Z.eq_dec zid zid') as [Heq|Hne].
  - subst zid'. rewrite E in H. inversion H. subst z'. congruence.
  - rewrite zug_von_zug_setzen_neq by exact Hne. exact H.
Qed.

Lemma map_liste_setzen_gleich {A B} (f : A -> B) (i : nat) (x y : A) (l : list A) :
  nth_error l i = Some x -> f y = f x -> map f (liste_setzen i y l) = map f l.
Proof.
  revert i. induction l as [|a l IH]; intros i; destruct i; simpl; try discriminate.
  - intros H Hf. inversion H. subst a. rewrite Hf. reflexivity.
  - intros H Hf. rewrite (IH i H Hf). reflexivity.
Qed.

Lemma ohne_anschluesse_ziel_aendern (zid : Z) (A : Zug.t) (r : ZielRef)
    (f : Ziel.t -> Ziel.t) :
  (forall x, ohne_korrekturen (f x) = ohne_korrekturen x) ->
  erhaelt (zug_erfuellt zid (fun z' => ohne_anschluesse z' = A)) (ziel_aendern r f).
Proof.
  intros Hf s [z [Hz HP]]. unfold ziel_aendern, bind, ziel_objekt, aendere.
  destruct (ziel_von s r) as [x|] eqn:E; simpl; [|exists z; split; assumption].
  unfold ziel_setzen. unfold ziel_von in E.
  destruct (zug_von s (fst r)) as [z1|] eqn:E1; [|discriminate].
  destruct (Z.eq_dec zid (fst r)) as [Heq|Hne].
  - subst zid. rewrite E1 in Hz. inversion Hz. subst z1.
    eexists. split; [apply zug_von_zug_setzen_eq|].
    rewrite <- HP. unfold ohne_anschluesse. simpl.
    rewrite (map_liste_setzen_gleich ohne_korrekturen (snd r) x (f x) _ E (Hf x)).
    reflexivity.
  - exists z. split; [|exact HP].
    rewrite zug_von_zug_setzen_neq by exact Hne. exact Hz.
Qed.

Lemma ohne_anschluesse_zug_aendern (zid : Z) (A : Zug.t) (zid' : Z) (f : Zug.t -> Zug.t) :
  (forall z, ohne_anschluesse (f z) = ohne_anschluesse z) ->
  erhaelt (zug_erfuellt zid (fun z' => ohne_anschluesse z' = A)) (zug_aendern zid' f).
Proof.
  intros Hf s [z [Hz HP]]. unfold zug_aendern, bind, zug_objekt, aendere.
  destruct (zug_von s zid') as [z1|] eqn:E; simpl; [|exists z; split; assumption].
  destruct (Z.eq_dec zid zid') as [Heq|Hne].
  - subst zid'. rewrite E in Hz. inversion Hz. subst z1.
    exists (f z). split; [apply zug_von_zug_setzen_eq | rewrite Hf; exact HP].
  - exists z. split; [|exact HP].
    rewrite zug_von_zug_setzen_neq by exact Hne. exact Hz.
Qed.

(** The steps of [zuege_uebernehmen] after its two loops write nothing
    of a train but the peer references, the minimum dwell times and the
    automatic rules of its rows, and [korrekturen_definiert]. *)
Lemma ohne_anschluesse_erhalten (zid : Z) (A : Zug.t) :
  erhaelt (zug_erfuellt zid (fun z' => ohne_anschluesse z' = A))
    (_zielgraph_erstellen ;; _folgezuege_aufloesen ;;
     _zugbaum_analysieren ;; korrekturen_definieren).
Proof.
  apply erhaelt_bind; [|intros _; apply erhaelt_bind; [|intros _; apply erhaelt_bind]].
  - apply uebernahme_zielgraph_erstellen.
    + intros s g H. exact H.
    + intros s g H. exact H.
    + intros u v k s [z [Hz HP]]. exists z. split; [|exact HP].
      apply zug_von_add_edge. exact Hz.
  - apply uebernahme_folgezuege_aufloesen; intros r v;
      apply ohne_anschluesse_ziel_aendern; intro; reflexivity.
  - apply uebernahme_zugbaum_analysieren. intros s l H. exact H.
  - intros _. apply uebernahme_korrekturen_definieren.
    + intros r g.
      apply (ohne_anschluesse_ziel_aendern zid A r
               (fun z => Ziel.set_mindestaufenthalt (g z) z)).
      intro; reflexivity.
    + intros r v. apply ohne_anschluesse_ziel_aendern. intro; reflexivity.
    + intros zid' result. apply ohne_anschluesse_zug_aendern. intro; reflexivity.
Qed.

(** C8: a train that is known to the engine and whose [zid] is not in
    the snapshot, once [zuege_uebernehmen] has returned.  A train that
    was visible carries the marks: [ausgefahren] is set, [sichtbar] and
    [amgleis] are cleared, [gleis] and [plangleis] are empty, and every
    row is marked as departed.  A train that was not visible is not
    marked: its flag [ausgefahren], its visibility, its tracks and the
    departure marks of its rows are as before, and nothing else of it
    has changed but the peer references, the minimum dwell times and
    the automatic rules of its rows and [korrekturen_definiert]. *)
Theorem C8_ausgefahrene_zuege (s s' : Planung) (zuege : list ZugDetails.t)
    (zid : Z) (zug : Zug.t) :
  zug_von s zid = Some zug ->
  zid_in zid zuege = false ->
  zuege_uebernehmen zuege s = (Ok tt, s') ->
  (Zug.sichtbar zug = true ->
   exists zug',
     zug_von s' zid = Some zug'
     /\ Zug.ausgefahren zug' = true
     /\ Zug.sichtbar zug' = false
     /\ Zug.amgleis zug' = false
     /\ Zug.gleis zug' = EmptyString
     /\ Zug.plangleis zug' = EmptyString
     /\ Forall (fun zeile => wahr (Ziel.abgefahren zeile) = true) (Zug.fahrplan zug'))
  /\ (Zug.sichtbar zug = false ->
      exists zug',
        zug_von s' zid = Some zug'
        /\ ohne_anschluesse zug' = ohne_anschluesse zug
        /\ Zug.ausgefahren zug' = Zug.ausgefahren zug
        /\ Zug.sichtbar zug' = false
        /\ Zug.amgleis zug' = Zug.amgleis zug
        /\ Zug.gleis zug' = Zug.gleis zug
        /\ Zug.plangleis zug' = Zug.plangleis zug
        /\ map Ziel.abgefahren (Zug.fahrplan zug')
           = map Ziel.abgefahren (Zug.fahrplan zug)).
Proof.
  intros Hz Hin Hrun. split.
  - intro Hs. apply (sichtbarer_zug_markiert s s' zuege zid zug Hz Hs Hin Hrun).
  - intro Hs.
    unfold zuege_uebernehmen in Hrun.
    apply bind_ok in Hrun. destruct Hrun as [bekannt [s0 [H0 Hrun]]].
    unfold lies in H0. injection H0 as Hbekannt Hs0. subst s0.
    apply bind_ok in Hrun. destruct Hrun as [[] [s1 [Hlauf1 Hrun]]].
    apply bind_ok in Hrun. destruct Hrun as [[] [s2 [Hlauf2 Hrun]]].
    assert (Hz1 : zug_von s1 zid = Some zug).
    { pose proof (zuege_uebernehmen_anderer zid zug zuege Hin s Hz) as H.
      rewrite Hlauf1 in H. exact H. }
    assert (Hz2 : zug_von s2 zid = Some zug).
    { pose proof (erhaelt_fuer (fun s => zug_von s zid = Some zug)
                    (filter (fun zid0 => negb (zid_in zid0 zuege)) bekannt)
                    ausfahrt_markieren
                    (fun zid' => ausfahrt_markieren_unsichtbar zid zid' zug Hs) s1 Hz1) as H.
      rewrite Hlauf2 in H. exact H. }
    assert (He : zug_erfuellt zid
                   (fun z' => ohne_anschluesse z' = ohne_anschluesse zug) s').
    { pose proof (ohne_anschluesse_erhalten zid (ohne_anschluesse zug) s2) as H.
      rewrite Hrun in H. apply H. exists zug. split; [exact Hz2 | reflexivity]. }
    destruct He as [zug' [Hz' HP]]. exists zug'. split; [exact Hz'|].
    split; [exact HP|].
    pose proof (f_equal Zug.ausgefahren HP) as H1.
    pose proof (f_equal Zug.sichtbar HP) as H2.
    pose proof (f_equal Zug.amgleis HP) as H3.
    pose proof (f_equal Zug.gleis HP) as H4.
    pose proof (f_equal Zug.plangleis HP) as H5.
    pose proof (f_equal (fun z => map Ziel.abgefahren (Zug.fahrplan z)) HP) as H6.
    simpl in H1, H2, H3, H4, H5, H6. rewrite !map_map in H6.
    repeat split; try assumption. congruence.
Qed.

(** C8 at train 1, which stands at track "A" and is missing in the next
    snapshot, and at train 2, which has not been visible and is missing
    in the next snapshot. *)
Lemma C8_ausgefahrene_zuege_beispiel :
  (exists zug',
      zug_von (snd (zuege_uebernehmen anschluss_ohne_1 planung_am_gleis)) 1 = Some zug'
      /\ Zug.ausgefahren zug' = true
      /\ Zug.sichtbar zug' = false
      /\ Zug.amgleis zug' = false
      /\ Zug.gleis zug' = EmptyString
      /\ Zug.plangleis zug' = EmptyString
      /\ Forall (fun zeile => wahr (Ziel.abgefahren zeile) = true) (Zug.fahrplan zug'))
  /\ (exists zug',
         zug_von (snd (zuege_uebernehmen anschluss_ohne_2 planung_am_gleis)) 2 = Some zug'
         /\ Zug.ausgefahren zug' = false
         /\ Zug.sichtbar zug' = false
         /\ map Ziel.abgefahren (Zug.fahrplan zug') = [Falsch]).
Proof.
  split.
  - refine (proj1 (C8_ausgefahrene_zuege planung_am_gleis _ anschluss_ohne_1 1 zug_am_gleis
                     _ _ _) _); vm_compute; reflexivity.
  - edestruct (C8_ausgefahrene_zuege planung_am_gleis
                 (snd (zuege_uebernehmen anschluss_ohne_2 planung_am_gleis))
                 anschluss_ohne_2 2) as [_ H];
      [vm_compute; reflexivity ..|].
    destruct H as [zug' [H1 [_ [H3 [H4 [_ [_ [_ H8]]]]]]]]; [vm_compute; reflexivity|].
    exists zug'. split; [exact H1|].
    split; [rewrite H3; vm_compute; reflexivity|].
    split; [exact H4 | rewrite H8; vm_compute; reflexivity].
Defined.
